(** * tkintertokivy: the runtime shim and the textual translator

    A shallow embedding of [tkintertokivy.py].  Python objects become
    records, attributes that may be absent ([hasattr]/[getattr] with a
    default) become [option] fields, dictionaries become [gmap]s, console
    output becomes a list of printed lines, and a call that may raise
    returns an [outcome].

    Strings are Rocq strings read as sequences of code points below 256. *)

From Stdlib Require Import ZArith List String Ascii Bool Lia DecimalString.
From Stdlib Require QArith_base DecimalZ DecimalPos.
From stdpp Require Import base option gmap strings list.

Local Open Scope string_scope.
Local Open Scope Z_scope.

(** ** Python values and built-ins *)

Module Py.

(** The exception classes the modelled code can meet. *)
Inductive exn := ValueError | TypeError | OverflowError.

Inductive outcome (A : Type) :=
| Ok (a : A)
| Raise (e : exn).
Arguments Ok {A} a.
Arguments Raise {A} e.

(** A float is not-a-number, an infinity, or the finite number
    [m * 2^e]. *)
Inductive pyfloat :=
| FNan
| FInf (negative : bool)
| FFin (m e : Z).

(** [VObj r] is any other object (a tuple, a list, a widget ...) whose
    [str()] is [r] and which has no numeric conversion. *)
Inductive value :=
| VNone
| VBool (b : bool)
| VInt (z : Z)
| VFloat (f : pyfloat)
| VStr (s : string)
| VObj (r : string).

(** [str(z)] for an int. *)
Definition str_of_int (z : Z) : string :=
  NilZero.string_of_int (Z.to_int z).

(** [str(v)]; the text of a float is left to [float_str]. *)
Definition str (float_str : pyfloat -> string) (v : value) : string :=
  match v with
  | VNone => "None"
  | VBool true => "True"
  | VBool false => "False"
  | VInt z => str_of_int z
  | VFloat f => float_str f
  | VStr s => s
  | VObj r => r
  end.

(** *** The limit on conversions between [int] and decimal text

    The interpreter refuses, with [ValueError], to convert an [int] of
    more than 4300 decimal digits to text and to read an [int] from a
    decimal literal of more than 4300 digits. *)
Definition max_str_digits : Z := 4300.

(** The number of decimal digits of an int, its sign aside. *)
Definition decimal_digits (z : Z) : Z :=
  Z.of_nat (String.length (str_of_int (Z.abs z))).

(** [10 ^ n] as a positive number, by [n] multiplications. *)
Definition pow10 (n : nat) : positive := Nat.iter n (Pos.mul 10) 1%positive.

(** [str(z)], [f'{z}'] and [print(z)] for an int, as the interpreter
    computes them. *)
Definition int_to_str (z : Z) : outcome string :=
  if decimal_digits z <=? max_str_digits then Ok (str_of_int z)
  else Raise ValueError.


(** *** [int(text, base)]

    The characters [int()] skips at both ends of a string: the ASCII
    white space and, of the code points above 127, the next-line and the
    no-break space. *)
Definition is_int_space (c : ascii) : bool :=
  let n := N_of_ascii c in
  ((9 <=? n) && (n <=? 13) || (n =? 32) || (n =? 133) || (n =? 160))%N.

Definition digit_value (c : ascii) : option Z :=
  let n := Z.of_N (N_of_ascii c) in
  if (48 <=? n) && (n <=? 57) then Some (n - 48)
  else if (97 <=? n) && (n <=? 122) then Some (n - 87)
  else if (65 <=? n) && (n <=? 90) then Some (n - 55)
  else None.

Fixpoint lstrip_with (sp : ascii -> bool) (l : list ascii) : list ascii :=
  match l with
  | c :: r => if sp c then lstrip_with sp r else l
  | [] => []
  end.

Definition strip_with (sp : ascii -> bool) (l : list ascii) : list ascii :=
  rev (lstrip_with sp (rev (lstrip_with sp l))).

(** The digits of a literal, where single underscores may separate
    digits; [after_us] tells that the previous character was one. *)
Fixpoint digits (base acc : Z) (after_us : bool) (l : list ascii)
  : option Z :=
  match l with
  | [] => if after_us then None else Some acc
  | c :: r =>
      if Ascii.eqb c "_" then
        if after_us then None else digits base acc true r
      else
        match digit_value c with
        | Some d =>
            if d <? base then digits base (acc * base + d) false r
            else None
        | None => None
        end
  end.

Definition unsigned_literal (base : Z) (l : list ascii) : option Z :=
  let body :=
    match l with
    | "0"%char :: x :: r =>
        if (base =? 16) && (Ascii.eqb x "x" || Ascii.eqb x "X") then
          match r with
          | "_"%char :: r' => r'
          | _ => r
          end
        else l
    | _ => l
    end in
  match body with
  | [] => None
  | c :: _ => if Ascii.eqb c "_" then None else digits base 0 false body
  end.

(** [int(s, base)] for base 10 or 16; [None] is [ValueError].  The
    interpreter's limit on the number of digits of a decimal literal is
    applied in [int] below; base 16 has no such limit. *)
Definition int_of_str (base : Z) (s : string) : option Z :=
  match strip_with is_int_space (list_ascii_of_string s) with
  | "+"%char :: r => unsigned_literal base r
  | "-"%char :: r => Z.opp <$> unsigned_literal base r
  | l => unsigned_literal base l
  end.

(** [int(f)] for a float truncates towards zero. *)
Definition trunc (m e : Z) : Z :=
  if 0 <=? e then m * 2 ^ e else Z.quot m (2 ^ (- e)).

(** The digits of a decimal literal are what the limit counts: leading
    zeros count, the sign, white space and underscores do not. *)
Definition is_decimal_digit (c : ascii) : bool :=
  let n := N_of_ascii c in ((48 <=? n) && (n <=? 57))%N.

Fixpoint count_decimal_digits (l : list ascii) : Z :=
  match l with
  | [] => 0
  | c :: r =>
      (if is_decimal_digit c then 1 else 0) + count_decimal_digits r
  end.

(** [int(v)]. *)
Definition int (v : value) : outcome Z :=
  match v with
  | VNone => Raise TypeError
  | VBool b => Ok (if b then 1 else 0)
  | VInt z => Ok z
  | VFloat FNan => Raise ValueError
  | VFloat (FInf _) => Raise OverflowError
  | VFloat (FFin m e) => Ok (trunc m e)
  | VStr s =>
      if max_str_digits <? count_decimal_digits (list_ascii_of_string s)
      then Raise ValueError
      else
        match int_of_str 10 s with
        | Some z => Ok z
        | None => Raise ValueError
        end
  | VObj _ => Raise TypeError
  end.


(** *** Slices of a string *)

Fixpoint take (n : nat) (s : string) : string :=
  match n, s with
  | S n', String c r => String c (take n' r)
  | _, _ => ""
  end.

Fixpoint drop (n : nat) (s : string) : string :=
  match n, s with
  | S n', String _ r => drop n' r
  | _, _ => s
  end.

(** Where a slice bound [i] falls in a sequence of length [n]: a negative
    bound counts from the end, and the result is clipped to [0..n]. *)
Definition slice_bound (n : nat) (i : Z) : nat :=
  let j := if i <? 0 then i + Z.of_nat n else i in
  Z.to_nat (Z.min (Z.of_nat n) (Z.max 0 j)).

(** [s[:i]] and [s[i:]]; the bound [None] is Python's [None]. *)
Definition slice_to (i : option Z) (s : string) : string :=
  match i with
  | None => s
  | Some i => take (slice_bound (String.length s) i) s
  end.

Definition slice_from (i : option Z) (s : string) : string :=
  match i with
  | None => s
  | Some i => drop (slice_bound (String.length s) i) s
  end.

(** A value used as a slice bound: an int, a bool or [None]; anything
    else is a [TypeError]. *)
Definition as_slice_bound (v : value) : outcome (option Z) :=
  match v with
  | VInt i => Ok (Some i)
  | VBool b => Ok (Some (if b then 1 else 0))
  | VNone => Ok None
  | _ => Raise TypeError
  end.

(** Every character. *)
Definition all_ascii : list ascii := map ascii_of_nat (seq 0 256).

End Py.

(** ** Observable effects

    Console output and calls into user code are recorded, in order, in a
    trace.  A user-supplied callable is known by its identity and by what
    calling it does: it returns, or it raises an [Exception] with a
    message.  Callables are taken not to touch the object that calls them. *)

Inductive fn_behaviour :=
| Returns
| Raises (msg : string).

Record callable := Callable { fn_id : nat; fn_does : fn_behaviour }.

Inductive event :=
| Print (line : string)
| Call (fn : nat) (args : list Py.value).

(** The identities of the callables called along a trace, in order. *)
Fixpoint invoked (tr : list event) : list nat :=
  match tr with
  | [] => []
  | Print _ :: tr' => invoked tr'
  | Call fn _ :: tr' => fn :: invoked tr'
  end.

(** ** FakeTk: the window *)

Module FakeTk.

(** A worker thread started by [after]: it sleeps [th_delay]
    milliseconds and then calls [th_func] on [th_args]. *)
Record thread := Thread {
  th_id : nat;
  th_delay : Z;
  th_func : callable;
  th_args : list Py.value
}.

(** The attributes the modelled methods read or write; each of them is
    absent until a method first assigns it. *)
Record t := Tk {
  _withdrawn : option bool;
  _iconified : option bool;
  _after_jobs : option (gmap string thread)
}.

(** A freshly constructed window. *)
Definition init : t :=
  {| _withdrawn := None; _iconified := None; _after_jobs := None |}.

(** The window together with the rest of the process: the threads that
    were started and have not run yet, the trace, and the next thread
    identity. *)
Record world := World {
  self : t;
  running : list thread;
  trace : list event;
  fresh : nat
}.

Definition print (line : string) (w : world) : world :=
  {| self := self w; running := running w;
     trace := (trace w ++ [Print line])%list; fresh := fresh w |}.

Definition update (f : t -> t) (w : world) : world :=
  {| self := f (self w); running := running w;
     trace := trace w; fresh := fresh w |}.

Definition withdraw (w : world) : world :=
  print "Window withdrawn (hidden)"
    (update (fun s => {| _withdrawn := Some true;
                         _iconified := _iconified s;
                         _after_jobs := _after_jobs s |}) w).

Definition deiconify (w : world) : world :=
  print "Window deiconified (shown)"
    (update (fun s => {| _withdrawn := Some false;
                         _iconified := _iconified s;
                         _after_jobs := _after_jobs s |}) w).

Definition iconify (w : world) : world :=
  print "Window iconified (minimized)"
    (update (fun s => {| _withdrawn := _withdrawn s;
                         _iconified := Some true;
                         _after_jobs := _after_jobs s |}) w).

(** [wm_state(state)]; [None] is the call without an argument. *)
Definition wm_state (state : option string) (w : world) : string * world :=
  match state with
  | None =>
      if default false (_withdrawn (self w)) then ("withdrawn", w)
      else if default false (_iconified (self w)) then ("iconic", w)
      else ("normal", w)
  | Some st =>
      let w1 :=
        if String.eqb st "withdrawn" then withdraw w
        else if String.eqb st "iconic" then iconify w
        else if String.eqb st "normal" then deiconify w
        else w in
      (st, print ("Window state set to: " ++ st) w1)
  end.

(** The window-state operations, for sequences of calls. *)
Inductive state_op :=
| OpWithdraw
| OpDeiconify
| OpIconify
| OpWmState (state : option string).

Definition run_op (o : state_op) (w : world) : world :=
  match o with
  | OpWithdraw => withdraw w
  | OpDeiconify => deiconify w
  | OpIconify => iconify w
  | OpWmState st => snd (wm_state st w)
  end.

Definition run_ops (ops : list state_op) (w : world) : world :=
  fold_left (fun acc o => run_op o acc) ops w.

(** [after(delay, func, *args)]; [rand] is what [randint(1000, 9999)]
    returns in this call. *)
Definition after (delay : Z) (func : callable) (args : list Py.value)
    (rand : Z) (w : world) : string * world :=
  let thread := Thread (fresh w) delay func args in
  let job_id := "after_job_" ++ Py.str_of_int rand in
  let jobs := default ∅ (_after_jobs (self w)) in
  let s := {| _withdrawn := _withdrawn (self w);
              _iconified := _iconified (self w);
              _after_jobs := Some (<[job_id := thread]> jobs) |} in
  (job_id,
   print ("Tk after scheduled: " ++ Py.str_of_int delay
          ++ "ms delay, job ID: " ++ job_id)
     {| self := s; running := (running w ++ [thread])%list;
        trace := trace w; fresh := S (fresh w) |}).

Definition after_cancel (job_id : string) (w : world) : world :=
  match _after_jobs (self w) with
  | Some jobs =>
      match jobs !! job_id with
      | Some _ =>
          print ("Tk after job cancelled: " ++ job_id)
            (update (fun s => {| _withdrawn := _withdrawn s;
                                 _iconified := _iconified s;
                                 _after_jobs := Some (delete job_id jobs) |}) w)
      | None =>
          print ("Tk after job not found or already completed: " ++ job_id) w
      end
  | None =>
      print ("Tk after job not found or already completed: " ++ job_id) w
  end.

(** What the body of a worker thread, [delayed_call], does when it runs:
    [time.sleep] rejects a negative length and the thread ends there;
    otherwise [func] is called and an [Exception] it raises is printed. *)
Definition delayed_call (th : thread) : list event :=
  if th_delay th <? 0 then []
  else Call (fn_id (th_func th)) (th_args th) ::
       match fn_does (th_func th) with
       | Returns => []
       | Raises msg => [Print ("Error in after callback: " ++ msg)]
       end.

(** One started thread runs to its end. *)
Inductive thread_step : world -> world -> Prop :=
| step_thread (w : world) (before : list thread) (th : thread)
    (rest : list thread) :
    running w = (before ++ th :: rest)%list ->
    thread_step w
      {| self := self w; running := (before ++ rest)%list;
         trace := (trace w ++ delayed_call th)%list; fresh := fresh w |}.

End FakeTk.

(** ** The variable classes *)

(** The loop over [self._callbacks] that the [set] methods share: each
    callback is called in turn, and an [Exception] it raises is printed
    after [label]. *)
Fixpoint fire (label : string) (callbacks : list callable) : list event :=
  match callbacks with
  | [] => []
  | cb :: rest =>
      Call (fn_id cb) [] ::
      match fn_does cb with
      | Returns => fire label rest
      | Raises msg => Print (label ++ " callback error: " ++ msg) :: fire label rest
      end
  end.

Module FakeStringVar.
Section WithFloatStr.
Context (float_str : Py.pyfloat -> string).

Record t := StringVar {
  _value : string;
  _callbacks : list callable
}.

Definition init (value : Py.value) : t :=
  {| _value := Py.str float_str value; _callbacks := [] |}.

Definition get (self : t) : string := _value self.

Definition set (value : Py.value) (self : t) : t * list event :=
  let old_value := _value self in
  let new_value := Py.str float_str value in
  ({| _value := new_value; _callbacks := _callbacks self |},
   ((if String.eqb old_value new_value then []
     else fire "StringVar" (_callbacks self))
    ++ [Print ("StringVar set to: '" ++ new_value ++ "'")])%list).

Definition trace (mode : string) (callback : callable) (self : t)
  : string * t * list event :=
  let cbs := (_callbacks self ++ [callback])%list in
  ("trace_" ++ Py.str_of_int (Z.of_nat (length cbs)),
   {| _value := _value self; _callbacks := cbs |},
   [Print ("StringVar trace added for mode: " ++ mode)]).

End WithFloatStr.
End FakeStringVar.

Module FakeIntVar.

Record t := IntVar {
  _value : Z;
  _callbacks : list callable
}.

Definition init (value : Py.value) : Py.outcome t :=
  match Py.int value with
  | Py.Ok z => Py.Ok {| _value := z; _callbacks := [] |}
  | Py.Raise Py.ValueError | Py.Raise Py.TypeError =>
      Py.Ok {| _value := 0; _callbacks := [] |}
  | Py.Raise e => Py.Raise e
  end.

Definition get (self : t) : Z := _value self.

(** The rest of [set] once [_value] is assigned: the callbacks, then
    the final [print], which is outside every [try] and fails with
    [ValueError] for a value of more than 4300 digits; the value is
    stored and the callbacks were called by then. *)
Definition finish_set (old_value new_value : Z) (self : t)
  : Py.outcome (t * list event) :=
  match Py.int_to_str new_value with
  | Py.Ok shown =>
      Py.Ok ({| _value := new_value; _callbacks := _callbacks self |},
             ((if old_value =? new_value then []
               else fire "IntVar" (_callbacks self))
              ++ [Print ("IntVar set to: " ++ shown)])%list)
  | Py.Raise e => Py.Raise e
  end.

Definition set (value : Py.value) (self : t) : Py.outcome (t * list event) :=
  let old_value := _value self in
  match Py.int value with
  | Py.Ok z => finish_set old_value z self
  | Py.Raise Py.ValueError | Py.Raise Py.TypeError =>
      finish_set old_value 0 self
  | Py.Raise e => Py.Raise e
  end.

Definition trace (mode : string) (callback : callable) (self : t)
  : string * t * list event :=
  let cbs := (_callbacks self ++ [callback])%list in
  ("trace_" ++ Py.str_of_int (Z.of_nat (length cbs)),
   {| _value := _value self; _callbacks := cbs |},
   [Print ("IntVar trace added for mode: " ++ mode)]).

End FakeIntVar.

Module FakeDoubleVar.
Section WithFloat.
(** The built-in [float()] and the text of a float are taken as given. *)
Context (float : Py.value -> Py.outcome Py.pyfloat).
Context (float_str : Py.pyfloat -> string).

Record t := DoubleVar {
  _value : Py.pyfloat;
  _callbacks : list callable
}.

(** [0.0] *)
Definition zero : Py.pyfloat := Py.FFin 0 0.

Definition init (value : Py.value) : Py.outcome t :=
  match float value with
  | Py.Ok f => Py.Ok {| _value := f; _callbacks := [] |}
  | Py.Raise Py.ValueError | Py.Raise Py.TypeError =>
      Py.Ok {| _value := zero; _callbacks := [] |}
  | Py.Raise e => Py.Raise e
  end.

Definition get (self : t) : Py.pyfloat := _value self.

(** [a == b] on floats: a NaN equals nothing, and finite numbers are
    compared by value. *)
Definition float_eqb (a b : Py.pyfloat) : bool :=
  match a, b with
  | Py.FInf s1, Py.FInf s2 => Bool.eqb s1 s2
  | Py.FFin m1 e1, Py.FFin m2 e2 =>
      let e := Z.min e1 e2 in
      m1 * 2 ^ (e1 - e) =? m2 * 2 ^ (e2 - e)
  | _, _ => false
  end.

Definition finish_set (old_value new_value : Py.pyfloat) (self : t)
  : t * list event :=
  ({| _value := new_value; _callbacks := _callbacks self |},
   ((if float_eqb old_value new_value then []
     else fire "DoubleVar" (_callbacks self))
    ++ [Print ("DoubleVar set to: " ++ float_str new_value)])%list).

Definition set (value : Py.value) (self : t) : Py.outcome (t * list event) :=
  let old_value := _value self in
  match float value with
  | Py.Ok f => Py.Ok (finish_set old_value f self)
  | Py.Raise Py.ValueError | Py.Raise Py.TypeError =>
      Py.Ok (finish_set old_value zero self)
  | Py.Raise e => Py.Raise e
  end.

End WithFloat.
End FakeDoubleVar.


(** ** FakeEntry *)

Module FakeEntry.
Section WithFloatStr.
Context (float_str : Py.pyfloat -> string).

(** What [self.kivy_entry] holds: a Kivy [TextInput], of which only the
    [text] property matters here and which is taken to hand back the
    string last assigned to it, or, when Kivy cannot be imported, a plain
    string, which has no [text] attribute. *)
Inductive kivy_widget :=
| TextInput (text : string)
| Simulated (repr : string).

(** [_text_var] is the [StringVar] given as [textvariable], if any; a
    change of the [TextInput]'s text is forwarded to it. *)
Record t := Entry {
  kivy_entry : option kivy_widget;
  _value : Py.value;
  _text_var : option (FakeStringVar.t)
}.

Definition get (self : t) : Py.value :=
  match kivy_entry self with
  | Some (TextInput text) => Py.VStr text
  | _ => _value self
  end.

(** The handler [on_text_change] bound to the [text] property. *)
Definition on_text_change (value : string) (var : option FakeStringVar.t)
  : option FakeStringVar.t * list event :=
  match var with
  | Some v =>
      let r := FakeStringVar.set float_str (Py.VStr value) v in
      (Some (fst r), snd r)
  | None => (None, [])
  end.

Definition set (text : Py.value) (self : t) : t * list event :=
  let shown := Py.str float_str text in
  match kivy_entry self with
  | Some (TextInput old) =>
      let r := if String.eqb old shown then (_text_var self, [])
               else on_text_change shown (_text_var self) in
      ({| kivy_entry := Some (TextInput shown);
          _value := Py.VStr shown;
          _text_var := fst r |},
       (snd r ++ [Print ("Entry text set to: '" ++ shown ++ "'")])%list)
  | other =>
      ({| kivy_entry := other;
          _value := Py.VStr shown;
          _text_var := _text_var self |},
       [Print ("Entry text set to: '" ++ shown ++ "'")])
  end.

Definition insert (index text : Py.value) (self : t)
  : Py.outcome (t * list event) :=
  match get self with
  | Py.VStr current_text =>
      let index :=
        match index with
        | Py.VStr i =>
            if String.eqb i "end"
            then Py.VInt (Z.of_nat (String.length current_text))
            else Py.VInt 0
        | _ => index
        end in
      match Py.as_slice_bound index with
      | Py.Ok i =>
          let new_text :=
            Py.slice_to i current_text ++ Py.str float_str text
            ++ Py.slice_from i current_text in
          let r := set (Py.VStr new_text) self in
          Py.Ok (fst r,
                 (snd r ++
                  [Print ("Text inserted at index " ++ Py.str float_str index
                          ++ ": '" ++ Py.str float_str text ++ "'")])%list)
      | Py.Raise e => Py.Raise e
      end
  | _ => Py.Raise Py.TypeError
  end.

End WithFloatStr.
End FakeEntry.


(** ** The module table: [auto_translate_mode] and [disable_auto_translate] *)

Module Shim.

(** The classes defined inside [auto_translate_mode]. *)
Inductive fake_class :=
| ClsTk | ClsButton | ClsLabel | ClsEntry | ClsText | ClsFrame | ClsCanvas
| ClsScrollbar | ClsMenu | ClsNotebook | ClsCheckbutton | ClsRadiobutton
| ClsStringVar | ClsIntVar | ClsDoubleVar | ClsBooleanVar.

(** What a module attribute is bound to.  Every call of
    [auto_translate_mode] creates its classes, functions and modules anew;
    [gen] tells the calls apart.  [AOther] stands for the contents of
    modules that this code did not create. *)
Inductive attr :=
| AClass (c : fake_class) (gen : nat)
| AFunction (name : string) (gen : nat)
| AStr (s : string)
| AModule (name : string) (gen : nat)
| AOther (id : nat).

Record module := Module_ {
  mod_name : string;
  mod_gen : option nat;
  mod_attrs : gmap string attr
}.

(** The interpreter state the two functions touch: [sys.modules], the
    global [_original_modules], the console, and how often
    [auto_translate_mode] ran. *)
Record state := State {
  sys_modules : gmap string module;
  _original_modules : gmap string module;
  stdout : list string;
  generation : nat
}.

Definition fake_font_module (gen : nat) : module :=
  Module_ "tkinter.font" (Some gen)
    (<["ROMAN" := AStr "roman"]>
     (<["ITALIC" := AStr "italic"]>
     (<["BOLD" := AStr "bold"]>
     (<["NORMAL" := AStr "normal"]>
     (<["nametofont" := AFunction "nametofont" gen]>
     (<["Font" := AFunction "Font" gen]> ∅)))))).

Definition fake_messagebox_module (gen : nat) : module :=
  Module_ "tkinter.messagebox" (Some gen)
    (<["ABORT" := AStr "abort"]>
     (<["IGNORE" := AStr "ignore"]>
     (<["RETRY" := AStr "retry"]>
     (<["NO" := AStr "no"]>
     (<["YES" := AStr "yes"]>
     (<["CANCEL" := AStr "cancel"]>
     (<["OK" := AStr "ok"]>
     (<["askyesnocancel" := AFunction "askyesnocancel" gen]>
     (<["askretrycancel" := AFunction "askretrycancel" gen]>
     (<["askokcancel" := AFunction "askokcancel" gen]>
     (<["askyesno" := AFunction "askyesno" gen]>
     (<["showwarning" := AFunction "showwarning" gen]>
     (<["showerror" := AFunction "showerror" gen]>
     (<["showinfo" := AFunction "showinfo" gen]> ∅)))))))))))))).

Definition fake_ttk_module (gen : nat) : module :=
  Module_ "tkinter.ttk" (Some gen)
    (<["Scrollbar" := AClass ClsScrollbar gen]>
     (<["Separator" := AClass ClsLabel gen]>
     (<["Notebook" := AClass ClsNotebook gen]>
     (<["Treeview" := AClass ClsLabel gen]>
     (<["Combobox" := AClass ClsLabel gen]>
     (<["Progressbar" := AClass ClsLabel gen]>
     (<["Scale" := AClass ClsLabel gen]>
     (<["Text" := AClass ClsText gen]>
     (<["Radiobutton" := AClass ClsRadiobutton gen]>
     (<["Checkbutton" := AClass ClsCheckbutton gen]>
     (<["Frame" := AClass ClsFrame gen]>
     (<["Entry" := AClass ClsEntry gen]>
     (<["Label" := AClass ClsLabel gen]>
     (<["Button" := AClass ClsButton gen]> ∅)))))))))))))).

Definition fake_tkinter (gen : nat) : module :=
  Module_ "tkinter" (Some gen)
    (<["messagebox" := AModule "tkinter.messagebox" gen]>
     (<["ttk" := AModule "tkinter.ttk" gen]>
     (<["font" := AModule "tkinter.font" gen]>
     (<["BooleanVar" := AClass ClsBooleanVar gen]>
     (<["DoubleVar" := AClass ClsDoubleVar gen]>
     (<["IntVar" := AClass ClsIntVar gen]>
     (<["StringVar" := AClass ClsStringVar gen]>
     (<["Radiobutton" := AClass ClsRadiobutton gen]>
     (<["Checkbutton" := AClass ClsCheckbutton gen]>
     (<["Notebook" := AClass ClsNotebook gen]>
     (<["Menu" := AClass ClsMenu gen]>
     (<["Scrollbar" := AClass ClsScrollbar gen]>
     (<["Canvas" := AClass ClsCanvas gen]>
     (<["Frame" := AClass ClsFrame gen]>
     (<["Text" := AClass ClsText gen]>
     (<["Entry" := AClass ClsEntry gen]>
     (<["Label" := AClass ClsLabel gen]>
     (<["Button" := AClass ClsButton gen]>
     (<["Tk" := AClass ClsTk gen]> ∅))))))))))))))))))).

Definition auto_translate_mode (st : state) : module * state :=
  let gen := generation st in
  let saved :=
    match sys_modules st !! "tkinter" with
    | Some original => <["tkinter" := original]> (_original_modules st)
    | None => _original_modules st
    end in
  (fake_tkinter gen,
   {| sys_modules :=
        <["tkinter.messagebox" := fake_messagebox_module gen]>
        (<["tkinter.ttk" := fake_ttk_module gen]>
        (<["tkinter.font" := fake_font_module gen]>
        (<["tkinter" := fake_tkinter gen]> (sys_modules st))));
      _original_modules := saved;
      stdout :=
        (stdout st ++
         ["MessageBox support added - dialog boxes will work with Kivy popups";
          "TTK (themed tkinter) support added - ttk widgets will use same translations as regular tkinter";
          "Auto-translation mode enabled - tkinter calls will be converted to Kivy"])%list;
      generation := S gen |}).

Definition disable_auto_translate (st : state) : state :=
  let restored :=
    match _original_modules st !! "tkinter" with
    | Some original => <["tkinter" := original]> (sys_modules st)
    | None => delete "tkinter" (sys_modules st)
    end in
  {| sys_modules :=
       delete "tkinter.messagebox"
         (delete "tkinter.ttk" (delete "tkinter.font" restored));
     _original_modules := _original_modules st;
     stdout := stdout st;
     generation := generation st |}.

End Shim.


(** ** Geometry managers: [pack] and [grid] of the widget classes *)

Module Widgets.
Section WithKivy.
Context (float_str : Py.pyfloat -> string).

(** Kivy is a library outside this code.  Of its state only this is used:
    the [children] of a layout, [add_widget], which either changes the
    state or raises an exception with some text, and the class name of a
    widget.  Kivy widgets are known by a number. *)
Context {kivy_state : Type}.
Context (children : nat -> kivy_state -> list nat).
Context (add_widget : nat -> nat -> kivy_state -> kivy_state + string).
Context (type_name : nat -> string).

(** What a [kivy_button], [kivy_label], ... attribute holds: a Kivy widget
    or, when Kivy cannot be imported, a descriptive string. *)
Inductive kivy_obj :=
| KWidget (id : nat)
| KSimulated (repr : string).

Definition kivy_obj_eqb (a b : kivy_obj) : bool :=
  match a, b with
  | KWidget i, KWidget j => Nat.eqb i j
  | KSimulated r, KSimulated s => String.eqb r s
  | _, _ => false
  end.

(** The class of a widget with what its [pack] reads for the line it
    prints: the keyword arguments, a number of items, tabs or characters,
    the orientation, the entry itself, or whether [self.get()] is true. *)
Inductive widget :=
| Button (kwargs : gmap string Py.value)
| Label (kwargs : gmap string Py.value)
| Frame
| Canvas (_canvas_items : nat)
| Scrollbar (_orient : Py.value)
| Notebook (_tabs : nat)
| Entry (entry : FakeEntry.t)
| Checkbutton (checked : bool)
| Radiobutton (selected : bool) (_value : Py.value)
| Text (characters : nat).

(** An object on the heap.  [cls] is [None] for a window or any other
    object that is not one of the ten widget classes; [parent] is
    [self.parent] when that is an object on the heap; [kivy] is the
    [kivy_...] attribute; [_widgets] exists on windows and frames. *)
Record obj := Obj {
  cls : option widget;
  parent : option nat;
  kivy : option kivy_obj;
  _widgets : option (list kivy_obj)
}.

Record world := World {
  heap : gmap nat obj;
  kivy_world : kivy_state;
  stdout : list string
}.

Definition print (line : string) (w : world) : world :=
  {| heap := heap w; kivy_world := kivy_world w;
     stdout := (stdout w ++ [line])%list |}.

Definition len_str (n : nat) : string := Py.str_of_int (Z.of_nat n).

(** [hasattr(o, '_add_child_to_layout')]: only frames define it. *)
Definition has_add_child_to_layout (o : obj) : bool :=
  match cls o with
  | Some Frame => true
  | _ => false
  end.

(** The guarded [add_widget] that [FakeFrame.pack] and
    [FakeFrame._add_child_to_layout] share, up to the words printed. *)
Definition add_to_layout (added failed : string) (frame : obj)
    (child_widget : kivy_obj) (w : world) : world :=
  match kivy frame, child_widget with
  | Some (KWidget layout), KWidget child =>
      if existsb (Nat.eqb child) (children layout (kivy_world w)) then w
      else
        match add_widget layout child (kivy_world w) with
        | inl k =>
            print (added ++ type_name child)
              {| heap := heap w; kivy_world := k; stdout := stdout w |}
        | inr e => print (failed ++ e) w
        end
  | _, _ => w
  end.

Definition _add_child_to_layout (frame : obj) (child_widget : kivy_obj)
    (w : world) : world :=
  add_to_layout "Immediately added child to frame: "
    "Error immediately adding child to frame: " frame child_widget w.

(** [self.parent._widgets.append(k)]: the list is the parent's own. *)
Definition append_to_parent (p : nat) (po : obj) (ws : list kivy_obj)
    (k : kivy_obj) (w : world) : world :=
  {| heap := <[p := {| cls := cls po; parent := parent po; kivy := kivy po;
                       _widgets := Some (ws ++ [k])%list |}]> (heap w);
     kivy_world := kivy_world w; stdout := stdout w |}.

(** The body that the [pack] methods of button, label, canvas and
    scrollbar have in common ([to_layout] true), and those of notebook,
    entry, checkbutton, radiobutton and text ([to_layout] false). *)
Definition pack_into_parent (to_layout : bool) (line : string) (o : obj)
    (w : world) : world :=
  match parent o with
  | Some p =>
      match heap w !! p with
      | Some po =>
          match _widgets po with
          | Some ws =>
              let w1 :=
                match kivy o with
                | Some k =>
                    let w' := append_to_parent p po ws k w in
                    if to_layout && has_add_child_to_layout po
                    then _add_child_to_layout po k w'
                    else w'
                | None => w
                end in
              print line w1
          | None => w
          end
      | None => w
      end
  | None => w
  end.

Definition text_of (kwargs : gmap string Py.value) : string :=
  match kwargs !! "text" with
  | Some v => Py.str float_str v
  | None => "No text"
  end.

Definition FakeFrame_pack (o : obj) (w : world) : world :=
  let w1 :=
    match kivy o with
    | Some (KWidget _) =>
        fold_left
          (fun acc child_widget =>
             add_to_layout "Added child widget to frame: "
               "Error adding child to frame: " o child_widget acc)
          (default [] (_widgets o)) w
    | _ => w
    end in
  match parent o with
  | Some p =>
      match heap w1 !! p with
      | Some po =>
          match _widgets po with
          | Some ws =>
              let w2 :=
                match kivy o with
                | Some k => append_to_parent p po ws k w1
                | None => w1
                end in
              print ("Frame packed with "
                     ++ len_str (length (default [] (_widgets o)))
                     ++ " child widgets") w2
          | None => w1
          end
      | None => w1
      end
  | None => w1
  end.

(** [self.pack( **kwargs)], resolved on the class of [self]. *)
Definition pack (self : nat) (kwargs : gmap string Py.value) (w : world)
  : world :=
  match heap w !! self with
  | Some o =>
      match cls o with
      | Some (Button kw) =>
          pack_into_parent true ("Button packed: " ++ text_of kw) o w
      | Some (Label kw) =>
          pack_into_parent true ("Label packed: " ++ text_of kw) o w
      | Some Frame => FakeFrame_pack o w
      | Some (Canvas n) =>
          pack_into_parent true
            ("Canvas packed with " ++ len_str n ++ " items") o w
      | Some (Scrollbar orient) =>
          pack_into_parent true
            ("Scrollbar packed: " ++ Py.str float_str orient ++ " orientation")
            o w
      | Some (Notebook n) =>
          pack_into_parent false
            ("Notebook packed with " ++ len_str n ++ " tabs") o w
      | Some (Entry e) =>
          pack_into_parent false
            ("Entry packed with text: '"
             ++ Py.str float_str (FakeEntry.get e) ++ "'") o w
      | Some (Checkbutton checked) =>
          pack_into_parent false
            ("Checkbutton packed: "
             ++ (if checked then "checked" else "unchecked")) o w
      | Some (Radiobutton selected value) =>
          pack_into_parent false
            ("Radiobutton packed: "
             ++ (if selected then "selected" else "deselected")
             ++ " (value: " ++ Py.str float_str value ++ ")") o w
      | Some (Text n) =>
          pack_into_parent false
            ("Text widget packed with " ++ len_str n ++ " characters") o w
      | None => w
      end
  | None => w
  end.

(** Each of the ten classes defines [grid] as [self.pack( **kwargs)]. *)
Definition grid (self : nat) (kwargs : gmap string Py.value) (w : world)
  : world :=
  pack self kwargs w.

End WithKivy.
End Widgets.



(** ** Background colours of button, frame and canvas *)

Module Colors.

(** A colour tuple [(r, g, b, a)].  Its components are numbers, kept
    here as exact fractions: [0.9] is [9/10] and [n / 255.0] is [n/255]. *)
Definition number := QArith_base.Q.
Definition rgba : Type := number * number * number * number.

Definition whole (z : Z) : number := QArith_base.Qmake z 1.
Definition over_255 (z : Z) : number := QArith_base.Qmake z 255.

Definition rgb (r g b : number) : rgba := (r, g, b, whole 1).

Definition light_gray : rgba :=
  rgb (QArith_base.Qmake 9 10) (QArith_base.Qmake 9 10) (QArith_base.Qmake 9 10).
Definition gray : rgba :=
  rgb (QArith_base.Qmake 5 10) (QArith_base.Qmake 5 10) (QArith_base.Qmake 5 10).
Definition white : rgba := rgb (whole 1) (whole 1) (whole 1).
Definition black : rgba := rgb (whole 0) (whole 0) (whole 0).

(** [color.startswith('#')] *)
Definition starts_with_hash (s : string) : bool :=
  match s with
  | String c _ => Ascii.eqb c "#"
  | EmptyString => false
  end.

(** The [try] block under "Handle hex colors": [otherwise] is the tuple
    of the [else] branch and of the [except] clause, which are the same in
    each of the three classes. *)
Definition hex_colors (otherwise : rgba) (color : string) : rgba :=
  let hex_color := Py.drop 1 color in
  if (String.length hex_color =? 6)%nat then
    match Py.int_of_str 16 (substring 0 2 hex_color),
          Py.int_of_str 16 (substring 2 2 hex_color),
          Py.int_of_str 16 (substring 4 2 hex_color) with
    | Some r, Some g, Some b => rgb (over_255 r) (over_255 g) (over_255 b)
    | _, _, _ => otherwise
    end
  else otherwise.

(** [self.kwargs.get('bg', self.kwargs.get('background'))] under the test
    ['bg' in self.kwargs or 'background' in self.kwargs]; [None] when
    neither key is there. *)
Definition background_argument (kwargs : gmap string Py.value)
  : option Py.value :=
  match kwargs !! "bg", kwargs !! "background" with
  | Some v, _ => Some v
  | None, Some v => Some v
  | None, None => None
  end.

(** [kivy_kwargs['background_color']] of a button, when it is set. *)
Definition FakeButton_background_color (kwargs : gmap string Py.value)
  : option rgba :=
  match background_argument kwargs with
  | Some (Py.VStr color) =>
      Some (if String.eqb color "" then light_gray
            else if String.eqb color "white" then white
            else if String.eqb color "black" then black
            else if String.eqb color "blue" then rgb (whole 0) (whole 0) (whole 1)
            else if String.eqb color "red" then rgb (whole 1) (whole 0) (whole 0)
            else if String.eqb color "green" then rgb (whole 0) (whole 1) (whole 0)
            else if String.eqb color "gray" || String.eqb color "grey" then gray
            else if starts_with_hash color then hex_colors light_gray color
            else light_gray)
  | Some _ => Some light_gray
  | None => None
  end.

(** [self._bg_color] of a frame, when it is set. *)
Definition FakeFrame_bg_color (kwargs : gmap string Py.value)
  : option rgba :=
  match background_argument kwargs with
  | Some (Py.VStr color) =>
      Some (if String.eqb color "" then light_gray
            else if String.eqb color "white" then white
            else if String.eqb color "black" then black
            else if starts_with_hash color then hex_colors light_gray color
            else light_gray)
  | Some _ => Some light_gray
  | None => None
  end.

(** [self._bg_color] of a canvas; it is always set. *)
Definition FakeCanvas_bg_color (kwargs : gmap string Py.value) : rgba :=
  match background_argument kwargs with
  | Some (Py.VStr color) =>
      if String.eqb color "" then white
      else if String.eqb color "white" then white
      else if String.eqb color "black" then black
      else if starts_with_hash color then hex_colors white color
      else white
  | Some _ => white
  | None => white
  end.

(** The value of a hexadecimal digit. *)
Definition hex_digit (c : ascii) : option Z :=
  match Py.digit_value c with
  | Some d => if d <? 16 then Some d else None
  | None => None
  end.

(** The values of the characters of a string made of hexadecimal digits
    only. *)
Fixpoint hex_digits (s : string) : option (list Z) :=
  match s with
  | EmptyString => Some []
  | String c r =>
      match hex_digit c, hex_digits r with
      | Some d, Some ds => Some (d :: ds)
      | _, _ => None
      end
  end.

End Colors.


(** ** Regular expressions, as [re] matches them

    A backtracking matcher in continuation-passing style over the rest of
    the subject string.  Alternatives are tried in the order [re] tries
    them (greedy repetition prefers one more iteration, lazy repetition
    prefers to stop), so the first match found is the match [re] reports,
    groups included. *)

Module Re.

Definition text := list ascii.

Inductive regex :=
| Eps
| Chr (p : ascii -> bool)
| Seq (r1 r2 : regex)
| Alt (r1 r2 : regex)
| Star (greedy : bool) (r : regex)
| Group (n : nat) (r : regex)
| Ahead (r : regex)
| EndAnchor.

(** Group contents, most recent first. *)
Definition captures := list (nat * text).

Definition cont (R : Type) := text -> captures -> option R.

(** The part of [s] consumed when [rest] is what remains of it. *)
Definition consumed (s rest : text) : text :=
  List.firstn (length s - length rest) s.

(** Repetition of [body]; every iteration has to consume something, so
    [length s + 1] rounds are enough. *)
Fixpoint star_loop (body : forall R, text -> captures -> cont R -> option R)
    (greedy : bool) (fuel : nat) {R : Type} (s : text) (c : captures)
    (k : cont R) : option R :=
  match fuel with
  | O => k s c
  | S fuel' =>
      let again (s' : text) (c' : captures) :=
        if (length s' <? length s)%nat
        then star_loop body greedy fuel' s' c' k
        else None in
      if greedy then
        match body R s c again with
        | Some x => Some x
        | None => k s c
        end
      else
        match k s c with
        | Some x => Some x
        | None => body R s c again
        end
  end.

Fixpoint run (r : regex) (R : Type) (s : text) (c : captures) (k : cont R)
  : option R :=
  match r with
  | Eps => k s c
  | Chr p =>
      match s with
      | a :: s' => if p a then k s' c else None
      | [] => None
      end
  | Seq r1 r2 => run r1 R s c (fun s' c' => run r2 R s' c' k)
  | Alt r1 r2 =>
      match run r1 R s c k with
      | Some x => Some x
      | None => run r2 R s c k
      end
  | Star greedy r1 => star_loop (run r1) greedy (S (length s)) s c k
  | Group n r1 =>
      run r1 R s c (fun s' c' => k s' ((n, consumed s s') :: c'))
  | Ahead r1 =>
      match run r1 captures s c (fun _ c' => Some c') with
      | Some c' => k s c'
      | None => None
      end
  | EndAnchor =>
      match s with
      | [] => k s c
      | [a] => if Ascii.eqb a "010" then k s c else None
      | _ => None
      end
  end.

(** A match: what precedes it, the matched text, what follows, and the
    groups. *)
Record found := Found {
  before : text;
  matched : text;
  after : text;
  groups : captures
}.

Definition group (n : nat) (m : found) : text :=
  match List.find (fun p => Nat.eqb (fst p) n) (groups m) with
  | Some p => snd p
  | None => []
  end.

(** A match that starts exactly at the beginning of [s]. *)
Definition match_here (r : regex) (s : text) : option (text * captures) :=
  run r _ s [] (fun rest c => Some (rest, c)).

(** [re.search]: the first position, from the left, where a match
    starts; [skipped] is the text passed over, reversed. *)
Fixpoint search_from (r : regex) (skipped : text) (s : text) : option found :=
  match match_here r s with
  | Some (rest, c) => Some (Found (rev skipped) (consumed s rest) rest c)
  | None =>
      match s with
      | [] => None
      | a :: s' => search_from r (a :: skipped) s'
      end
  end.

Definition search (r : regex) (s : text) : option found :=
  search_from r [] s.

(** [re.findall]: the matches from left to right, each search resuming
    where the previous match ended, or one character further after an
    empty match. *)
Fixpoint findall_from (r : regex) (fuel : nat) (s : text) : list found :=
  match fuel with
  | O => []
  | S fuel' =>
      match search r s with
      | Some m =>
          m :: match matched m, after m with
               | [], [] => []
               | [], _ :: s' => findall_from r fuel' s'
               | _ :: _, s' => findall_from r fuel' s'
               end
      | None => []
      end
  end.

Definition findall (r : regex) (s : text) : list found :=
  findall_from r (S (length s)) s.

(** *** What a pattern denotes

    [Matches r m rest]: the pattern [r] matches the text [m] when [rest]
    follows it.  This says which texts match, not which match is found
    first. *)
Inductive Matches : regex -> text -> text -> Prop :=
| MEps (rest : text) : Matches Eps [] rest
| MChr (p : ascii -> bool) (a : ascii) (rest : text) :
    p a = true -> Matches (Chr p) [a] rest
| MSeq (r1 r2 : regex) (m1 m2 rest : text) :
    Matches r1 m1 (m2 ++ rest)%list -> Matches r2 m2 rest ->
    Matches (Seq r1 r2) (m1 ++ m2)%list rest
| MAltL (r1 r2 : regex) (m rest : text) :
    Matches r1 m rest -> Matches (Alt r1 r2) m rest
| MAltR (r1 r2 : regex) (m rest : text) :
    Matches r2 m rest -> Matches (Alt r1 r2) m rest
| MStarStop (greedy : bool) (r : regex) (rest : text) :
    Matches (Star greedy r) [] rest
| MStarMore (greedy : bool) (r : regex) (m1 m2 rest : text) :
    m1 <> [] ->
    Matches r m1 (m2 ++ rest)%list -> Matches (Star greedy r) m2 rest ->
    Matches (Star greedy r) (m1 ++ m2)%list rest
| MGroup (n : nat) (r : regex) (m rest : text) :
    Matches r m rest -> Matches (Group n r) m rest
| MAhead (r : regex) (m rest : text) :
    Matches r m rest -> Matches (Ahead r) [] (m ++ rest)%list
| MEnd : Matches EndAnchor [] []
| MEndNewline : Matches EndAnchor [] ["010"%char].

(** [r] matches somewhere in [s]. *)
Definition occurs_in (r : regex) (s : text) : Prop :=
  exists pre m post, s = (pre ++ m ++ post)%list /\ Matches r m post.

(** A matcher [body] succeeds only on what [r] denotes ... *)
Definition sound (body : forall R, text -> captures -> cont R -> option R)
    (r : regex) : Prop :=
  forall R s c (k : cont R) x,
    body R s c k = Some x ->
    exists m rest c', s = (m ++ rest)%list /\ Matches r m rest /\ k rest c' = Some x.

(** ... and succeeds on all of it, for a continuation that accepts the
    rest whatever the groups are. *)
Definition complete (body : forall R, text -> captures -> cont R -> option R)
    (r : regex) : Prop :=
  forall m rest,
    Matches r m rest ->
    forall R (k : cont R),
      (forall c, is_Some (k rest c)) ->
      forall c, is_Some (body R (m ++ rest)%list c k).

(** *** Building patterns *)

Definition lit_char (a : ascii) : regex := Chr (Ascii.eqb a).

Fixpoint lit (s : string) : regex :=
  match s with
  | EmptyString => Eps
  | String a EmptyString => lit_char a
  | String a r => Seq (lit_char a) (lit r)
  end.

Definition plus (greedy : bool) (r : regex) : regex := Seq r (Star greedy r).

Definition opt (r : regex) : regex := Alt r Eps.

Definition in_range (lo hi : N) (c : ascii) : bool :=
  ((lo <=? N_of_ascii c) && (N_of_ascii c <=? hi))%N.

(** [\s] on text, which is also what [str.strip()] removes. *)
Definition is_space (c : ascii) : bool :=
  in_range 9 13 c || in_range 28 32 c
  || (N_of_ascii c =? 133)%N || (N_of_ascii c =? 160)%N.

(** [\w] on text: letters, digits and the underscore. *)
Definition is_word (c : ascii) : bool :=
  in_range 48 57 c || in_range 65 90 c || (N_of_ascii c =? 95)%N
  || in_range 97 122 c || (N_of_ascii c =? 170)%N || in_range 178 179 c
  || (N_of_ascii c =? 181)%N || in_range 185 186 c || in_range 188 190 c
  || in_range 192 214 c || in_range 216 246 c || in_range 248 255 c.

Definition space : regex := Chr is_space.
Definition word : regex := Chr is_word.
Definition any : regex := Chr (fun _ => true).

End Re.


(** ** The textual translator *)

Module Translator.
Import Re.

Definition seqs (rs : list regex) : regex :=
  match rev rs with
  | [] => Eps
  | last :: front => fold_left (fun acc r => Seq r acc) front last
  end.

(** [r'import\s+tkinter\s+as\s+tk'] *)
Definition import_tkinter_as_tk : regex :=
  seqs [lit "import"; plus true space; lit "tkinter"; plus true space;
        lit "as"; plus true space; lit "tk"].

(** [r'from\s+tkinter\s+import'] *)
Definition from_tkinter_import : regex :=
  seqs [lit "from"; plus true space; lit "tkinter"; plus true space;
        lit "import"].

(** [r'import\s+tkinter'] *)
Definition import_tkinter : regex :=
  seqs [lit "import"; plus true space; lit "tkinter"].

Definition kivy_import_lines : list string :=
  ["from kivy.app import App";
   "from kivy.uix.boxlayout import BoxLayout";
   "from kivy.uix.button import Button";
   "from kivy.uix.label import Label"].

Definition found_in (r : regex) (s : string) : bool :=
  match search r (list_ascii_of_string s) with
  | Some _ => true
  | None => false
  end.

Definition translate_imports (tkinter_code : string) : string :=
  let kivy_imports :=
    if found_in import_tkinter_as_tk tkinter_code then kivy_import_lines
    else if found_in from_tkinter_import tkinter_code then kivy_import_lines
    else if found_in import_tkinter tkinter_code then kivy_import_lines
    else [] in
  String.concat (String "010" "") kivy_imports.

(** *** [translate_button] *)

Definition param_mappings : gmap string (option string) :=
  list_to_map
    [("text", Some "text"); ("command", Some "on_press");
     ("width", Some "size_hint_x"); ("height", Some "size_hint_y");
     ("bg", Some "background_color"); ("background", Some "background_color");
     ("fg", Some "color"); ("foreground", Some "color");
     ("font", Some "font_name"); ("state", Some "disabled");
     ("relief", None); ("bd", None); ("borderwidth", None);
     ("padx", None); ("pady", None)].

(** [r'(?:tk\.)?Button\s*\('], the opening of a Button call. *)
Definition button_open : regex :=
  seqs [opt (lit "tk."); lit "Button"; Star true space; lit "("].

(** [r'(?:tk\.)?Button\s*\((.*?)\)'] with [re.DOTALL]. *)
Definition button_pattern : regex :=
  Seq button_open (Seq (Group 1 (Star false any)) (lit ")")).

(** [r'(\w+)\s*=\s*([^,]+?)(?=,\s*\w+\s*=|$)'] *)
Definition param_pattern : regex :=
  seqs [Group 1 (plus true word); Star true space; lit "=";
        Star true space;
        Group 2 (plus false (Chr (fun c => negb (Ascii.eqb c ","))));
        Ahead (Alt (seqs [lit ","; Star true space; plus true word;
                          Star true space; lit "="])
                   EndAnchor)].

(** [s.strip()] *)
Definition strip (s : text) : text := Py.strip_with is_space s.

(** [s.split(sep)] for a one-character separator. *)
Fixpoint split (sep : ascii) (s : text) : list text :=
  match s with
  | [] => [[]]
  | a :: r =>
      if Ascii.eqb a sep then [] :: split sep r
      else match split sep r with
           | h :: t => (a :: h) :: t
           | [] => [[a]]
           end
  end.

(** [sep.join(parts)] *)
Fixpoint join (sep : string) (parts : list string) : string :=
  match parts with
  | [] => ""
  | [p] => p
  | p :: rest => p ++ sep ++ join sep rest
  end.

Fixpoint starts_with (p s : text) : bool :=
  match p, s with
  | [], _ => true
  | a :: p', b :: s' => Ascii.eqb a b && starts_with p' s'
  | _ :: _, [] => false
  end.

(** [p in s] *)
Fixpoint contains (p s : text) : bool :=
  starts_with p s ||
  match s with
  | [] => false
  | _ :: s' => contains p s'
  end.

(** [s.upper()] as far as the letters a to z go; no other character
    becomes one of the letters of ['DISABLED']. *)
Definition upper (s : text) : text :=
  map (fun c => if in_range 97 122 c
                then ascii_of_N (N_of_ascii c - 32) else c) s.

Definition str (s : text) : string := string_of_list_ascii s.

(** The body of the loop over the parameters found; the state is
    [(kivy_params, kivy_bindings)]. *)
Definition translate_param (acc : list string * list string) (m : found)
  : list string * list string :=
  let (kivy_params, kivy_bindings) := acc in
  let param_name := strip (group 1 m) in
  let param_value := strip (group 2 m) in
  let add_param (line : string) := (kivy_params ++ [line], kivy_bindings)%list in
  match param_mappings !! str param_name with
  | Some None => acc
  | Some (Some kivy_param) =>
      if String.eqb (str param_name) "command" then
        match search (Group 1 (plus true word)) param_value with
        | Some func_match =>
            let binding :=
              "button.bind(on_press=" ++ str (group 1 func_match) ++ ")" in
            (kivy_params, kivy_bindings ++ [binding])%list
        | None => acc
        end
      else if String.eqb (str param_name) "state" then
        if contains (list_ascii_of_string "DISABLED") (upper param_value)
        then add_param "disabled=True"
        else add_param "disabled=False"
      else if String.eqb (str param_name) "width" then
        let hint := kivy_param ++ "=None" in
        let size := "width=" ++ str param_value in
        (kivy_params ++ [hint; size], kivy_bindings)%list
      else if String.eqb (str param_name) "height" then
        let hint := kivy_param ++ "=None" in
        let size := "height=" ++ str param_value in
        (kivy_params ++ [hint; size], kivy_bindings)%list
      else
        add_param (kivy_param ++ "=" ++ str param_value)
  | None =>
      add_param ("# " ++ str param_name ++ "=" ++ str param_value
                 ++ "  # No direct Kivy equivalent")
  end.

Definition translate_button (tkinter_button_code : string) : string :=
  match search button_pattern (list_ascii_of_string tkinter_button_code) with
  | None => "# Could not parse tkinter Button call"
  | Some m =>
      let params_str := strip (group 1 m) in
      let parts := map strip (split "," params_str) in
      let params_str :=
        match parts with
        | first :: others =>
            if negb (existsb (Ascii.eqb "=") first)
            then list_ascii_of_string (join "," (map str others))
            else params_str
        | [] => params_str
        end in
      let params := findall param_pattern params_str in
      let (kivy_params, kivy_bindings) :=
        fold_left translate_param params ([], []) in
      let kivy_code := "Button(" ++ join ", " kivy_params ++ ")" in
      match kivy_bindings with
      | [] => kivy_code
      | _ => kivy_code ++ String "010" "" ++ join (String "010" "") kivy_bindings
      end
  end.

End Translator.


(** ** The textual translator: windows and whole programs *)

Module Translate.
Import Re Translator.

(** Patterns without look-ahead and end anchor: whether they match a
    text does not depend on what follows it. *)
Fixpoint context_free (r : regex) : bool :=
  match r with
  | Eps | Chr _ => true
  | Seq r1 r2 | Alt r1 r2 => context_free r1 && context_free r2
  | Star _ r1 | Group _ r1 => context_free r1
  | Ahead _ | EndAnchor => false
  end.

Definition newline : string := String "010" "".

(** [r'(?:tk\.)?Tk\(\)'] *)
Definition tk_call : regex := seqs [opt (lit "tk."); lit "Tk()"].

Definition app_template : string :=
  join newline
    ["class MainApp(App):";
     "    def build(self):";
     "        # Create main layout";
     "        layout = BoxLayout(orientation='vertical')";
     "        ";
     "        # Add your widgets here";
     "        # Example: layout.add_widget(Button(text='Hello'))";
     "        ";
     "        return layout";
     "";
     "# Run the app";
     "if __name__ == '__main__':";
     "    MainApp().run()"].

Definition translate_window (tkinter_code : string) : string :=
  if found_in tk_call tkinter_code then app_template else tkinter_code.

(** [r'import\s+tkinter|from\s+tkinter'] *)
Definition tkinter_import : regex :=
  Alt (seqs [lit "import"; plus true space; lit "tkinter"])
      (seqs [lit "from"; plus true space; lit "tkinter"]).

(** [r'\.title\(|\.geometry\(|\.resizable\('] *)
Definition window_config : regex :=
  Alt (lit ".title(") (Alt (lit ".geometry(") (lit ".resizable(")).

(** [r'\.mainloop\(\)'] *)
Definition mainloop_call : regex := lit ".mainloop()".

(** [r'\.pack\(\)|\.grid\(\)|\.place\(\)'] *)
Definition geometry_call : regex :=
  Alt (lit ".pack()") (Alt (lit ".grid()") (lit ".place()")).

(** [r'root\s*='] *)
Definition root_assignment : regex :=
  seqs [lit "root"; Star true space; lit "="].

(** [s.strip()] on a string. *)
Definition strip_str (s : string) : string :=
  str (strip (list_ascii_of_string s)).

(** [s.split('\n')] *)
Definition split_lines (s : string) : list string :=
  map str (split "010" (list_ascii_of_string s)).

(** [p in s] and [s.startswith(p)] on strings. *)
Definition contains_str (p s : string) : bool :=
  contains (list_ascii_of_string p) (list_ascii_of_string s).

Definition starts_with_str (p s : string) : bool :=
  starts_with (list_ascii_of_string p) (list_ascii_of_string s).

(** [s.split('\n', 1)] unpacked into two names: the text before the
    first newline and the text after it; without a newline the unpacking
    fails. *)
Fixpoint split_once (s : text) : option (text * text) :=
  match s with
  | [] => None
  | a :: r =>
      if Ascii.eqb a "010" then Some ([], r)
      else match split_once r with
           | Some (h, t) => Some (a :: h, t)
           | None => None
           end
  end.

(** The variables of the loop in [translate]. *)
Record progress := Progress {
  kivy_lines : list string;
  imports_added : bool;
  app_structure_added : bool;
  in_build_method : bool
}.

Definition emit (new_lines : list string) (st : progress) : progress :=
  {| kivy_lines := (kivy_lines st ++ new_lines)%list;
     imports_added := imports_added st;
     app_structure_added := app_structure_added st;
     in_build_method := in_build_method st |}.

(** One round of the loop over the lines. *)
Definition translate_line (st : progress) (line : string)
  : Py.outcome progress :=
  let original_line := line in
  let line_stripped := strip_str line in
  if found_in tkinter_import line_stripped then
    if imports_added st then Py.Ok st
    else
      Py.Ok
        {| kivy_lines :=
             (kivy_lines st ++
              ["from kivy.app import App";
               "from kivy.uix.boxlayout import BoxLayout";
               "from kivy.uix.button import Button";
               "from kivy.uix.label import Label";
               "from kivy.uix.textinput import TextInput";
               ""])%list;
           imports_added := true;
           app_structure_added := app_structure_added st;
           in_build_method := in_build_method st |}
  else if found_in tk_call line_stripped then
    let st1 :=
      if app_structure_added st then st
      else
        {| kivy_lines :=
             (kivy_lines st ++
              ["class MainApp(App):";
               "    def build(self):";
               "        self.layout = BoxLayout(orientation='vertical')";
               ""])%list;
           imports_added := imports_added st;
           app_structure_added := true;
           in_build_method := true |} in
    if contains_str "=" line_stripped then
      Py.Ok (emit ["        # " ++ line_stripped
                   ++ "  # Root window - replaced by App.build()"] st1)
    else Py.Ok st1
  else if found_in window_config line_stripped then
    Py.Ok (emit ["        # " ++ line_stripped
                 ++ "  # Window config - handle in App if needed"] st)
  else if found_in mainloop_call line_stripped then
    Py.Ok
      {| kivy_lines :=
           (kivy_lines st ++
            [""; "        return self.layout"; "";
             "if __name__ == '__main__':"; "    MainApp().run()"])%list;
         imports_added := imports_added st;
         app_structure_added := app_structure_added st;
         in_build_method := false |}
  else if found_in button_open line_stripped then
    let kivy_button := translate_button line_stripped in
    if contains_str "button.bind" kivy_button then
      match split_once (list_ascii_of_string kivy_button) with
      | Some (button_part, bind_part) =>
          Py.Ok (emit ["        button = " ++ str button_part;
                       "        " ++ str bind_part;
                       "        self.layout.add_widget(button)"] st)
      | None => Py.Raise Py.ValueError
      end
    else
      Py.Ok (emit ["        button = " ++ kivy_button;
                   "        self.layout.add_widget(button)"] st)
  else if found_in geometry_call line_stripped then
    Py.Ok (emit ["        # Layout handled by add_widget() above"] st)
  else if negb (String.eqb line_stripped "")
          && negb (starts_with_str "#" line_stripped) then
    if negb (app_structure_added st)
       || starts_with_str "def " line_stripped
       || starts_with_str "class " line_stripped
    then Py.Ok (emit [original_line] st)
    else if found_in root_assignment line_stripped then Py.Ok st
    else if in_build_method st
    then Py.Ok (emit ["        " ++ original_line] st)
    else Py.Ok (emit [original_line] st)
  else Py.Ok (emit [original_line] st).

Fixpoint translate_lines (st : progress) (lines : list string)
  : Py.outcome progress :=
  match lines with
  | [] => Py.Ok st
  | line :: rest =>
      match translate_line st line with
      | Py.Ok st' => translate_lines st' rest
      | Py.Raise e => Py.Raise e
      end
  end.

Definition translate (tkinter_code : string) : Py.outcome string :=
  match translate_lines (Progress [] false false false)
          (split_lines tkinter_code) with
  | Py.Ok st => Py.Ok (join newline (kivy_lines st))
  | Py.Raise e => Py.Raise e
  end.

(** A line that none of the tests of [translate] recognises. *)
Definition plain_line (line : string) : Prop :=
  let stripped := list_ascii_of_string (strip_str line) in
  ~ occurs_in tkinter_import stripped /\
  ~ occurs_in tk_call stripped /\
  ~ occurs_in window_config stripped /\
  ~ occurs_in mainloop_call stripped /\
  ~ occurs_in button_open stripped /\
  ~ occurs_in geometry_call stripped.

End Translate.


(** ** FakeEntry: deleting text *)

Module FakeEntryEdit.
Section WithFloatStr.
Context (float_str : Py.pyfloat -> string).
Import FakeEntry.

(** [start + 1] *)
Definition plus_one (start : Py.value) : Py.outcome Py.value :=
  match start with
  | Py.VInt i => Py.Ok (Py.VInt (i + 1))
  | Py.VBool b => Py.Ok (Py.VInt ((if b then 1 else 0) + 1))
  | _ => Py.Raise Py.TypeError
  end.

(** [delete(start, end)]; [end] is [VNone] when it is left out.  A
    current value that is not a string is taken not to support slicing.
    The final [print] is modelled for bounds it can show, which are
    those of at most 4300 digits ([Py.max_str_digits]). *)
Definition delete (start end_ : Py.value) (self : t)
  : Py.outcome (t * list event) :=
  match get self with
  | Py.VStr current_text =>
      let start :=
        match start with
        | Py.VStr s =>
            if String.eqb s "end"
            then Py.VInt (Z.of_nat (String.length current_text))
            else Py.VInt 0
        | _ => start
        end in
      let end_ :=
        match end_ with
        | Py.VNone => plus_one start
        | Py.VStr e =>
            if String.eqb e "end"
            then Py.Ok (Py.VInt (Z.of_nat (String.length current_text)))
            else Py.Ok end_
        | _ => Py.Ok end_
        end in
      match end_ with
      | Py.Ok end_ =>
          match Py.as_slice_bound start, Py.as_slice_bound end_ with
          | Py.Ok i, Py.Ok j =>
              let new_text :=
                Py.slice_to i current_text ++ Py.slice_from j current_text in
              let r := set float_str (Py.VStr new_text) self in
              Py.Ok (fst r,
                     (snd r ++
                      [Print ("Text deleted from " ++ Py.str float_str start
                              ++ " to " ++ Py.str float_str end_)])%list)
          | Py.Raise e, _ => Py.Raise e
          | _, Py.Raise e => Py.Raise e
          end
      | Py.Raise e => Py.Raise e
      end
  | _ => Py.Raise Py.TypeError
  end.

Definition clear (self : t) : t * list event :=
  let r := set float_str (Py.VStr "") self in
  (fst r, (snd r ++ [Print "Entry cleared"])%list).

End WithFloatStr.
End FakeEntryEdit.


(** ** Variable classes: trace names *)

Module FakeStringVarTrace.
Import FakeStringVar.

(** [enumerate(l)], counting from [i]. *)
Fixpoint enumerate_from {A : Type} (i : nat) (l : list A) : list (nat * A) :=
  match l with
  | [] => []
  | x :: r => (i, x) :: enumerate_from (S i) r
  end.

Definition trace_info (self : t) : list (string * string * callable) :=
  map (fun p => ("trace_" ++ Py.str_of_int (Z.of_nat (fst p)), "write", snd p))
    (enumerate_from 0 (_callbacks self)).

Definition trace_remove (mode cbname : string) (self : t) : t * list event :=
  (self, [Print ("StringVar trace removed: " ++ cbname)]).

End FakeStringVarTrace.


(** ** FakeCanvas: the items of a canvas *)

Module FakeCanvasItems.
Section WithRepr.

(** How floats, dictionaries and tuples are shown in the lines printed
    is taken as given; showing a dictionary can fail, as it does for one
    that holds an int of more than 4300 digits. *)
Context (float_str : Py.pyfloat -> string).
Context (dict_repr : gmap string Py.value -> Py.outcome string).
Context (tuple_repr : list Py.value -> string).

(** Whether Kivy can be imported.  Its own calls ([Color], [Line],
    [Rectangle], [Ellipse] and the canvas context) are taken to
    return. *)
Context (kivy : bool).

Inductive item_type := TLine | TRectangle | TOval | TText.

(** One entry of [_canvas_items]; [text] is there for text items only. *)
Record item := Item {
  type : item_type;
  coords_of : list Py.value;
  text : option Py.value;
  options : gmap string Py.value;
  id : Z
}.

(** The canvas, as far as its items go. *)
Record t := Canvas { _canvas_items : list item }.

(** [f'{v}']: an int of more than 4300 digits cannot be shown. *)
Definition show (v : Py.value) : Py.outcome string :=
  match v with
  | Py.VInt z => Py.int_to_str z
  | _ => Py.Ok (Py.str float_str v)
  end.

Definition bind {A B : Type} (x : Py.outcome A) (f : A -> Py.outcome B)
  : Py.outcome B :=
  match x with
  | Py.Ok a => f a
  | Py.Raise e => Py.Raise e
  end.

Definition point (x y : Py.value) : Py.outcome string :=
  bind (show x) (fun a =>
  bind (show y) (fun b => Py.Ok ("(" ++ a ++ ", " ++ b ++ ")"))).

(** The line printed for a line, a rectangle or an oval. *)
Definition created_line (what : string) (x1 y1 x2 y2 : Py.value)
    (kwargs : gmap string Py.value) : Py.outcome string :=
  bind (point x1 y1) (fun p =>
  bind (point x2 y2) (fun q =>
  bind (dict_repr kwargs) (fun d =>
  Py.Ok ("Canvas " ++ what ++ " created: " ++ p ++ " to " ++ q
         ++ " with options " ++ d)))).

(** An int that [float(z)] rejects with [OverflowError]: one that
    rounds to [2^1024] or beyond. *)
Definition too_large_for_float (z : Z) : bool :=
  2 ^ 1024 - 2 ^ 970 <=? Z.abs z.

(** The exception [a - b] raises, if any.  Numbers subtract; an int
    next to a float is converted first, which can fail.  Every other
    value, an object included, is taken not to support [-]. *)
Definition sub_raises (a b : Py.value) : option Py.exn :=
  match a, b with
  | (Py.VBool _ | Py.VInt _), (Py.VBool _ | Py.VInt _) => None
  | Py.VFloat _, Py.VFloat _ => None
  | Py.VFloat _, Py.VBool _ | Py.VBool _, Py.VFloat _ => None
  | Py.VFloat _, Py.VInt z | Py.VInt z, Py.VFloat _ =>
      if too_large_for_float z then Some Py.OverflowError else None
  | _, _ => Some Py.TypeError
  end.

(** The drawing block of [create_rectangle] and [create_oval].  Without
    Kivy the import fails and the block is left through
    [except ImportError]; with it, [width = x2 - x1] and
    [height = y2 - y1] are computed, and what they raise leaves the
    method. *)
Definition draw_box (x1 y1 x2 y2 : Py.value) : option Py.exn :=
  if kivy then
    match sub_raises x2 x1 with
    | Some e => Some e
    | None => sub_raises y2 y1
    end
  else None.

(** The end of a creation, after the item was appended: the line is
    printed, the drawing done, and [item_id] returned. *)
Definition finish (item_id : Z) (line : Py.outcome string)
    (drawing : option Py.exn) : Py.outcome (Z * list string) :=
  match line with
  | Py.Ok l =>
      match drawing with
      | Some e => Py.Raise e
      | None => Py.Ok (item_id, [l])
      end
  | Py.Raise e => Py.Raise e
  end.

Definition next_id (self : t) : Z :=
  Z.of_nat (length (_canvas_items self)) + 1.

Definition add_item (it : item) (self : t) : t :=
  {| _canvas_items := (_canvas_items self ++ [it])%list |}.

(** Each creation gives the canvas it leaves, with the new item in
    every case, and what it returns and prints, or the exception. *)
Definition create_line (x1 y1 x2 y2 : Py.value)
    (kwargs : gmap string Py.value) (self : t)
  : t * Py.outcome (Z * list string) :=
  let item_id := next_id self in
  (add_item (Item TLine [x1; y1; x2; y2] None kwargs item_id) self,
   finish item_id (created_line "line" x1 y1 x2 y2 kwargs) None).

Definition create_rectangle (x1 y1 x2 y2 : Py.value)
    (kwargs : gmap string Py.value) (self : t)
  : t * Py.outcome (Z * list string) :=
  let item_id := next_id self in
  (add_item (Item TRectangle [x1; y1; x2; y2] None kwargs item_id) self,
   finish item_id (created_line "rectangle" x1 y1 x2 y2 kwargs)
     (draw_box x1 y1 x2 y2)).

Definition create_oval (x1 y1 x2 y2 : Py.value)
    (kwargs : gmap string Py.value) (self : t)
  : t * Py.outcome (Z * list string) :=
  let item_id := next_id self in
  (add_item (Item TOval [x1; y1; x2; y2] None kwargs item_id) self,
   finish item_id (created_line "oval" x1 y1 x2 y2 kwargs)
     (draw_box x1 y1 x2 y2)).

Definition create_text (x y text : Py.value)
    (kwargs : gmap string Py.value) (self : t)
  : t * Py.outcome (Z * list string) :=
  let item_id := next_id self in
  (add_item (Item TText [x; y] (Some text) kwargs item_id) self,
   finish item_id
     (bind (show text) (fun s =>
      bind (point x y) (fun p =>
      bind (dict_repr kwargs) (fun d =>
      Py.Ok ("Canvas text created: '" ++ s ++ "' at " ++ p
             ++ " with options " ++ d)))))
     None).

(** [delete(item_id)] for an integer [item_id]. *)
Definition delete (item_id : Z) (self : t) : t * list string :=
  ({| _canvas_items :=
        filter (fun it => id it <> item_id) (_canvas_items self) |},
   ["Canvas item " ++ Py.str_of_int item_id ++ " deleted"]).

Definition delete_all (self : t) : t * list string :=
  ({| _canvas_items := [] |}, ["All canvas items deleted"]).

Definition find_all (self : t) : list Z := map id (_canvas_items self).

(** The loop of [coords]: the first item with the given id gets the new
    coordinates, if any were passed, and its coordinates are returned. *)
Fixpoint coords_loop (item_id : Z) (coords : list Py.value)
    (items : list item) : option (list Py.value) * list item * list string :=
  match items with
  | [] => (None, [], [])
  | it :: rest =>
      if id it =? item_id then
        match coords with
        | [] => (Some (coords_of it), items, [])
        | _ =>
            (Some coords,
             Item (type it) coords (text it) (options it) (id it) :: rest,
             ["Canvas item " ++ Py.str_of_int item_id
              ++ " coordinates updated to " ++ tuple_repr coords])
        end
      else
        let '(r, rest', out) := coords_loop item_id coords rest in
        (r, it :: rest', out)
  end.

(** [coords(item_id, *coords)]; the result [None] is Python's [None]. *)
Definition coords (item_id : Z) (coords : list Py.value) (self : t)
  : option (list Py.value) * t * list string :=
  let '(r, items, out) := coords_loop item_id coords (_canvas_items self) in
  (r, {| _canvas_items := items |}, out).

(** The four ways to create an item, for sequences of calls. *)
Inductive creation :=
| Line (x1 y1 x2 y2 : Py.value) (kwargs : gmap string Py.value)
| Rectangle (x1 y1 x2 y2 : Py.value) (kwargs : gmap string Py.value)
| Oval (x1 y1 x2 y2 : Py.value) (kwargs : gmap string Py.value)
| Text (x y text : Py.value) (kwargs : gmap string Py.value).

Definition create (c : creation) (self : t)
  : t * Py.outcome (Z * list string) :=
  match c with
  | Line x1 y1 x2 y2 kw => create_line x1 y1 x2 y2 kw self
  | Rectangle x1 y1 x2 y2 kw => create_rectangle x1 y1 x2 y2 kw self
  | Oval x1 y1 x2 y2 kw => create_oval x1 y1 x2 y2 kw self
  | Text x y text kw => create_text x y text kw self
  end.

(** The canvas after a sequence of creations, each of which returned or
    raised. *)
Definition created (cs : list creation) (self : t) : t :=
  fold_left (fun acc c => fst (create c acc)) cs self.

(** Arguments with which every creation returns: coordinates that are
    ints of at most 4300 digits, a text that is a string, and options
    that can be shown. *)
Definition small_int (v : Py.value) : bool :=
  match v with
  | Py.VInt z => Py.decimal_digits z <=? Py.max_str_digits
  | _ => false
  end.

Definition shown (kwargs : gmap string Py.value) : bool :=
  match dict_repr kwargs with
  | Py.Ok _ => true
  | Py.Raise _ => false
  end.

Definition plain (c : creation) : bool :=
  match c with
  | Line x1 y1 x2 y2 kw | Rectangle x1 y1 x2 y2 kw | Oval x1 y1 x2 y2 kw =>
      small_int x1 && small_int y1 && small_int x2 && small_int y2
      && shown kw
  | Text x y (Py.VStr _) kw => small_int x && small_int y && shown kw
  | Text _ _ _ _ => false
  end.

End WithRepr.

(** The ids [1, 2, ..., n]. *)
Definition first_ids (n : nat) : list Z := map Z.of_nat (seq 1 n).

End FakeCanvasItems.


(** ** FakeMenu: the items of a menu *)

Module FakeMenu.

Inductive error := TypeError | KeyError.

Inductive result (A : Type) :=
| Done (a : A)
| Failed (e : error).
Arguments Done {A} a.
Arguments Failed {A} e.

Section WithFloatStr.
Context (float_str : Py.pyfloat -> string).
Context (dict_repr : gmap string Py.value -> string).

Inductive item_type := Command | Separator.

(** One entry of [_menu_items].  A separator is the dictionary
    [{'type': 'separator'}]: it has no ['label'], no ['command'] and no
    ['options'].  For a command, [options] is the dictionary of keyword
    arguments itself, its ['command'] included; a function is an object
    among the values. *)
Record item := Item {
  type : item_type;
  label : option Py.value;
  command : option Py.value;
  options : option (gmap string Py.value)
}.

Record t := Menu { _menu_items : list item }.

(** An index argument: an int or a string. *)
Inductive index :=
| At (i : Z)
| Named (s : string).

(** [bool(v)]; for an object it is taken as given. *)
Definition truth (obj_truth : string -> bool) (v : Py.value) : bool :=
  match v with
  | Py.VNone => false
  | Py.VBool b => b
  | Py.VInt z => negb (z =? 0)
  | Py.VFloat (Py.FFin m _) => negb (m =? 0)
  | Py.VFloat _ => true
  | Py.VStr s => negb (String.eqb s "")
  | Py.VObj r => obj_truth r
  end.

(** [add_command] with its keyword arguments; the item's
    ['accelerator'] entry, which no method reads, is not kept. *)
Definition add_command (obj_truth : string -> bool)
    (kwargs : gmap string Py.value) (self : t) : t * list string :=
  let label := default (Py.VStr "Menu Item") (kwargs !! "label") in
  let command := default Py.VNone (kwargs !! "command") in
  let accelerator := default Py.VNone (kwargs !! "accelerator") in
  let accel_text :=
    if truth obj_truth accelerator
    then " (" ++ Py.str float_str accelerator ++ ")" else "" in
  ({| _menu_items :=
        (_menu_items self ++
         [Item Command (Some label) (Some command) (Some kwargs)])%list |},
   ["Menu command added: '" ++ Py.str float_str label ++ "'" ++ accel_text]).

Definition add_separator (self : t) : t * list string :=
  ({| _menu_items := (_menu_items self ++ [Item Separator None None None])%list |},
   ["Menu separator added"]).

(** [deleted_item.get('label', 'item')] as printed. *)
Definition label_text (it : item) : string :=
  match label it with
  | Some l => Py.str float_str l
  | None => "item"
  end.

(** [range(end, index - 1, -1)] *)
Definition down_range (end_ index : Z) : list Z :=
  map (fun k => end_ - Z.of_nat k) (seq 0 (Z.to_nat (end_ - index + 1))).

(** [items.pop(i)] for [0 <= i < len(items)]. *)
Definition pop (i : Z) (items : list item) : list item :=
  (firstn (Z.to_nat i) items ++ skipn (S (Z.to_nat i)) items)%list.

(** The loop of [delete] over the indices, highest first. *)
Fixpoint delete_loop (indices : list Z) (items : list item)
  : list item * list string :=
  match indices with
  | [] => (items, [])
  | i :: rest =>
      if i <? Z.of_nat (length items) then
        let line :=
          "Menu item deleted: "
          ++ label_text (nth (Z.to_nat i) items (Item Separator None None None)) in
        let r := delete_loop rest (pop i items) in
        (fst r, line :: snd r)
      else delete_loop rest items
  end.

(** [delete(index, end)]; [end_] is [None] when it is left out. *)
Definition delete (index_ : index) (end_ : option index) (self : t)
  : result (t * list string) :=
  let n := Z.of_nat (length (_menu_items self)) in
  let end_ := default index_ end_ in
  let index_ :=
    match index_ with
    | Named s =>
        if String.eqb s "end" || String.eqb s "last" then n - 1 else 0
    | At i => i
    end in
  let end_ :=
    match end_ with
    | Named s =>
        if String.eqb s "end" || String.eqb s "last" then At (n - 1) else end_
    | At _ => end_
    end in
  if (0 <=? index_) && (index_ <? n) then
    match end_ with
    | Named _ => Failed TypeError
    | At e =>
        if (0 <=? e) && (e <? n) then
          let r := delete_loop (down_range e index_) (_menu_items self) in
          Done ({| _menu_items := fst r |}, snd r)
        else Done (self, [])
    end
  else Done (self, []).

(** The index of [entryconfig], [entrycget] and [invoke]: ['end'] is the
    last item; another string is compared with [0] and fails. *)
Definition resolve (index_ : index) (self : t) : result Z :=
  match index_ with
  | Named s =>
      if String.eqb s "end"
      then Done (Z.of_nat (length (_menu_items self)) - 1)
      else Failed TypeError
  | At i => Done i
  end.

Definition item_label_or_number (it : item) (i : Z) : string :=
  match label it with
  | Some l => Py.str float_str l
  | None => "item " ++ Py.str_of_int i
  end.

(** [entryconfig(index, **kwargs)]: [dict.update] lets the new values
    win. *)
Definition entryconfig (index_ : index) (kwargs : gmap string Py.value)
    (self : t) : result (t * list string) :=
  match resolve index_ self with
  | Failed e => Failed e
  | Done i =>
      if (0 <=? i) && (i <? Z.of_nat (length (_menu_items self))) then
        match nth_error (_menu_items self) (Z.to_nat i) with
        | Some it =>
            match options it with
            | Some opts =>
                let it' :=
                  Item (type it) (label it) (command it) (Some (kwargs ∪ opts)) in
                Done ({| _menu_items :=
                           (firstn (Z.to_nat i) (_menu_items self) ++ it' ::
                            skipn (S (Z.to_nat i)) (_menu_items self))%list |},
                      ["Menu item configured: '" ++ item_label_or_number it i
                       ++ "' with " ++ dict_repr kwargs])
            | None => Failed KeyError
            end
        | None => Done (self, [])
        end
      else Done (self, [])
  end.

(** [entrycget(index, option)]; [Done None] is the answer [None]. *)
Definition entrycget (index_ : index) (option_ : string) (self : t)
  : result (option Py.value) :=
  match resolve index_ self with
  | Failed e => Failed e
  | Done i =>
      if (0 <=? i) && (i <? Z.of_nat (length (_menu_items self))) then
        match nth_error (_menu_items self) (Z.to_nat i) with
        | Some it =>
            match options it with
            | Some opts => Done (opts !! option_)
            | None => Failed KeyError
            end
        | None => Done None
        end
      else Done None
  end.

End WithFloatStr.
End FakeMenu.


(** ** FakeNotebook: the tabs of a notebook *)

Module FakeNotebook.

(** What is passed for a tab: a widget, known by a number, an int, a
    string or [None]. *)
Inductive ident :=
| Widget (ref : nat)
| Num (i : Z)
| Str (s : string)
| Nothing.

(** [a == b] *)
Definition ident_eqb (a b : ident) : bool :=
  match a, b with
  | Widget x, Widget y => Nat.eqb x y
  | Num x, Num y => Z.eqb x y
  | Str x, Str y => String.eqb x y
  | Nothing, Nothing => true
  | _, _ => false
  end.

Section WithFloatStr.
Context (float_str : Py.pyfloat -> string).

(** The lines printed by the part of [add] that fills the Kivy tabbed
    panel are taken as given. *)
Context (kivy_tab_lines : ident -> Py.value -> list string).

(** One entry of [_tabs]; [insert] stores no ['state']. *)
Record tab := Tab {
  child : ident;
  text : Py.value;
  state : option Py.value;
  options : gmap string Py.value
}.

Record t := Notebook {
  _tabs : list tab;
  _current_tab : Z
}.

Definition default_text (self : t) (kwargs : gmap string Py.value)
  : Py.value :=
  default
    (Py.VStr ("Tab " ++ Py.str_of_int (Z.of_nat (length (_tabs self)) + 1)))
    (kwargs !! "text").

Definition add (child_ : ident) (kwargs : gmap string Py.value) (self : t)
  : t * list string :=
  let text_ := default_text self kwargs in
  let state_ := default (Py.VStr "normal") (kwargs !! "state") in
  let tabs := (_tabs self ++ [Tab child_ text_ (Some state_) kwargs])%list in
  ({| _tabs := tabs; _current_tab := _current_tab self |},
   ("Notebook tab added: '" ++ Py.str float_str text_ ++ "' (total tabs: "
    ++ Py.str_of_int (Z.of_nat (length tabs)) ++ ")")
   :: kivy_tab_lines child_ text_).

(** [l.insert(i, x)] *)
Definition list_insert {A : Type} (i : Z) (x : A) (l : list A) : list A :=
  let n := Py.slice_bound (length l) i in
  (firstn n l ++ x :: skipn n l)%list.

(** [insert(pos, child, **kwargs)]; anything but ['end'] or an int is
    compared with the number of tabs, which fails. *)
Definition insert (pos child_ : ident) (kwargs : gmap string Py.value)
    (self : t) : Py.outcome (t * list string) :=
  let text_ := default_text self kwargs in
  let tab_info := Tab child_ text_ None kwargs in
  let line (shown : string) :=
    "Notebook tab inserted at position " ++ shown
    ++ ": '" ++ Py.str float_str text_ ++ "'" in
  let appended (shown : string) :=
    Py.Ok ({| _tabs := (_tabs self ++ [tab_info])%list;
              _current_tab := _current_tab self |}, [line shown]) in
  match pos with
  | Str s => if String.eqb s "end" then appended s else Py.Raise Py.TypeError
  | Num p =>
      if Z.of_nat (length (_tabs self)) <=? p then appended (Py.str_of_int p)
      else Py.Ok ({| _tabs := list_insert p tab_info (_tabs self);
                     _current_tab := _current_tab self |},
                  [line (Py.str_of_int p)])
  | _ => Py.Raise Py.TypeError
  end.

(** The position of the first tab whose child equals [tab_id]. *)
Fixpoint position (tab_id : ident) (i : nat) (tabs : list tab) : option nat :=
  match tabs with
  | [] => None
  | tb :: rest =>
      if ident_eqb (child tb) tab_id then Some i
      else position tab_id (S i) rest
  end.

Definition remove_at (i : nat) (tabs : list tab) : list tab :=
  (firstn i tabs ++ skipn (S i) tabs)%list.

Definition removed_line (tb : option tab) : list string :=
  match tb with
  | Some tb => ["Notebook tab removed: '" ++ Py.str float_str (text tb) ++ "'"]
  | None => []
  end.

Definition forget (tab_id : ident) (self : t) : t * list string :=
  let by_child :=
    match position tab_id 0 (_tabs self) with
    | Some i =>
        ({| _tabs := remove_at i (_tabs self);
            _current_tab := _current_tab self |},
         removed_line (nth_error (_tabs self) i))
    | None => (self, [])
    end in
  match tab_id with
  | Num i =>
      if (0 <=? i) && (i <? Z.of_nat (length (_tabs self))) then
        ({| _tabs := remove_at (Z.to_nat i) (_tabs self);
            _current_tab := _current_tab self |},
         removed_line (nth_error (_tabs self) (Z.to_nat i)))
      else by_child
  | _ => by_child
  end.

Definition tabs (self : t) : list ident := map child (_tabs self).

(** [index(tab_id)]: every object has a [__class__], so the search by
    child is the branch that is always taken. *)
Definition index (tab_id : ident) (self : t) : Z :=
  match position tab_id 0 (_tabs self) with
  | Some i => Z.of_nat i
  | None => -1
  end.

(** [select()] without an argument; [None] is the answer [None]. *)
Definition selected (self : t) : option ident :=
  if (0 <=? _current_tab self)
     && (_current_tab self <? Z.of_nat (length (_tabs self)))
  then child <$> nth_error (_tabs self) (Z.to_nat (_current_tab self))
  else None.

(** [select(tab_id)] with an argument other than [None]. *)
Definition select (tab_id : ident) (self : t) : t * list string :=
  match tab_id with
  | Num i =>
      if (0 <=? i) && (i <? Z.of_nat (length (_tabs self))) then
        ({| _tabs := _tabs self; _current_tab := i |},
         match nth_error (_tabs self) (Z.to_nat i) with
         | Some tb =>
             ["Notebook tab selected: '" ++ Py.str float_str (text tb)
              ++ "' (index " ++ Py.str_of_int i ++ ")"]
         | None => []
         end)
      else (self, [])
  | _ => (self, [])
  end.

End WithFloatStr.
End FakeNotebook.


(** ** FakeText: the content of a text widget *)

Module FakeText.
Section WithFloatStr.
Context (float_str : Py.pyfloat -> string).

(** [o[:50]] for an object [o] that is neither a string nor a number,
    given by its [str()]: the [str()] of the slice, or the exception. *)
Context (obj_slice : string -> Py.outcome string).

(** What [self.kivy_text] holds: a Kivy [TextInput], taken to hand back
    the string last assigned to its [text], or, when Kivy cannot be
    imported, a plain string, which has no [text] attribute. *)
Inductive kivy_widget :=
| TextInput (text : string)
| Simulated (repr : string).

Record t := Text {
  kivy_text : option kivy_widget;
  _content : Py.value
}.

(** [get(start, end)]: both branches return the full text. *)
Definition get (self : t) : Py.value :=
  match kivy_text self with
  | Some (TextInput text) => Py.VStr text
  | _ => _content self
  end.

(** [self._content = new_text] and the assignment to the [TextInput]. *)
Definition store (new_text : string) (self : t) : t :=
  {| kivy_text :=
       match kivy_text self with
       | Some (TextInput _) => Some (TextInput new_text)
       | other => other
       end;
     _content := Py.VStr new_text |}.

(** [text[:50]], as it is printed. *)
Definition first_50 (text : Py.value) : Py.outcome string :=
  match text with
  | Py.VStr s => Py.Ok (Py.take 50 s)
  | Py.VObj r => obj_slice r
  | _ => Py.Raise Py.TypeError
  end.

Definition is_str (v : Py.value) (s : string) : bool :=
  match v with
  | Py.VStr x => String.eqb x s
  | _ => false
  end.

(** [insert(index, text)]: the widget after the call, and what was
    printed or the exception that left the call. *)
Definition insert (index text : Py.value) (self : t)
  : t * Py.outcome (list string) :=
  match get self with
  | Py.VStr current_text =>
      let new_text :=
        if is_str index "end" || is_str index "end-1c"
        then current_text ++ Py.str float_str text
        else if is_str index "1.0"
        then Py.str float_str text ++ current_text
        else current_text ++ Py.str float_str text in
      (store new_text self,
       match first_50 text with
       | Py.Ok shown =>
           Py.Ok ["Text inserted at " ++ Py.str float_str index ++ ": '"
                  ++ shown
                  ++ (if (50 <? String.length (Py.str float_str text))%nat
                      then "..." else "")
                  ++ "'"]
       | Py.Raise e => Py.Raise e
       end)
  | _ => (self, Py.Raise Py.TypeError)
  end.

(** [delete(start, end=None)] *)
Definition delete (start end_ : Py.value) (self : t) : t * list string :=
  let end_ :=
    match end_ with
    | Py.VNone => Py.VStr (Py.str float_str start ++ "+1c")
    | _ => end_
    end in
  if is_str start "1.0" && is_str end_ "end" then
    (store "" self, ["All text deleted"])
  else
    (self, ["Text deleted from " ++ Py.str float_str start ++ " to "
            ++ Py.str float_str end_]).

Definition clear (self : t) : t * list string :=
  delete (Py.VStr "1.0") (Py.VStr "end") self.

End WithFloatStr.
End FakeText.


(** ** FakeTk: window options and the close handler *)

Module FakeTkWindow.
Section WithFloatStr.
Context (float_str : Py.pyfloat -> string).

(** [func.__name__] of a callable. *)
Context (fn_name : nat -> string).

(** The attributes [configure], [cget], [protocol] and [destroy] read
    or write; each is absent until a method first assigns it. *)
Record t := Tk {
  _bg_color : option Py.value;
  _fg_color : option Py.value;
  _width : option Py.value;
  _height : option Py.value;
  _config : option (gmap string Py.value);
  _protocols : option (gmap string callable);
  _destroyed : option bool
}.

Definition init : t :=
  {| _bg_color := None; _fg_color := None; _width := None; _height := None;
     _config := None; _protocols := None; _destroyed := None |}.

(** One round of the loop of [configure]. *)
Definition configure_item (acc : t * list event) (kv : string * Py.value)
  : t * list event :=
  let (self, out) := acc in
  let (key, value) := kv in
  let shown := Py.str float_str value in
  if String.eqb key "bg" || String.eqb key "background" then
    ({| _bg_color := Some value; _fg_color := _fg_color self;
        _width := _width self; _height := _height self;
        _config := _config self; _protocols := _protocols self;
        _destroyed := _destroyed self |},
     (out ++ [Print ("Background color set to: " ++ shown)])%list)
  else if String.eqb key "fg" || String.eqb key "foreground" then
    ({| _bg_color := _bg_color self; _fg_color := Some value;
        _width := _width self; _height := _height self;
        _config := _config self; _protocols := _protocols self;
        _destroyed := _destroyed self |},
     (out ++ [Print ("Foreground color set to: " ++ shown)])%list)
  else if String.eqb key "width" then
    ({| _bg_color := _bg_color self; _fg_color := _fg_color self;
        _width := Some value; _height := _height self;
        _config := _config self; _protocols := _protocols self;
        _destroyed := _destroyed self |},
     (out ++ [Print ("Width set to: " ++ shown)])%list)
  else if String.eqb key "height" then
    ({| _bg_color := _bg_color self; _fg_color := _fg_color self;
        _width := _width self; _height := Some value;
        _config := _config self; _protocols := _protocols self;
        _destroyed := _destroyed self |},
     (out ++ [Print ("Height set to: " ++ shown)])%list)
  else
    ({| _bg_color := _bg_color self; _fg_color := _fg_color self;
        _width := _width self; _height := _height self;
        _config := Some (<[key := value]> (default ∅ (_config self)));
        _protocols := _protocols self;
        _destroyed := _destroyed self |},
     (out ++ [Print ("Configuration set: " ++ key ++ " = " ++ shown)])%list).

(** [configure] with its keyword arguments in the order given. *)
Definition configure (kwargs : list (string * Py.value)) (self : t)
  : t * list event :=
  fold_left configure_item kwargs (self, []).

Definition config := configure.

Definition cget (option : string) (self : t) : Py.value :=
  if String.eqb option "bg" || String.eqb option "background" then
    default (Py.VStr "white") (_bg_color self)
  else if String.eqb option "fg" || String.eqb option "foreground" then
    default (Py.VStr "black") (_fg_color self)
  else if String.eqb option "width" then
    default (Py.VInt 800) (_width self)
  else if String.eqb option "height" then
    default (Py.VInt 600) (_height self)
  else
    match _config self with
    | Some c => default Py.VNone (c !! option)
    | None => Py.VNone
    end.

(** [protocol(protocol_name, func)] with a handler. *)
Definition protocol (protocol_name : string) (func : callable) (self : t)
  : t * list event :=
  ({| _bg_color := _bg_color self; _fg_color := _fg_color self;
      _width := _width self; _height := _height self;
      _config := _config self;
      _protocols :=
        Some (<[protocol_name := func]> (default ∅ (_protocols self)));
      _destroyed := _destroyed self |},
   (Print ("Protocol handler set: " ++ protocol_name ++ " -> "
           ++ fn_name (fn_id func))
    :: (if String.eqb protocol_name "WM_DELETE_WINDOW" then
          [Print "Window close handler registered (will be called when app is closed)"]
        else if String.eqb protocol_name "WM_SAVE_YOURSELF" then
          [Print "Save session handler registered"]
        else if String.eqb protocol_name "WM_TAKE_FOCUS" then
          [Print "Focus handler registered"]
        else []))%list).

(** [protocol(protocol_name)] without a handler; [None] is the answer
    [None].  The call creates [_protocols] when it is absent. *)
Definition protocol_get (protocol_name : string) (self : t)
  : t * option callable :=
  ({| _bg_color := _bg_color self; _fg_color := _fg_color self;
      _width := _width self; _height := _height self;
      _config := _config self;
      _protocols := Some (default ∅ (_protocols self));
      _destroyed := _destroyed self |},
   default ∅ (_protocols self) !! protocol_name).

(** [destroy()].  The handler is a callable as everywhere in this
    development: it returns or raises an [Exception], and does not call
    back into the window.  A handler that itself calls [destroy()]
    enters it again, since [_destroyed] is set only after the handler
    and nothing guards the call; that is outside this model. *)
Definition destroy (self : t) : t * list event :=
  let called :=
    match _protocols self with
    | Some p =>
        match p !! "WM_DELETE_WINDOW" with
        | Some f =>
            Call (fn_id f) []
            :: match fn_does f with
               | Returns => [Print "WM_DELETE_WINDOW protocol handler called"]
               | Raises msg =>
                   [Print ("Error calling WM_DELETE_WINDOW handler: " ++ msg)]
               end
        | None => []
        end
    | None => []
    end in
  ({| _bg_color := _bg_color self; _fg_color := _fg_color self;
      _width := _width self; _height := _height self;
      _config := _config self; _protocols := _protocols self;
      _destroyed := Some true |},
   (called ++ [Print "Window destroyed"])%list).

(** The name under which [configure] and [cget] keep an option: [bg]
    and [background] are one option, and so are [fg] and [foreground]. *)
Definition option_name (key : string) : string :=
  if String.eqb key "bg" || String.eqb key "background" then "bg"
  else if String.eqb key "fg" || String.eqb key "foreground" then "fg"
  else key.

(** The value given last for the option [name] among keyword
    arguments. *)
Fixpoint given_last (name : string) (kwargs : list (string * Py.value))
  : option Py.value :=
  match kwargs with
  | [] => None
  | (key, value) :: rest =>
      match given_last name rest with
      | Some later => Some later
      | None =>
          if String.eqb (option_name key) (option_name name)
          then Some value else None
      end
  end.

End WithFloatStr.
End FakeTkWindow.

(** * Properties *)

(** ** Built-ins and traces *)

Example str_of_int_pos : Py.str_of_int 1234 = "1234".
Proof. reflexivity. Qed.

Example str_of_int_neg : Py.str_of_int (-7) = "-7".
Proof. reflexivity. Qed.

Example str_of_int_zero : Py.str_of_int 0 = "0".
Proof. reflexivity. Qed.

Lemma invoked_app (t1 t2 : list event) :
  invoked (t1 ++ t2) = (invoked t1 ++ invoked t2)%list.
Proof.
  induction t1 as [|[line|fn args] t1 IH]; simpl; [reflexivity | exact IH |].
  now rewrite IH.
Qed.


(** ** FakeTk: window state *)

Section WindowState.
Import FakeTk.

Lemma wm_state_echo (s : string) (w : world) :
  fst (wm_state (Some s) w) = s.
Proof. reflexivity. Qed.

Lemma wm_state_get_pure (w : world) : snd (wm_state None w) = w.
Proof.
  unfold wm_state.
  destruct (default false (_withdrawn (self w))); [reflexivity|].
  destruct (default false (_iconified (self w))); reflexivity.
Qed.

(** Withdrawing wins over every earlier operation: the getter tests
    [_withdrawn] first. *)
Lemma wm_state_withdrawn_roundtrip (w : world) :
  fst (wm_state None (snd (wm_state (Some "withdrawn") w))) = "withdrawn".
Proof. reflexivity. Qed.

(** As long as the window was never iconified, the three states are read
    back as they were set. *)
Lemma wm_state_normal_roundtrip (w : world) :
  default false (_iconified (self w)) = false ->
  fst (wm_state None (snd (wm_state (Some "normal") w))) = "normal".
Proof.
  intros Hi. simpl. rewrite Hi. reflexivity.
Qed.

(** C6, evaluated on the code: on a fresh window, after [iconify()], the
    call [wm_state('normal')] returns ['normal'] and prints that the
    state was set, but the next [wm_state()] answers ['iconic']:
    [deiconify] clears [_withdrawn] only and leaves [_iconified] set. *)
Theorem wm_state_normal_after_iconify :
  let w := run_ops [OpIconify] (World init [] [] 0) in
  fst (wm_state (Some "normal") w) = "normal" /\
  fst (wm_state None (snd (wm_state (Some "normal") w))) = "iconic".
Proof. split; reflexivity. Qed.

(** The same defect from the other side: [iconify] leaves [_withdrawn]
    set, so ['iconic'] set on a withdrawn window reads back
    ['withdrawn']. *)
Lemma wm_state_iconic_after_withdraw :
  let w := run_ops [OpWithdraw] (World init [] [] 0) in
  fst (wm_state (Some "iconic") w) = "iconic" /\
  fst (wm_state None (snd (wm_state (Some "iconic") w))) = "withdrawn".
Proof. split; reflexivity. Qed.

(** No operation ever clears [_iconified]: once the window was
    iconified, [wm_state()] never answers ['normal'] again. *)
Lemma run_op_keeps_iconified (o : state_op) (w : world) :
  _iconified (self w) = Some true ->
  _iconified (self (run_op o w)) = Some true.
Proof.
  intros Hi. destruct o as [| | |[st|]].
  - exact Hi.
  - exact Hi.
  - reflexivity.
  - simpl. destruct (String.eqb st "withdrawn"); [exact Hi|].
    destruct (String.eqb st "iconic"); [reflexivity|].
    destruct (String.eqb st "normal"); exact Hi.
  - unfold run_op. rewrite wm_state_get_pure. exact Hi.
Qed.

Lemma iconified_for_good (ops : list state_op) (w : world) :
  _iconified (self w) = Some true ->
  fst (wm_state None (run_ops ops w)) <> "normal".
Proof.
  intros Hi.
  assert (Hkept : _iconified (self (run_ops ops w)) = Some true).
  { revert w Hi. induction ops as [|o ops IH]; intros w Hi; [exact Hi|].
    simpl. apply IH. now apply run_op_keeps_iconified. }
  unfold wm_state. rewrite Hkept. simpl.
  destruct (default false (_withdrawn (self (run_ops ops w)))); discriminate.
Qed.

End WindowState.

(** ** FakeTk: delayed calls *)

Section After.
Import FakeTk.

Lemma after_cancel_running (job_id : string) (w : world) :
  running (after_cancel job_id w) = running w.
Proof.
  unfold after_cancel.
  destruct (_after_jobs (self w)) as [jobs|]; [|reflexivity].
  destruct (jobs !! job_id); reflexivity.
Qed.

Lemma after_cancel_jobs (job_id : string) (w : world) :
  _after_jobs (self (after_cancel job_id w))
  = delete job_id <$> _after_jobs (self w).
Proof.
  unfold after_cancel.
  destruct (_after_jobs (self w)) as [jobs|] eqn:Hj; simpl.
  - destruct (jobs !! job_id) eqn:Hl; simpl.
    + reflexivity.
    + rewrite Hj. simpl. f_equal. symmetry. now apply delete_id.
  - now rewrite Hj.
Qed.

Lemma after_cancel_absent (job_id : string) (w : world) :
  (default ∅ (_after_jobs (self w))) !! job_id = None ->
  self (after_cancel job_id w) = self w.
Proof.
  unfold after_cancel.
  destruct (_after_jobs (self w)) as [jobs|]; simpl; [|reflexivity].
  intros ->. reflexivity.
Qed.

(** Every thread that could run before a cancellation can run after
    it, with the same calls. *)
Lemma after_cancel_keeps_steps (job_id : string) (w w' : world) :
  thread_step w w' ->
  exists w'', thread_step (after_cancel job_id w) w'' /\
              invoked (trace w'') = invoked (trace w').
Proof.
  intros Hstep. destruct Hstep as [w before th rest Hrun].
  eexists. split.
  - apply step_thread with (before := before) (th := th) (rest := rest).
    now rewrite after_cancel_running.
  - simpl. rewrite !invoked_app. f_equal.
    unfold after_cancel.
    destruct (_after_jobs (self w)) as [jobs|]; simpl.
    + destruct (jobs !! job_id); simpl; rewrite invoked_app; simpl;
        now rewrite app_nil_r.
    + rewrite invoked_app; simpl; now rewrite app_nil_r.
Qed.

(** C5: [after] returns ['after_job_N'] with [N] the number drawn
    between 1000 and 9999, records the new thread under that id and
    starts it; [after_cancel] only deletes the id from [_after_jobs]
    (nothing changes when it is absent), never touches the started
    threads, and the thread of a cancelled job still runs and calls
    [func]. *)
Theorem after_and_after_cancel
    (w : world) (delay : Z) (func : callable) (args : list Py.value)
    (rand : Z) (w2 : world) (job_id : string) :
  1000 <= rand <= 9999 ->
  let id := fst (after delay func args rand w) in
  let w1 := snd (after delay func args rand w) in
  let th := Thread (fresh w) delay func args in
  (exists N, 1000 <= N <= 9999 /\ id = "after_job_" ++ Py.str_of_int N) /\
  (exists jobs, _after_jobs (self w1) = Some jobs /\
                jobs !! id = Some th /\
                forall k, k <> id ->
                  jobs !! k = default ∅ (_after_jobs (self w)) !! k) /\
  running w1 = (running w ++ [th])%list /\
  _after_jobs (self (after_cancel job_id w2))
    = delete job_id <$> _after_jobs (self w2) /\
  (default ∅ (_after_jobs (self w2)) !! job_id = None ->
     self (after_cancel job_id w2) = self w2) /\
  _withdrawn (self (after_cancel job_id w2)) = _withdrawn (self w2) /\
  _iconified (self (after_cancel job_id w2)) = _iconified (self w2) /\
  running (after_cancel job_id w2) = running w2 /\
  (forall w', thread_step w2 w' ->
     exists w'', thread_step (after_cancel job_id w2) w'' /\
                 invoked (trace w'') = invoked (trace w')) /\
  (0 <= delay ->
     exists w'', thread_step (after_cancel id w1) w'' /\
                 In (fn_id func) (invoked (trace w''))).
Proof.
  intros Hrand id w1 th.
  split; [exists rand; split; [exact Hrand | reflexivity]|].
  split.
  { eexists. split; [reflexivity|]. split.
    - apply lookup_insert_eq.
    - intros k Hk. now apply lookup_insert_ne. }
  split; [reflexivity|].
  split; [apply after_cancel_jobs|].
  split; [apply after_cancel_absent|].
  split.
  { unfold after_cancel. destruct (_after_jobs (self w2)) as [jobs|];
      [destruct (jobs !! job_id)|]; reflexivity. }
  split.
  { unfold after_cancel. destruct (_after_jobs (self w2)) as [jobs|];
      [destruct (jobs !! job_id)|]; reflexivity. }
  split; [apply after_cancel_running|].
  split; [intros w'; apply after_cancel_keeps_steps|].
  intros Hdelay.
  eexists. split.
  - apply step_thread with (before := running w) (th := th) (rest := []).
    rewrite after_cancel_running. reflexivity.
  - simpl. rewrite invoked_app. apply in_or_app. right.
    unfold delayed_call. simpl.
    destruct (Z.ltb_spec delay 0) as [Hneg|_]; [lia|].
    simpl. now left.
Qed.

Lemma after_and_after_cancel_witness :
  let w := World init [] [] 0 in
  let f := Callable 7 Returns in
  fst (after 50 f [] 4242 w) = "after_job_4242" /\
  running (after_cancel "after_job_4242" (snd (after 50 f [] 4242 w)))
    = [Thread 0 50 f []].
Proof.
  pose proof (after_and_after_cancel (World init [] [] 0) 50
                (Callable 7 Returns) [] 4242
                (snd (after 50 (Callable 7 Returns) [] 4242
                        (World init [] [] 0)))
                "after_job_4242" ltac:(lia)) as H.
  simpl in H. destruct H as (_ & _ & _ & _ & _ & _ & _ & Hrun & _).
  split; [reflexivity | exact Hrun].
Defined.

End After.

(** ** Variable classes: trace callbacks *)

Lemma invoked_fire (label : string) (callbacks : list callable) :
  invoked (fire label callbacks) = map fn_id callbacks.
Proof.
  induction callbacks as [|cb rest IH]; simpl; [reflexivity|].
  destruct (fn_does cb); simpl; now rewrite IH.
Qed.

Lemma invoked_print (tr : list event) (line : string) :
  invoked (tr ++ [Print line]) = invoked tr.
Proof. rewrite invoked_app. simpl. apply app_nil_r. Qed.

Lemma count_occ_registered (ids : list nat) (id : nat) :
  In id ids -> (1 <= count_occ Nat.eq_dec ids id)%nat.
Proof. intros Hin. apply (count_occ_In Nat.eq_dec) in Hin. lia. Qed.

Section StringVarTrace.
Context (float_str : Py.pyfloat -> string).
Import FakeStringVar.

Lemma trace_registers (mode : string) (cb : callable) (self : t) :
  In cb (_callbacks (snd (fst (trace mode cb self)))).
Proof. simpl. apply in_or_app. right. now left. Qed.

(** C1: [set(v)] calls the registered callbacks, one call for each
    registration and in registration order, exactly when [str(v)]
    differs from the stored value; when it is equal nothing is called
    and the stored value stays. *)
Theorem set_fires_iff_changed (self : t) (v : Py.value) (cb : callable) :
  In cb (_callbacks self) ->
  let self' := fst (set float_str v self) in
  let calls := invoked (snd (set float_str v self)) in
  let registered := map fn_id (_callbacks self) in
  (Py.str float_str v <> _value self -> calls = registered) /\
  (count_occ Nat.eq_dec calls (fn_id cb)
     = count_occ Nat.eq_dec registered (fn_id cb)
   <-> Py.str float_str v <> _value self) /\
  (List.NoDup registered ->
     (count_occ Nat.eq_dec calls (fn_id cb) = 1%nat
      <-> Py.str float_str v <> _value self)) /\
  (Py.str float_str v = _value self ->
     calls = [] /\ _value self' = _value self) /\
  get self' = Py.str float_str v /\
  _callbacks self' = _callbacks self.
Proof.
  intros Hin self' calls registered.
  assert (Hreg : In (fn_id cb) registered) by now apply in_map.
  assert (Hpos := count_occ_registered _ _ Hreg).
  assert (Hcalls : calls = if String.eqb (_value self) (Py.str float_str v)
                           then [] else registered).
  { unfold calls, set. simpl. rewrite invoked_print.
    destruct (String.eqb _ _); [reflexivity | apply invoked_fire]. }
  destruct (String.eqb_spec (_value self) (Py.str float_str v)) as [Heq|Hne];
    rewrite Hcalls.
  - split; [congruence|].
    split; [simpl; split; [lia | congruence]|].
    split; [intros _; simpl; split; [lia | congruence]|].
    split; [intros _; split; [reflexivity | now rewrite Heq]|].
    split; reflexivity.
  - split; [reflexivity|].
    split; [split; [congruence | reflexivity]|].
    split.
    { intros Hnd. split; [congruence|]. intros _.
      pose proof (proj1 (NoDup_count_occ Nat.eq_dec registered) Hnd (fn_id cb)). lia. }
    split; [congruence|].
    split; reflexivity.
Qed.

End StringVarTrace.

Lemma set_fires_iff_changed_witness :
  let var := FakeStringVar.StringVar "old"
               [Callable 1 Returns; Callable 2 (Raises "boom")] in
  invoked (snd (FakeStringVar.set (fun _ => "nan") (Py.VStr "new") var))
    = [1%nat; 2%nat].
Proof.
  intros var.
  refine (proj1 (set_fires_iff_changed (fun _ => "nan") var (Py.VStr "new")
                   (Callable 2 (Raises "boom")) _) _).
  - simpl. right. left. reflexivity.
  - simpl. discriminate.
Defined.

(** ** Variable classes: conversion failures *)

Section VarConversions.
Context (float : Py.value -> Py.outcome Py.pyfloat).
Context (float_str : Py.pyfloat -> string).


(** A decimal string of more than 4300 digits is no [int]: the
    constructor stores [0]. *)
Lemma int_of_long_literal (s : string) :
  Py.max_str_digits < Py.count_decimal_digits (list_ascii_of_string s) ->
  Py.int (Py.VStr s) = Py.Raise Py.ValueError /\
  FakeIntVar.init (Py.VStr s) = Py.Ok (FakeIntVar.IntVar 0 []).
Proof.
  intros H. apply Z.ltb_lt in H.
  unfold FakeIntVar.init, Py.int. rewrite H. split; reflexivity.
Qed.

End VarConversions.



(** *** An int of more than 4300 digits

    [10 ^ n] is written with [n + 1] digits; this is read off the
    conversion to decimal without running it. *)

Lemma pow10_spec (n : nat) : Z.pos (Py.pow10 n) = 10 ^ Z.of_nat n.
Proof.
  induction n as [|n IH]; [reflexivity|].
  rewrite Nat2Z.inj_succ, Z.pow_succ_r by lia. rewrite <- IH. reflexivity.
Qed.

Lemma pow10_little (n : nat) :
  Pos.to_little_uint (Py.pow10 n)
  = Nat.iter n Decimal.D0 (Decimal.D1 Decimal.Nil).
Proof.
  induction n as [|n IH]; [reflexivity|].
  change (Py.pow10 (S n)) with (10 * Py.pow10 n)%positive.
  pose proof (DecimalPos.Unsigned.to_ldec_tenfold (Py.pow10 n)) as H.
  change (Pos.to_little_uint (10 * Py.pow10 n)
          = Decimal.D0 (Pos.to_little_uint (Py.pow10 n))) in H.
  rewrite H, IH. reflexivity.
Qed.

Lemma zeros_swap (n : nat) (d : Decimal.uint) :
  Nat.iter n Decimal.D0 (Decimal.D0 d) = Decimal.D0 (Nat.iter n Decimal.D0 d).
Proof.
  induction n as [|n IH]; [reflexivity|].
  change (Nat.iter (S n) Decimal.D0 (Decimal.D0 d))
    with (Decimal.D0 (Nat.iter n Decimal.D0 (Decimal.D0 d))).
  now rewrite IH.
Qed.

Lemma revapp_zeros (n : nat) (d d' : Decimal.uint) :
  Decimal.revapp (Nat.iter n Decimal.D0 d) d'
  = Decimal.revapp d (Nat.iter n Decimal.D0 d').
Proof.
  revert d'. induction n as [|n IH]; intros d'; [reflexivity|].
  change (Nat.iter (S n) Decimal.D0 d)
    with (Decimal.D0 (Nat.iter n Decimal.D0 d)).
  change (Nat.iter (S n) Decimal.D0 d')
    with (Decimal.D0 (Nat.iter n Decimal.D0 d')).
  cbn [Decimal.revapp]. rewrite IH, zeros_swap. reflexivity.
Qed.

Lemma zeros_length (n : nat) :
  String.length (NilEmpty.string_of_uint (Nat.iter n Decimal.D0 Decimal.Nil))
  = n.
Proof.
  induction n as [|n IH]; [reflexivity|].
  change (Nat.iter (S n) Decimal.D0 Decimal.Nil)
    with (Decimal.D0 (Nat.iter n Decimal.D0 Decimal.Nil)).
  cbn [NilEmpty.string_of_uint String.length]. now rewrite IH.
Qed.

Lemma decimal_digits_pow10 (n : nat) :
  Py.decimal_digits (10 ^ Z.of_nat n) = Z.of_nat n + 1.
Proof.
  rewrite <- pow10_spec. unfold Py.decimal_digits, Py.str_of_int.
  change (Z.to_int (Z.abs (Z.pos (Py.pow10 n))))
    with (Decimal.Pos
            (Decimal.revapp (Pos.to_little_uint (Py.pow10 n)) Decimal.Nil)).
  rewrite pow10_little, revapp_zeros.
  change (String.length
            (NilZero.string_of_int
               (Decimal.Pos
                  (Decimal.revapp (Decimal.D1 Decimal.Nil)
                     (Nat.iter n Decimal.D0 Decimal.Nil)))))
    with (S (String.length
               (NilEmpty.string_of_uint
                  (Nat.iter n Decimal.D0 Decimal.Nil)))).
  rewrite zeros_length. lia.
Qed.

Example int_var_set_huge_raises :
  FakeIntVar.set (Py.VInt (10 ^ 4300)) (FakeIntVar.IntVar 0 [])
    = Py.Raise Py.ValueError /\
  FakeIntVar.init (Py.VInt (10 ^ 4300))
    = Py.Ok (FakeIntVar.IntVar (10 ^ 4300) []).
Proof.
  split; [|reflexivity].
  unfold FakeIntVar.set, FakeIntVar.finish_set, Py.int_to_str.
  cbn [Py.int FakeIntVar._value].
  change (10 ^ 4300) with (10 ^ Z.of_nat 4300).
  rewrite decimal_digits_pow10. reflexivity.
Qed.

Example int_var_set_text :
  FakeIntVar.get
    (match FakeIntVar.set (Py.VStr " 42 ") (FakeIntVar.IntVar 0 []) with
     | Py.Ok (var, _) => var
     | Py.Raise _ => FakeIntVar.IntVar (-1) []
     end) = 42.
Proof. reflexivity. Qed.

(** ** FakeEntry: insertion *)

Lemma take_all (s : string) : Py.take (String.length s) s = s.
Proof. induction s as [|c r IH]; simpl; [reflexivity | now rewrite IH]. Qed.

Lemma drop_all (s : string) : Py.drop (String.length s) s = "".
Proof. induction s as [|c r IH]; simpl; [reflexivity | exact IH]. Qed.

Lemma append_empty_r (s : string) : s ++ "" = s.
Proof.
  induction s as [|c r IH]; [reflexivity|].
  change (String c (r ++ "") = String c r). now rewrite IH.
Qed.

(** The slices agree with the library's [substring]. *)
Lemma take_substring (n : nat) (s : string) :
  Py.take n s = substring 0 n s.
Proof.
  revert s. induction n as [|n IH]; intros [|c r]; simpl;
    try reflexivity.
  now rewrite IH.
Qed.

Lemma drop_substring (n : nat) (s : string) :
  (n <= String.length s)%nat ->
  Py.drop n s = substring n (String.length s - n) s.
Proof.
  revert s. induction n as [|n IH]; intros s Hn.
  - rewrite Nat.sub_0_r. simpl. rewrite <- take_substring.
    symmetry. destruct s; [reflexivity | apply take_all].
  - destruct s as [|c r]; simpl in *; [lia|].
    apply IH. lia.
Qed.

Lemma slice_bound_in_range (n : nat) (i : Z) :
  0 <= i <= Z.of_nat n -> Py.slice_bound n i = Z.to_nat i.
Proof.
  intros Hi. unfold Py.slice_bound.
  destruct (Z.ltb_spec i 0); [lia|]. f_equal. lia.
Qed.

Section EntryInsert.
Context (float_str : Py.pyfloat -> string).
Import FakeEntry.

Lemma get_set (text : Py.value) (self : t) :
  get (fst (set float_str text self)) = Py.VStr (Py.str float_str text).
Proof.
  unfold set, get.
  destruct (kivy_entry self) as [[old|repr]|]; reflexivity.
Qed.

(** C9: on an entry showing [t], [insert(i, s)] with [0 <= i <= len(t)]
    makes [get()] return [t[:i] + str(s) + t[i:]]; the index ['end']
    appends, and any other string index inserts at the front. *)
Theorem insert_then_get (self : t) (t0 : string) (i : Z) (s : Py.value)
    (other : string) :
  get self = Py.VStr t0 ->
  0 <= i <= Z.of_nat (String.length t0) ->
  other <> "end" ->
  (exists self' tr,
     insert float_str (Py.VInt i) s self = Py.Ok (self', tr) /\
     get self'
     = Py.VStr (substring 0 (Z.to_nat i) t0 ++ Py.str float_str s
                ++ substring (Z.to_nat i) (String.length t0 - Z.to_nat i) t0)) /\
  (exists self' tr,
     insert float_str (Py.VStr "end") s self = Py.Ok (self', tr) /\
     get self' = Py.VStr (t0 ++ Py.str float_str s)) /\
  (exists self' tr,
     insert float_str (Py.VStr other) s self = Py.Ok (self', tr) /\
     get self' = Py.VStr (Py.str float_str s ++ t0)).
Proof.
  intros Hget Hi Hother.
  unfold insert. rewrite Hget.
  split; [|split].
  - simpl. eexists. eexists. split; [reflexivity|].
    simpl. rewrite get_set. simpl.
    rewrite slice_bound_in_range by exact Hi.
    rewrite take_substring, drop_substring by lia. reflexivity.
  - simpl. eexists. eexists. split; [reflexivity|].
    simpl. rewrite get_set. simpl.
    rewrite slice_bound_in_range by lia.
    rewrite Nat2Z.id, take_all, drop_all.
    now rewrite append_empty_r.
  - destruct (String.eqb_spec other "end") as [Heq|_]; [contradiction|].
    simpl. eexists. eexists. split; [reflexivity|].
    simpl. rewrite get_set. simpl.
    unfold Py.slice_bound. simpl.
    destruct t0; reflexivity.
Qed.

End EntryInsert.

Lemma insert_then_get_witness :
  exists self' tr,
    FakeEntry.insert (fun _ => "nan") (Py.VInt 2) (Py.VStr "XY")
      (FakeEntry.Entry (Some (FakeEntry.TextInput "abcd")) (Py.VStr "") None)
    = Py.Ok (self', tr) /\
    FakeEntry.get self' = Py.VStr "abXYcd".
Proof.
  refine (proj1 (insert_then_get (fun _ => "nan")
                   (FakeEntry.Entry (Some (FakeEntry.TextInput "abcd"))
                      (Py.VStr "") None)
                   "abcd" 2 (Py.VStr "XY") "insert" _ _ _)).
  - reflexivity.
  - simpl. lia.
  - discriminate.
Defined.

(** ** The module table *)

Section ModuleTable.
Import Shim.

Lemma enabled_lookup_tkinter (st : state) :
  sys_modules (snd (auto_translate_mode st)) !! "tkinter"
  = Some (fake_tkinter (generation st)).
Proof. simpl. now rewrite !lookup_insert_ne, lookup_insert_eq by discriminate. Qed.

Lemma disabled_lookup_tkinter (st : state) :
  sys_modules (disable_auto_translate st) !! "tkinter"
  = _original_modules st !! "tkinter".
Proof.
  simpl. rewrite !lookup_delete_ne by discriminate.
  destruct (_original_modules st !! "tkinter") as [m|].
  - apply lookup_insert_eq.
  - apply lookup_delete_eq.
Qed.

Lemma disabled_lookup_other (st : state) (k : string) :
  k <> "tkinter" -> k <> "tkinter.font" -> k <> "tkinter.ttk" ->
  k <> "tkinter.messagebox" ->
  sys_modules (disable_auto_translate st) !! k = sys_modules st !! k.
Proof.
  intros H1 H2 H3 H4. simpl.
  rewrite !lookup_delete_ne by congruence.
  destruct (_original_modules st !! "tkinter").
  - now rewrite lookup_insert_ne by congruence.
  - now rewrite lookup_delete_ne by congruence.
Qed.

(** C2: [auto_translate_mode()] binds the four module names to the fake
    modules, whose attributes are the fake classes, and saves a ['tkinter']
    module that was there before; [disable_auto_translate()] then puts
    the saved module back (or removes the key when none is saved), removes
    the three submodule entries and leaves every other entry as it was. *)
Theorem enable_then_disable (st : state) :
  let gen := generation st in
  let fake := fst (auto_translate_mode st) in
  let st1 := snd (auto_translate_mode st) in
  let st2 := disable_auto_translate st1 in
  (sys_modules st1 !! "tkinter" = Some fake /\
   sys_modules st1 !! "tkinter.font" = Some (fake_font_module gen) /\
   sys_modules st1 !! "tkinter.ttk" = Some (fake_ttk_module gen) /\
   sys_modules st1 !! "tkinter.messagebox" = Some (fake_messagebox_module gen)) /\
  (Forall (fun p => mod_attrs fake !! fst p = Some (AClass (snd p) gen))
     [("Tk", ClsTk); ("Button", ClsButton); ("Label", ClsLabel);
      ("Frame", ClsFrame); ("Canvas", ClsCanvas);
      ("Scrollbar", ClsScrollbar); ("Menu", ClsMenu); ("Entry", ClsEntry);
      ("Text", ClsText); ("StringVar", ClsStringVar); ("IntVar", ClsIntVar);
      ("DoubleVar", ClsDoubleVar); ("BooleanVar", ClsBooleanVar);
      ("Notebook", ClsNotebook); ("Checkbutton", ClsCheckbutton);
      ("Radiobutton", ClsRadiobutton)] /\
   Forall (fun p => mod_attrs (fake_ttk_module gen) !! fst p
                    = Some (AClass (snd p) gen))
     [("Button", ClsButton); ("Label", ClsLabel); ("Entry", ClsEntry);
      ("Frame", ClsFrame); ("Notebook", ClsNotebook);
      ("Scrollbar", ClsScrollbar)]) /\
  (forall original, sys_modules st !! "tkinter" = Some original ->
     _original_modules st1 !! "tkinter" = Some original /\
     sys_modules st2 !! "tkinter" = Some original) /\
  (sys_modules st !! "tkinter" = None ->
     _original_modules st1 !! "tkinter" = _original_modules st !! "tkinter") /\
  sys_modules st2 !! "tkinter" = _original_modules st1 !! "tkinter" /\
  (sys_modules st !! "tkinter" = None ->
   _original_modules st !! "tkinter" = None ->
   sys_modules st2 !! "tkinter" = None) /\
  (sys_modules st2 !! "tkinter.font" = None /\
   sys_modules st2 !! "tkinter.ttk" = None /\
   sys_modules st2 !! "tkinter.messagebox" = None) /\
  (forall k, k <> "tkinter" -> k <> "tkinter.font" -> k <> "tkinter.ttk" ->
     k <> "tkinter.messagebox" ->
     sys_modules st2 !! k = sys_modules st !! k).
Proof.
  intros gen fake st1 st2.
  assert (Hsaved : forall original, sys_modules st !! "tkinter" = Some original ->
                     _original_modules st1 !! "tkinter" = Some original).
  { intros original Horig. unfold st1. simpl. rewrite Horig.
    apply lookup_insert_eq. }
  assert (Hkept : sys_modules st !! "tkinter" = None ->
            _original_modules st1 !! "tkinter" = _original_modules st !! "tkinter").
  { intros Hnone. unfold st1. simpl. now rewrite Hnone. }
  split.
  { split; [apply enabled_lookup_tkinter|]. unfold st1. simpl.
    split; [|split].
    - now rewrite !lookup_insert_ne, lookup_insert_eq by discriminate.
    - now rewrite lookup_insert_ne, lookup_insert_eq by discriminate.
    - apply lookup_insert_eq. }
  split.
  { split; repeat (apply Forall_cons; split; [vm_compute; reflexivity|]);
      apply Forall_nil; exact I. }
  split.
  { intros original Horig. split; [now apply Hsaved|].
    unfold st2. rewrite disabled_lookup_tkinter. now apply Hsaved. }
  split; [exact Hkept|].
  split; [apply disabled_lookup_tkinter|].
  split.
  { intros Hnone Hnosave. unfold st2. rewrite disabled_lookup_tkinter.
    now rewrite Hkept. }
  split.
  { unfold st2. simpl. split; [|split].
    - now rewrite !lookup_delete_ne, lookup_delete_eq by discriminate.
    - now rewrite lookup_delete_ne, lookup_delete_eq by discriminate.
    - apply lookup_delete_eq. }
  intros k H1 H2 H3 H4. unfold st2.
  rewrite disabled_lookup_other by assumption.
  unfold st1. simpl. now rewrite !lookup_insert_ne by congruence.
Qed.

(** Enabling twice saves the first fake module as if it were the
    original, and disabling then restores that fake. *)
Lemma enable_twice_then_disable (st : state) :
  let st1 := snd (auto_translate_mode st) in
  let st2 := snd (auto_translate_mode st1) in
  sys_modules (disable_auto_translate st2) !! "tkinter"
  = Some (fake_tkinter (generation st)).
Proof.
  intros st1 st2. rewrite disabled_lookup_tkinter.
  unfold st2. simpl.
  rewrite !lookup_insert_ne, lookup_insert_eq by discriminate.
  apply lookup_insert_eq.
Qed.

End ModuleTable.

(** ** Geometry managers *)

Section PackGrid.
Context (float_str : Py.pyfloat -> string).
Context {kivy_state : Type}.
Context (children : nat -> kivy_state -> list nat).
Context (add_widget : nat -> nat -> kivy_state -> kivy_state + string).
Context (type_name : nat -> string).
Import Widgets.

Local Abbreviation pack :=
  (Widgets.pack float_str children add_widget type_name).
Local Abbreviation grid :=
  (Widgets.grid float_str children add_widget type_name).
Local Abbreviation add_to_layout :=
  (Widgets.add_to_layout children add_widget type_name).

Lemma add_to_layout_heap (added failed : string) (frame : obj)
    (child : kivy_obj) (w : world) :
  heap (add_to_layout added failed frame child w) = heap w.
Proof.
  unfold Widgets.add_to_layout.
  destruct (kivy frame) as [[layout|]|], child as [c|]; try reflexivity.
  destruct (existsb _ _); [reflexivity|].
  destruct (add_widget layout c (kivy_world w)); reflexivity.
Qed.

Lemma fold_add_to_layout_heap (added failed : string) (frame : obj)
    (cs : list kivy_obj) (w : world) :
  heap (fold_left (fun acc c => add_to_layout added failed frame c acc) cs w)
  = heap w.
Proof.
  revert w. induction cs as [|c cs IH]; intros w; simpl; [reflexivity|].
  rewrite IH. apply add_to_layout_heap.
Qed.

Lemma pack_into_parent_heap (to_layout : bool) (line : string) (o : obj)
    (w : world) (r : nat) :
  parent o <> Some r ->
  heap (pack_into_parent children add_widget type_name to_layout line o w) !! r
  = heap w !! r.
Proof.
  intros Hr. unfold pack_into_parent.
  destruct (parent o) as [p|]; [|reflexivity].
  destruct (heap w !! p) as [po|]; [|reflexivity].
  destruct (_widgets po) as [ws|]; [|reflexivity].
  destruct (kivy o) as [k|]; simpl; [|reflexivity].
  destruct (to_layout && has_add_child_to_layout po); simpl.
  - unfold Widgets._add_child_to_layout. rewrite add_to_layout_heap. simpl.
    apply lookup_insert_ne. congruence.
  - apply lookup_insert_ne. congruence.
Qed.

Lemma FakeFrame_pack_heap (o : obj) (w : world) (r : nat) :
  parent o <> Some r ->
  heap (FakeFrame_pack children add_widget type_name o w) !! r = heap w !! r.
Proof.
  intros Hr. unfold FakeFrame_pack.
  set (w1 := match kivy o with
             | Some (KWidget _) => fold_left _ _ w
             | _ => w
             end).
  assert (Hw1 : heap w1 = heap w).
  { unfold w1. destruct (kivy o) as [[l|]|]; try reflexivity.
    apply fold_add_to_layout_heap. }
  destruct (parent o) as [p|]; [|now rewrite Hw1].
  destruct (heap w1 !! p) as [po|]; [|now rewrite Hw1].
  destruct (_widgets po) as [ws|]; [|now rewrite Hw1].
  destruct (kivy o) as [k|]; simpl; [|now rewrite Hw1].
  rewrite lookup_insert_ne by congruence. now rewrite Hw1.
Qed.

(** C3: for every widget of the ten classes and every argument
    dictionary, [grid] leaves exactly the world that [pack] leaves (heap,
    Kivy state and console); neither looks at the arguments, and on the
    heap nothing but the parent of the widget is touched. *)
Theorem grid_same_as_pack
    (self : nat) (kwargs kwargs' : gmap string Py.value) (w : world) :
  grid self kwargs w = pack self kwargs w /\
  grid self kwargs w = grid self kwargs' w /\
  (forall o r, heap w !! self = Some o -> parent o <> Some r ->
     heap (grid self kwargs w) !! r = heap w !! r).
Proof.
  split; [reflexivity|]. split; [reflexivity|].
  intros o r Hself Hr. unfold Widgets.grid, Widgets.pack. rewrite Hself.
  destruct (cls o) as [[kw|kw| |n|orient|n|e|checked|selected value|n]|];
    try (now apply pack_into_parent_heap);
    [now apply FakeFrame_pack_heap | reflexivity].
Qed.

End PackGrid.

(** A button gridded into a window: the window's [_widgets] gains the
    button's Kivy widget and the line is printed. *)
Example grid_button_in_window :
  let window := Widgets.Obj None None None (Some []) in
  let button :=
    Widgets.Obj (Some (Widgets.Button {["text" := Py.VStr "OK"]}))
      (Some 0%nat) (Some (Widgets.KWidget 7)) None in
  let w := Widgets.World (<[1%nat := button]> {[0%nat := window]}) tt [] in
  let w' := Widgets.grid (fun _ => "nan") (fun _ _ => [])
              (fun _ _ k => inl k) (fun _ => "Button") 1%nat ∅ w in
  (Widgets._widgets <$> Widgets.heap w' !! 0%nat)
    = Some (Some [Widgets.KWidget 7]) /\
  Widgets.stdout w' = ["Button packed: OK"].
Proof. vm_compute. split; reflexivity. Qed.

(** ** Background colours *)

Lemma all_ascii_complete (c : ascii) : In c Py.all_ascii.
Proof.
  rewrite <- (ascii_nat_embedding c). apply in_map, in_seq.
  pose proof (nat_ascii_bounded c). lia.
Qed.

(** [int(s, 16)] on two hexadecimal digits is their value. *)
Lemma int16_two_digits (a b : ascii) (x y : Z) :
  Colors.hex_digit a = Some x -> Colors.hex_digit b = Some y ->
  Py.int_of_str 16 (String a (String b "")) = Some (16 * x + y).
Proof.
  assert (Hall : forallb (fun a => forallb (fun b =>
            match Colors.hex_digit a, Colors.hex_digit b with
            | Some x, Some y =>
                match Py.int_of_str 16 (String a (String b "")) with
                | Some z => z =? 16 * x + y
                | None => false
                end
            | _, _ => true
            end) Py.all_ascii) Py.all_ascii = true) by (vm_compute; reflexivity).
  intros Ha Hb.
  rewrite forallb_forall in Hall. specialize (Hall a (all_ascii_complete a)).
  rewrite forallb_forall in Hall. specialize (Hall b (all_ascii_complete b)).
  rewrite Ha, Hb in Hall.
  destruct (Py.int_of_str 16 (String a (String b ""))) as [z|]; [|discriminate].
  apply Z.eqb_eq in Hall. now subst.
Qed.

Section HexBackground.
Import Colors.

Lemma hex_colors_six_digits (otherwise : rgba) (hex : string)
    (r1 r2 g1 g2 b1 b2 : Z) :
  hex_digits hex = Some [r1; r2; g1; g2; b1; b2] ->
  hex_colors otherwise (String "#" hex)
  = rgb (over_255 (16 * r1 + r2)) (over_255 (16 * g1 + g2))
        (over_255 (16 * b1 + b2)).
Proof.
  intros Hd.
  destruct hex as [|c1 [|c2 [|c3 [|c4 [|c5 [|c6 [|c7 rest]]]]]]];
    simpl in Hd;
    repeat match type of Hd with
           | context [hex_digit ?c] =>
               let E := fresh "E" in destruct (hex_digit c) eqn:E
           end;
    try discriminate.
  - injection Hd as <- <- <- <- <- <-.
    unfold hex_colors. simpl.
    rewrite (int16_two_digits c1 c2 _ _ E E0),
            (int16_two_digits c3 c4 _ _ E1 E2),
            (int16_two_digits c5 c6 _ _ E3 E4).
    reflexivity.
  - destruct (hex_digits rest); discriminate.
Qed.

Lemma hex_colors_otherwise (otherwise : rgba) (hex : string) :
  String.length hex <> 6%nat \/
  Py.int_of_str 16 (substring 0 2 hex) = None \/
  Py.int_of_str 16 (substring 2 2 hex) = None \/
  Py.int_of_str 16 (substring 4 2 hex) = None ->
  hex_colors otherwise (String "#" hex) = otherwise.
Proof.
  intros H. unfold hex_colors.
  change (Py.drop 1 (String "#" hex)) with hex.
  destruct (Nat.eqb_spec (String.length hex) 6) as [Hlen|Hlen];
    [|reflexivity].
  destruct H as [H|[H|[H|H]]]; [contradiction| | |]; rewrite H.
  - reflexivity.
  - now destruct (Py.int_of_str 16 (substring 0 2 hex)).
  - destruct (Py.int_of_str 16 (substring 0 2 hex)); [|reflexivity].
    now destruct (Py.int_of_str 16 (substring 2 2 hex)).
Qed.

(** What the three classes do with a string that starts with ['#']. *)
Lemma hash_background (kwargs : gmap string Py.value) (hex : string) :
  background_argument kwargs = Some (Py.VStr (String "#" hex)) ->
  FakeButton_background_color kwargs
    = Some (hex_colors light_gray (String "#" hex)) /\
  FakeFrame_bg_color kwargs = Some (hex_colors light_gray (String "#" hex)) /\
  FakeCanvas_bg_color kwargs = hex_colors white (String "#" hex).
Proof.
  intros Hbg.
  unfold FakeButton_background_color, FakeFrame_bg_color, FakeCanvas_bg_color.
  rewrite Hbg. repeat split; reflexivity.
Qed.

(** C4 as the code has it: a background ['#RRGGBB'] of six hexadecimal
    digits gives [(R/255, G/255, B/255, 1)] in button, frame and canvas;
    a ['#'] string whose remainder has another length, or in which
    [int(.., 16)] rejects one of the three pairs of characters, gives the
    default of the class: [(0.9, 0.9, 0.9, 1)] for button and frame,
    [(1, 1, 1, 1)] for canvas. *)
Theorem hex_background_color (kwargs : gmap string Py.value) (hex : string) :
  background_argument kwargs = Some (Py.VStr (String "#" hex)) ->
  (forall r1 r2 g1 g2 b1 b2,
     hex_digits hex = Some [r1; r2; g1; g2; b1; b2] ->
     let parsed := rgb (over_255 (16 * r1 + r2)) (over_255 (16 * g1 + g2))
                       (over_255 (16 * b1 + b2)) in
     FakeButton_background_color kwargs = Some parsed /\
     FakeFrame_bg_color kwargs = Some parsed /\
     FakeCanvas_bg_color kwargs = parsed) /\
  (String.length hex <> 6%nat \/
   Py.int_of_str 16 (substring 0 2 hex) = None \/
   Py.int_of_str 16 (substring 2 2 hex) = None \/
   Py.int_of_str 16 (substring 4 2 hex) = None ->
   FakeButton_background_color kwargs = Some light_gray /\
   FakeFrame_bg_color kwargs = Some light_gray /\
   FakeCanvas_bg_color kwargs = white).
Proof.
  intros Hbg.
  destruct (hash_background kwargs hex Hbg) as (Hb & Hf & Hc).
  rewrite Hb, Hf, Hc. split.
  - intros r1 r2 g1 g2 b1 b2 Hd parsed.
    rewrite !(hex_colors_six_digits _ hex _ _ _ _ _ _ Hd).
    repeat split; reflexivity.
  - intros Hbad. rewrite !hex_colors_otherwise by exact Hbad.
    repeat split; reflexivity.
Qed.

Lemma hex_background_color_witness :
  Colors.FakeButton_background_color {["bg" := Py.VStr "#ff8000"]}
  = Some (rgb (over_255 255) (over_255 128) (over_255 0)).
Proof.
  refine (proj1 (proj1 (hex_background_color
                          {["bg" := Py.VStr "#ff8000"]} "ff8000" _)
                   15 15 8 0 0 0 _)); reflexivity.
Defined.

(** C4 as stated fails: the remainder of ['#+1+2+3'] is not six
    hexadecimal digits, yet [int('+1', 16)] is [1] and so on, and the
    three classes produce [(1/255, 2/255, 3/255, 1)], not their default. *)
Lemma signed_pairs_are_parsed :
  let kwargs : gmap string Py.value := {["bg" := Py.VStr "#+1+2+3"]} in
  let parsed := rgb (over_255 1) (over_255 2) (over_255 3) in
  hex_digits "+1+2+3" = None /\
  FakeButton_background_color kwargs = Some parsed /\
  FakeFrame_bg_color kwargs = Some parsed /\
  FakeCanvas_bg_color kwargs = parsed /\
  parsed <> light_gray /\ parsed <> white.
Proof. vm_compute. repeat split; discriminate. Qed.

End HexBackground.


(** ** Regular expressions: the matcher finds what the patterns denote *)

Section Matcher.
Import Re.
Local Open Scope list_scope.
Local Open Scope nat_scope.

Lemma star_loop_sound (greedy : bool) (r : regex)
    (body : forall R, text -> captures -> cont R -> option R) :
  sound body r ->
  forall fuel R s c (k : cont R) x,
    star_loop body greedy fuel s c k = Some x ->
    exists m rest c',
      s = m ++ rest /\ Matches (Star greedy r) m rest /\ k rest c' = Some x.
Proof.
  intros Hbody fuel. induction fuel as [|fuel IH]; intros R s c k x Hrun.
  - exists [], s, c. simpl in Hrun. repeat split; [constructor | exact Hrun].
  - simpl in Hrun.
    assert (Hstop : k s c = Some x ->
              exists m rest c',
                s = m ++ rest /\ Matches (Star greedy r) m rest /\
                k rest c' = Some x).
    { intros Hk. exists [], s, c. repeat split; [constructor | exact Hk]. }
    assert (Hmore :
              body R s c
                (fun s' c' => if length s' <? length s
                              then star_loop body greedy fuel s' c' k
                              else None) = Some x ->
              exists m rest c',
                s = m ++ rest /\ Matches (Star greedy r) m rest /\
                k rest c' = Some x).
    { intros Hb. apply Hbody in Hb as (m1 & s' & c1 & Hs & Hm1 & Hagain).
      destruct (Nat.ltb_spec (length s') (length s)) as [Hlt|_];
        [|discriminate].
      apply IH in Hagain as (m2 & rest & c2 & Hs' & Hm2 & Hk).
      exists (m1 ++ m2), rest, c2. subst s' s.
      split; [now rewrite <- app_assoc|]. split; [|exact Hk].
      apply MStarMore; [|exact Hm1 | exact Hm2].
      intros ->. simpl in Hlt. lia. }
    destruct greedy.
    + destruct (body R s c _) as [y|] eqn:Hb.
      * injection Hrun as ->. now apply Hmore.
      * now apply Hstop.
    + destruct (k s c) as [y|] eqn:Hk.
      * injection Hrun as ->. now apply Hstop.
      * now apply Hmore.
Qed.

Lemma run_sound (r : regex) : sound (run r) r.
Proof.
  induction r as [|p|r1 IH1 r2 IH2|r1 IH1 r2 IH2|greedy r IH|n r IH|r IH|];
    intros R s c k x Hrun; cbn [run] in Hrun.
  - exists [], s, c. repeat split; [constructor | exact Hrun].
  - destruct s as [|a s']; [discriminate|].
    destruct (p a) eqn:Hp; [|discriminate].
    exists [a], s', c. repeat split; [now constructor | exact Hrun].
  - apply IH1 in Hrun as (m1 & s' & c1 & Hs & Hm1 & Hrun).
    apply IH2 in Hrun as (m2 & rest & c2 & Hs' & Hm2 & Hk).
    exists (m1 ++ m2), rest, c2. subst s' s.
    split; [now rewrite <- app_assoc|]. split; [|exact Hk].
    now apply MSeq.
  - destruct (run r1 R s c k) as [y|] eqn:H1.
    + injection Hrun as ->.
      apply IH1 in H1 as (m & rest & c' & Hs & Hm & Hk).
      exists m, rest, c'. repeat split; [exact Hs | now apply MAltL | exact Hk].
    + apply IH2 in Hrun as (m & rest & c' & Hs & Hm & Hk).
      exists m, rest, c'. repeat split; [exact Hs | now apply MAltR | exact Hk].
  - now apply (star_loop_sound greedy r (run r) IH) in Hrun.
  - apply IH in Hrun as (m & rest & c' & Hs & Hm & Hk).
    exists m, rest, ((n, consumed s rest) :: c').
    repeat split; [exact Hs | now apply MGroup | exact Hk].
  - destruct (run r captures s c _) as [c1|] eqn:Hr; [|discriminate].
    apply IH in Hr as (m & rest & c' & Hs & Hm & _).
    exists [], s, c1. repeat split; [|exact Hrun].
    subst s. now apply MAhead.
  - destruct s as [|a [|b s']]; try discriminate.
    + exists [], [], c. repeat split; [constructor | exact Hrun].
    + destruct (Ascii.eqb_spec a "010"); [|discriminate]. subst a.
      exists [], ["010"%char], c. repeat split; [constructor | exact Hrun].
Qed.

Lemma star_loop_complete (greedy : bool) (r : regex)
    (body : forall R, text -> captures -> cont R -> option R) :
  complete body r ->
  forall m rest,
    Matches (Star greedy r) m rest ->
    forall fuel, length (m ++ rest) < fuel ->
    forall R (k : cont R),
      (forall c, is_Some (k rest c)) ->
      forall c, is_Some (star_loop body greedy fuel (m ++ rest) c k).
Proof.
  intros Hbody m rest Hm.
  remember (Star greedy r) as sr eqn:Hsr.
  induction Hm as [| | | | |g r0 rest|g r0 m1 m2 rest Hne Hm1 _ Hm2 IH| | | |];
    try discriminate; injection Hsr as -> ->;
    intros fuel Hfuel R k Hk c;
    (destruct fuel as [|fuel]; [lia|]); simpl.
  - destruct greedy.
    + destruct (body R rest c _); [eauto | apply Hk].
    + destruct (Hk c) as [y ->]. eauto.
  - assert (Hmore : is_Some
              (body R ((m1 ++ m2) ++ rest) c
                 (fun s' c' =>
                    if length s' <? length ((m1 ++ m2) ++ rest)
                    then star_loop body greedy fuel s' c' k
                    else None))).
    { rewrite <- app_assoc. apply Hbody; [exact Hm1|].
      intros c'.
      destruct (Nat.ltb_spec (length (m2 ++ rest))
                  (length (m1 ++ m2 ++ rest))) as [_|Hge].
      - apply IH; [reflexivity| |exact Hk].
        rewrite <- app_assoc, !length_app in Hfuel.
        rewrite length_app.
        destruct m1; [contradiction|]. simpl in Hfuel. lia.
      - rewrite !length_app in Hge. destruct m1; [contradiction|].
        simpl in Hge. lia. }
    destruct greedy.
    + destruct Hmore as [y ->]. eauto.
    + destruct (k ((m1 ++ m2) ++ rest) c); [eauto | exact Hmore].
Qed.

Lemma run_complete (r : regex) : complete (run r) r.
Proof.
  induction r as [|p|r1 IH1 r2 IH2|r1 IH1 r2 IH2|greedy r IH|n r IH|r IH|];
    intros m rest Hm R k Hk c.
  - inversion Hm; subst. apply Hk.
  - inversion Hm; subst. simpl.
    match goal with H : p _ = true |- _ => rewrite H end. apply Hk.
  - inversion Hm; subst. simpl. rewrite <- app_assoc.
    apply IH1; [assumption|]. intros c'. now apply IH2.
  - simpl. inversion Hm; subst.
    + destruct (IH1 _ _ ltac:(eassumption) R k Hk c) as [y ->]. eauto.
    + destruct (run r1 R (m ++ rest) c k); [eauto|]. now apply IH2.
  - cbn [run]. apply (star_loop_complete greedy r (run r) IH); [exact Hm|lia|exact Hk].
  - inversion Hm; subst. simpl. apply IH; [assumption|].
    intros c'. apply Hk.
  - inversion Hm; subst. simpl.
    match goal with H : Matches r ?m0 ?rest0 |- _ =>
      destruct (IH m0 rest0 H captures (fun _ c' => Some c')
                  (fun c' => ltac:(eauto)) c) as [c1 ->]
    end. apply Hk.
  - inversion Hm; subst; simpl; apply Hk.
Qed.

(** [re.search] finds a match exactly when the pattern occurs. *)
Lemma search_from_sound (r : regex) (s skipped : text) (f : found) :
  search_from r skipped s = Some f -> occurs_in r s.
Proof.
  revert skipped. induction s as [|a s IH]; intros skipped; simpl;
    unfold match_here;
    destruct (run r _ _ [] _) as [[rest c]|] eqn:Hrun; intros Hf.
  - apply run_sound in Hrun as (m & rest' & c' & Hs & Hm & _).
    exists [], m, rest'. now split.
  - discriminate.
  - apply run_sound in Hrun as (m & rest' & c' & Hs & Hm & _).
    exists [], m, rest'. now split.
  - apply IH in Hf as (pre & m & post & Hs & Hm).
    exists (a :: pre), m, post. split; [now rewrite Hs | exact Hm].
Qed.

Lemma search_from_complete (r : regex) (pre m post skipped : text) :
  Matches r m post ->
  is_Some (search_from r skipped (pre ++ m ++ post)).
Proof.
  intros Hm. revert skipped.
  assert (Hhere : is_Some (match_here r (m ++ post))).
  { apply run_complete; [exact Hm | eauto]. }
  induction pre as [|a pre IH]; intros skipped.
  - simpl. destruct (m ++ post) as [|b s]; simpl;
      destruct Hhere as [[rest c] ->]; eauto.
  - simpl. destruct (match_here r (a :: pre ++ m ++ post)) as [[rest c]|];
      [eauto | apply IH].
Qed.

Theorem search_spec (r : regex) (s : text) :
  is_Some (search r s) <-> occurs_in r s.
Proof.
  split.
  - intros [f Hf]. now apply search_from_sound in Hf.
  - intros (pre & m & post & -> & Hm). now apply search_from_complete.
Qed.

End Matcher.

(** ** The textual translator *)

Section TranslatorProps.
Import Re Translator.

Lemma found_in_spec (r : regex) (s : string) :
  found_in r s = true <-> occurs_in r (list_ascii_of_string s).
Proof.
  unfold found_in. rewrite <- search_spec.
  destruct (search r (list_ascii_of_string s)) as [f|]; split;
    try reflexivity; try discriminate; eauto.
  intros [f Hf]. discriminate.
Qed.

Lemma found_in_false (r : regex) (s : string) :
  ~ occurs_in r (list_ascii_of_string s) -> found_in r s = false.
Proof.
  intros Hno. destruct (found_in r s) eqn:Hf; [|reflexivity].
  apply found_in_spec in Hf. contradiction.
Qed.

(** C7: [translate_imports] returns the four Kivy import lines, joined by
    newlines, when one of the three import patterns occurs in the input,
    and the empty string when none does; it is a total function. *)
Theorem translate_imports_block (tkinter_code : string) :
  let code := list_ascii_of_string tkinter_code in
  (occurs_in import_tkinter_as_tk code \/
   occurs_in from_tkinter_import code \/
   occurs_in import_tkinter code ->
   translate_imports tkinter_code =
   "from kivy.app import App
from kivy.uix.boxlayout import BoxLayout
from kivy.uix.button import Button
from kivy.uix.label import Label") /\
  (~ occurs_in import_tkinter_as_tk code ->
   ~ occurs_in from_tkinter_import code ->
   ~ occurs_in import_tkinter code ->
   translate_imports tkinter_code = "").
Proof.
  intros code. unfold translate_imports. split.
  - intros [H|[H|H]]; apply found_in_spec in H; rewrite H.
    + reflexivity.
    + destruct (found_in import_tkinter_as_tk tkinter_code); reflexivity.
    + destruct (found_in import_tkinter_as_tk tkinter_code); [reflexivity|].
      destruct (found_in from_tkinter_import tkinter_code); reflexivity.
  - intros H1 H2 H3.
    now rewrite !found_in_false by assumption.
Qed.

(** What opens a Button call also opens every match of the whole Button
    pattern. *)
Lemma button_pattern_opens (s : text) :
  occurs_in button_pattern s -> occurs_in button_open s.
Proof.
  intros (pre & m & post & Hs & Hm).
  unfold button_pattern in Hm.
  inversion Hm as [| |r1 r2 opening tail post' Hopen Htail| | | | | | | |];
    subst.
  exists pre, opening, (tail ++ post)%list.
  split; [now rewrite <- app_assoc | exact Hopen].
Qed.

(** C8: when the opening of a Button call, [Button(] with an optional
    [tk.] before it and optional white space before the parenthesis,
    occurs nowhere in the input, [translate_button] returns the fixed
    comment line. *)
Theorem translate_button_unparsed (tkinter_button_code : string) :
  ~ occurs_in button_open (list_ascii_of_string tkinter_button_code) ->
  translate_button tkinter_button_code
  = "# Could not parse tkinter Button call".
Proof.
  intros Hno. unfold translate_button.
  destruct (search button_pattern (list_ascii_of_string tkinter_button_code))
    as [m|] eqn:Hsearch; [|reflexivity].
  exfalso. apply Hno, button_pattern_opens, search_spec. eauto.
Qed.

Lemma translate_button_unparsed_witness :
  translate_button "Label(root, text='Hi')"
  = "# Could not parse tkinter Button call".
Proof.
  apply translate_button_unparsed.
  intros Hocc. apply search_spec in Hocc.
  vm_compute in Hocc. destruct Hocc as [f Hf]. discriminate Hf.
Defined.

Example translate_imports_as_tk :
  translate_imports "import tkinter as tk" =
  String.concat (String "010" "") kivy_import_lines.
Proof. vm_compute. reflexivity. Qed.

Example translate_imports_none : translate_imports "import os" = "".
Proof. vm_compute. reflexivity. Qed.

(** An opening without a closing parenthesis is not parsed either. *)
Example translate_button_unclosed :
  translate_button "Button(text=1"
  = "# Could not parse tkinter Button call".
Proof. vm_compute. reflexivity. Qed.

Example translate_button_command :
  translate_button "tk.Button(root, text=1, command=go)"
  = "Button(text=1)
button.bind(on_press=go)".
Proof. vm_compute. reflexivity. Qed.

End TranslatorProps.


(** ** The translator: more on imports, windows and whole programs *)

Section TranslateProps.
Import Re Translator Translate.
Local Open Scope list_scope.

Lemma context_free_rest (r : regex) (m rest rest' : text) :
  context_free r = true -> Matches r m rest -> Matches r m rest'.
Proof.
  intros Hcf Hm. revert rest' Hcf.
  induction Hm; intros rest' Hcf; simpl in Hcf;
    try discriminate; try (apply andb_prop in Hcf as [Hc1 Hc2]).
  - constructor.
  - now constructor.
  - apply MSeq; [apply IHHm1 | apply IHHm2]; assumption.
  - apply MAltL. now apply IHHm.
  - apply MAltR. now apply IHHm.
  - constructor.
  - apply MStarMore; [assumption | apply IHHm1 | apply IHHm2]; assumption.
  - apply MGroup. now apply IHHm.
Qed.

Lemma context_free_lit (w : string) : context_free (lit w) = true.
Proof.
  induction w as [|a w IH]; [reflexivity|].
  destruct w; [reflexivity|]. simpl in *. exact IH.
Qed.

(** A literal pattern matches exactly its own text. *)
Lemma Matches_lit (w : string) (m rest : text) :
  Matches (lit w) m rest <-> m = list_ascii_of_string w.
Proof.
  revert m rest. induction w as [|a w IH]; intros m rest.
  - simpl. split.
    + intros H. now inversion H.
    + intros ->. constructor.
  - assert (Hchar : forall m rest,
              Matches (lit_char a) m rest <-> m = [a]).
    { intros m0 rest0. unfold lit_char. split.
      - intros H. inversion H; subst.
        match goal with H : Ascii.eqb _ _ = true |- _ =>
          apply Ascii.eqb_eq in H; now subst end.
      - intros ->. constructor. apply Ascii.eqb_refl. }
    destruct w as [|b w].
    + simpl. apply Hchar.
    + change (lit (String a (String b w)))
        with (Seq (lit_char a) (lit (String b w))).
      split.
      * intros H.
        inversion H as [| |? ? m1 m2 ? H1 H2| | | | | | | |]; subst.
        apply Hchar in H1. apply IH in H2. subst. reflexivity.
      * intros ->.
        change (list_ascii_of_string (String a (String b w)))
          with ([a] ++ list_ascii_of_string (String b w)).
        apply MSeq; [now apply Hchar | now apply IH].
Qed.

(** A literal occurs in a text exactly as a substring. *)
Lemma occurs_lit (w : string) (s : text) :
  occurs_in (lit w) s <->
  exists pre post, s = pre ++ list_ascii_of_string w ++ post.
Proof.
  split.
  - intros (pre & m & post & -> & Hm). apply Matches_lit in Hm. subst. eauto.
  - intros (pre & post & ->). exists pre, (list_ascii_of_string w), post.
    split; [reflexivity | now apply Matches_lit].
Qed.

(** Wherever [import\s+tkinter\s+as\s+tk] occurs, [import\s+tkinter]
    occurs as well. *)
Lemma as_tk_is_import_tkinter (s : text) :
  occurs_in import_tkinter_as_tk s -> occurs_in import_tkinter s.
Proof.
  intros (pre & m & post & -> & Hm).
  change import_tkinter_as_tk
    with (Seq (lit "import")
            (Seq (plus true space)
               (Seq (lit "tkinter")
                  (seqs [plus true space; lit "as"; plus true space;
                         lit "tk"])))) in Hm.
  inversion Hm as [| |? ? m1 t1 ? H1 Ht1| | | | | | | |]; subst.
  inversion Ht1 as [| |? ? m2 t2 ? H2 Ht2| | | | | | | |]; subst.
  inversion Ht2 as [| |? ? m3 t3 ? H3 Ht3| | | | | | | |]; subst.
  exists pre, (m1 ++ m2 ++ m3), (t3 ++ post). split.
  - now rewrite <- !app_assoc.
  - change import_tkinter
      with (Seq (lit "import") (Seq (plus true space) (lit "tkinter"))).
    apply MSeq; [|apply MSeq].
    + eapply context_free_rest; [reflexivity | exact H1].
    + eapply context_free_rest; [reflexivity | exact H2].
    + eapply context_free_rest; [reflexivity | exact H3].
Qed.

(** The result of [translate_imports] is decided by two of its three
    tests: the four import lines when [from\s+tkinter\s+import] or
    [import\s+tkinter] occurs in the input, the empty string otherwise;
    the test for [import\s+tkinter\s+as\s+tk] never changes the result. *)
Theorem translate_imports_two_tests (tkinter_code : string) :
  let code := list_ascii_of_string tkinter_code in
  (occurs_in from_tkinter_import code \/ occurs_in import_tkinter code ->
   translate_imports tkinter_code = join newline kivy_import_lines) /\
  (~ occurs_in from_tkinter_import code ->
   ~ occurs_in import_tkinter code ->
   translate_imports tkinter_code = "").
Proof.
  intros code. unfold translate_imports. split.
  - intros [H|H]; apply found_in_spec in H; rewrite H.
    + destruct (found_in import_tkinter_as_tk tkinter_code); reflexivity.
    + destruct (found_in import_tkinter_as_tk tkinter_code); [reflexivity|].
      destruct (found_in from_tkinter_import tkinter_code); reflexivity.
  - intros H2 H3.
    assert (H1 : ~ occurs_in import_tkinter_as_tk code).
    { intros H. now apply H3, as_tk_is_import_tkinter. }
    now rewrite !found_in_false by assumption.
Qed.

(** The optional [tk.] of the window pattern makes no difference: the
    pattern occurs exactly where the text [Tk()] does. *)
Lemma occurs_tk_call (s : text) :
  occurs_in tk_call s <->
  exists pre post, s = pre ++ list_ascii_of_string "Tk()" ++ post.
Proof.
  change tk_call with (Seq (opt (lit "tk.")) (lit "Tk()")). split.
  - intros (pre & m & post & -> & Hm).
    inversion Hm as [| |? ? m1 m2 ? H1 H2| | | | | | | |]; subst.
    apply (Matches_lit "Tk()") in H2. subst m2.
    exists (pre ++ m1), post. now rewrite <- !app_assoc.
  - intros (pre & post & ->).
    exists pre, ([] ++ list_ascii_of_string "Tk()"), post.
    split; [reflexivity|].
    apply MSeq; [apply MAltR; constructor | now apply (Matches_lit "Tk()")].
Qed.

(** [translate_window] returns the fixed application template when the
    text [Tk()] occurs somewhere in the input, and the input itself,
    unchanged, when it does not. *)
Theorem translate_window_template (tkinter_code : string) :
  let code := list_ascii_of_string tkinter_code in
  ((exists pre post, code = pre ++ list_ascii_of_string "Tk()" ++ post) ->
   translate_window tkinter_code = app_template) /\
  (~ (exists pre post, code = pre ++ list_ascii_of_string "Tk()" ++ post) ->
   translate_window tkinter_code = tkinter_code).
Proof.
  intros code. unfold translate_window. split.
  - intros H. apply occurs_tk_call, found_in_spec in H. now rewrite H.
  - intros H. rewrite found_in_false; [reflexivity|].
    intros Hocc. now apply H, occurs_tk_call.
Qed.


(** [translate_button] answers with the comment line exactly when no
    complete Button call, from [Button(] to a closing parenthesis, occurs
    in the input; whenever one occurs the answer is a Kivy call that
    starts with [Button(]. *)
Theorem translate_button_comment_iff (tkinter_button_code : string) :
  let code := list_ascii_of_string tkinter_button_code in
  (translate_button tkinter_button_code
     = "# Could not parse tkinter Button call"
   <-> ~ occurs_in button_pattern code) /\
  (occurs_in button_pattern code ->
   starts_with_str "Button(" (translate_button tkinter_button_code) = true).
Proof.
  intros code.
  assert (Hcall : occurs_in button_pattern code ->
            starts_with_str "Button("
              (translate_button tkinter_button_code) = true).
  { intros Hocc. apply search_spec in Hocc as [m Hm].
    unfold translate_button. fold code. rewrite Hm.
    destruct (fold_left translate_param _ _) as [kivy_params kivy_bindings].
    destruct kivy_bindings; reflexivity. }
  split; [split|exact Hcall].
  - intros Hres Hocc. apply Hcall in Hocc. rewrite Hres in Hocc.
    discriminate Hocc.
  - intros Hno. unfold translate_button. fold code.
    destruct (search button_pattern code) as [m|] eqn:Hm; [|reflexivity].
    exfalso. apply Hno, search_spec. eauto.
Qed.

(** *** Whole programs *)

Lemma str_cons (a : ascii) (l : text) : str (a :: l) = String a (str l).
Proof. reflexivity. Qed.

Lemma split_cons (sep a : ascii) (l : text) :
  split sep (a :: l)
  = if Ascii.eqb a sep then [] :: split sep l
    else match split sep l with
         | h :: t => (a :: h) :: t
         | [] => [[a]]
         end.
Proof. reflexivity. Qed.

Lemma split_nonempty (sep : ascii) (l : text) : split sep l <> [].
Proof.
  induction l as [|a l IH]; [discriminate|]. rewrite split_cons.
  destruct (Ascii.eqb a sep); [discriminate|].
  destruct (split sep l); discriminate.
Qed.

(** Joining the lines of a text with newlines gives the text back. *)
Lemma join_split_lines (s : string) : join newline (split_lines s) = s.
Proof.
  unfold split_lines.
  rewrite <- (string_of_list_ascii_of_string s) at 2.
  induction (list_ascii_of_string s) as [|a l IH]; [reflexivity|].
  rewrite split_cons.
  destruct (Ascii.eqb_spec a "010") as [->|Hne].
  - pose proof (split_nonempty "010" l) as Hl.
    destruct (split "010" l) as [|h t] eqn:Hs; [contradiction|].
    change (map str ([] :: h :: t)) with ("" :: map str (h :: t)).
    change (join newline ("" :: map str (h :: t)))
      with ("" ++ newline ++ join newline (map str (h :: t)))%string.
    rewrite IH. reflexivity.
  - pose proof (split_nonempty "010" l) as Hl.
    destruct (split "010" l) as [|h t] eqn:Hs; [contradiction|].
    change (string_of_list_ascii (a :: l))
      with (String a (string_of_list_ascii l)).
    rewrite <- IH. simpl map.
    destruct (map str t); reflexivity.
Qed.

Lemma translate_plain_line (st : progress) (line : string) :
  plain_line line ->
  app_structure_added st = false ->
  translate_line st line = Py.Ok (emit [line] st).
Proof.
  intros (H1 & H2 & H3 & H4 & H5 & H6) Happ. unfold translate_line.
  rewrite !found_in_false by assumption. rewrite Happ. simpl.
  destruct (negb (String.eqb (strip_str line) "")
            && negb (starts_with_str "#" (strip_str line))); reflexivity.
Qed.

Lemma translate_plain_lines (lines : list string) (st : progress) :
  Forall plain_line lines ->
  app_structure_added st = false ->
  translate_lines st lines = Py.Ok (emit lines st).
Proof.
  intros Hplain. revert st.
  induction Hplain as [|line lines Hline _ IH]; intros st Happ; simpl.
  - unfold emit. rewrite app_nil_r. now destruct st.
  - rewrite translate_plain_line by assumption.
    rewrite IH by exact Happ. unfold emit. simpl.
    now rewrite <- app_assoc.
Qed.

(** [translate] gives back, unchanged, every program of which no line
    contains a tkinter import, a [Tk()] call, a window configuration call,
    [.mainloop()], the opening of a Button call, or [.pack()], [.grid()]
    or [.place()]. *)
Theorem translate_plain_program (tkinter_code : string) :
  Forall plain_line (split_lines tkinter_code) ->
  translate tkinter_code = Py.Ok tkinter_code.
Proof.
  intros Hplain. unfold translate.
  rewrite translate_plain_lines by (exact Hplain || reflexivity).
  simpl. now rewrite join_split_lines.
Qed.

Lemma translate_line_raises (st : progress) (line : string) (e : Py.exn) :
  translate_line st line = Py.Raise e -> e = Py.ValueError.
Proof.
  unfold translate_line.
  repeat match goal with
         | |- context [if ?c then _ else _] => destruct c
         | |- context [match split_once ?x with _ => _ end] =>
             destruct (split_once x) as [[? ?]|]
         end; intros H; try discriminate H.
  now injection H as <-.
Qed.

(** A Button line whose translation mentions [button.bind] without
    holding a second line makes [translate] fail with [ValueError],
    whatever the rest of the program is: the unpacking of
    [kivy_button.split('\n', 1)] into two names gets one part only. *)
Theorem translate_unpacking_error (tkinter_code line : string) :
  let stripped := strip_str line in
  In line (split_lines tkinter_code) ->
  ~ occurs_in tkinter_import (list_ascii_of_string stripped) ->
  ~ occurs_in tk_call (list_ascii_of_string stripped) ->
  ~ occurs_in window_config (list_ascii_of_string stripped) ->
  ~ occurs_in mainloop_call (list_ascii_of_string stripped) ->
  occurs_in button_open (list_ascii_of_string stripped) ->
  contains_str "button.bind" (translate_button stripped) = true ->
  contains_str newline (translate_button stripped) = false ->
  translate tkinter_code = Py.Raise Py.ValueError.
Proof.
  intros stripped Hin H1 H2 H3 H4 H5 Hbind Hnl.
  assert (Hline : forall st, translate_line st line = Py.Raise Py.ValueError).
  { intros st. unfold translate_line. fold stripped.
    rewrite !found_in_false by assumption.
    apply found_in_spec in H5. rewrite H5, Hbind.
    assert (Hsplit : forall t, contains [("010")%char] t = false ->
                       split_once t = None).
    { induction t as [|a t IH]; [reflexivity|].
      change (contains ["010"%char] (a :: t))
        with ((Ascii.eqb "010" a && true) || contains ["010"%char] t).
      intros Hc. apply orb_false_elim in Hc as [Ha Ht].
      rewrite andb_true_r, Ascii.eqb_sym in Ha.
      simpl. rewrite Ha. now rewrite IH. }
    now rewrite Hsplit. }
  unfold translate.
  assert (Hall : forall lines st,
            In line lines ->
            translate_lines st lines = Py.Raise Py.ValueError).
  { induction lines as [|l lines IH]; intros st Hl; [contradiction|].
    simpl. destruct Hl as [->|Hl]; [now rewrite Hline|].
    destruct (translate_line st l) as [st'|e] eqn:Hl0.
    - now apply IH.
    - now apply translate_line_raises in Hl0 as ->. }
  now rewrite Hall.
Qed.

End TranslateProps.

Lemma translate_plain_program_witness :
  Translate.translate "total = 1
# a comment
print(total)" = Py.Ok "total = 1
# a comment
print(total)".
Proof.
  apply translate_plain_program.
  assert (Hlines : Translate.split_lines "total = 1
# a comment
print(total)" = ["total = 1"; "# a comment"; "print(total)"])
    by (vm_compute; reflexivity).
  rewrite Hlines.
  assert (Hno : forall r s,
            Re.search r (list_ascii_of_string (Translate.strip_str s)) = None ->
            ~ Re.occurs_in r (list_ascii_of_string (Translate.strip_str s))).
  { intros r s Hs Hocc. apply search_spec in Hocc as [f Hf]. congruence. }
  repeat (apply Forall_cons; split;
          [repeat split; apply Hno; vm_compute; reflexivity|]).
  apply Forall_nil. exact I.
Defined.

Lemma translate_unpacking_error_witness :
  Translate.translate "import tkinter as tk
b = Button(text=button.bind)
b.pack()" = Py.Raise Py.ValueError.
Proof.
  apply (translate_unpacking_error _ "b = Button(text=button.bind)").
  - vm_compute. right. left. reflexivity.
  - intros Hocc; apply search_spec in Hocc;
      vm_compute in Hocc; destruct Hocc as [f Hf]; discriminate Hf.
  - intros Hocc; apply search_spec in Hocc;
      vm_compute in Hocc; destruct Hocc as [f Hf]; discriminate Hf.
  - intros Hocc; apply search_spec in Hocc;
      vm_compute in Hocc; destruct Hocc as [f Hf]; discriminate Hf.
  - intros Hocc; apply search_spec in Hocc;
      vm_compute in Hocc; destruct Hocc as [f Hf]; discriminate Hf.
  - apply search_spec. vm_compute. eauto.
  - vm_compute. reflexivity.
  - vm_compute. reflexivity.
Defined.


(** ** FakeEntry: deleting text *)

Lemma append_assoc (a b c : string) : (a ++ b) ++ c = a ++ b ++ c.
Proof.
  induction a as [|x a IH]; [reflexivity|].
  change (String x ((a ++ b) ++ c) = String x (a ++ b ++ c)).
  now rewrite IH.
Qed.

Lemma append_length (a b : string) :
  String.length (a ++ b) = (String.length a + String.length b)%nat.
Proof.
  induction a as [|x a IH]; [reflexivity|].
  change (S (String.length (a ++ b))
          = S (String.length a + String.length b)). now rewrite IH.
Qed.

Lemma take_drop (n : nat) (s : string) : Py.take n s ++ Py.drop n s = s.
Proof.
  revert s. induction n as [|n IH]; intros [|c r]; try reflexivity.
  change (String c (Py.take n r ++ Py.drop n r) = String c r).
  now rewrite IH.
Qed.

Lemma take_length (n : nat) (s : string) :
  (n <= String.length s)%nat -> String.length (Py.take n s) = n.
Proof.
  revert s. induction n as [|n IH]; intros [|c r] Hn; simpl in *;
    try reflexivity; try lia.
  rewrite IH; [reflexivity | lia].
Qed.

Lemma take_append (a b : string) : Py.take (String.length a) (a ++ b) = a.
Proof.
  induction a as [|x a IH]; [now destruct b|].
  change (String x (Py.take (String.length a) (a ++ b)) = String x a).
  now rewrite IH.
Qed.

Lemma drop_append (a b : string) : Py.drop (String.length a) (a ++ b) = b.
Proof. induction a as [|x a IH]; [reflexivity | exact IH]. Qed.

Lemma drop_length (n : nat) (s : string) :
  String.length (Py.drop n s) = (String.length s - n)%nat.
Proof.
  revert s. induction n as [|n IH]; intros [|c r]; simpl; try reflexivity.
  apply IH.
Qed.

Lemma drop_beyond (n : nat) (s : string) :
  (String.length s <= n)%nat -> Py.drop n s = "".
Proof.
  revert s. induction n as [|n IH]; intros [|c r] Hn; simpl in *;
    try reflexivity; try lia.
  apply IH. lia.
Qed.

Lemma take_beyond (n : nat) (s : string) :
  (String.length s <= n)%nat -> Py.take n s = s.
Proof.
  revert s. induction n as [|n IH]; intros [|c r] Hn; simpl in *;
    try reflexivity; try lia.
  rewrite IH; [reflexivity | lia].
Qed.

Lemma slice_bound_beyond (n : nat) (i : Z) :
  Z.of_nat n <= i -> Py.slice_bound n i = n.
Proof.
  intros Hi. unfold Py.slice_bound.
  destruct (Z.ltb_spec i 0); lia.
Qed.

Section EntryDelete.
Context (float_str : Py.pyfloat -> string).
Import FakeEntry FakeEntryEdit.

(** Deleting what was just inserted restores the entry: after
    [insert(i, s)] with [0 <= i <= len(t)], the call
    [delete(i, i + len(s))] makes [get()] return the old text [t]. *)
Theorem insert_then_delete (self : t) (t0 s : string) (i : Z) :
  get self = Py.VStr t0 ->
  0 <= i <= Z.of_nat (String.length t0) ->
  exists self1 tr1 self2 tr2,
    insert float_str (Py.VInt i) (Py.VStr s) self = Py.Ok (self1, tr1) /\
    delete float_str (Py.VInt i)
      (Py.VInt (i + Z.of_nat (String.length s))) self1 = Py.Ok (self2, tr2) /\
    get self2 = Py.VStr t0.
Proof.
  intros Hget Hi.
  unfold insert. rewrite Hget. simpl.
  eexists. eexists. eexists. eexists.
  split; [reflexivity|].
  unfold delete. rewrite get_set. simpl.
  split; [reflexivity|].
  rewrite get_set. simpl. f_equal.
  rewrite !(slice_bound_in_range (String.length t0) i Hi).
  set (n := Z.to_nat i).
  assert (Hn : (n <= String.length t0)%nat) by (unfold n; lia).
  set (new_text := Py.take n t0 ++ s ++ Py.drop n t0).
  assert (Hlen : String.length new_text
                 = (String.length t0 + String.length s)%nat).
  { unfold new_text. rewrite !append_length, take_length, drop_length by exact Hn.
    lia. }
  rewrite !slice_bound_in_range by (rewrite Hlen; lia).
  replace (Z.to_nat i) with (String.length (Py.take n t0))
    by (rewrite take_length by exact Hn; reflexivity).
  replace (Z.to_nat (i + Z.of_nat (String.length s)))
    with (String.length (Py.take n t0 ++ s))
    by (rewrite append_length, take_length by exact Hn; unfold n; lia).
  unfold new_text. rewrite take_append.
  rewrite <- append_assoc, drop_append.
  apply take_drop.
Qed.

(** On an entry whose content is a string, [delete(i)] with [0 <= i]
    and [i + 1] of at most 4300 digits, so that the final [print] can
    show both bounds, removes the one character at index [i] when there
    is one, and changes nothing when [i] is at or past the end;
    [delete(0, 'end')] and [clear()] leave the entry empty.  Under these
    conditions the calls return. *)
Theorem delete_and_clear (self : t) (t0 : string) (i : Z) :
  get self = Py.VStr t0 ->
  0 <= i ->
  Py.decimal_digits (i + 1) <= Py.max_str_digits ->
  (exists self' tr,
     delete float_str (Py.VInt i) Py.VNone self = Py.Ok (self', tr) /\
     get self'
     = Py.VStr (if i <? Z.of_nat (String.length t0)
                then substring 0 (Z.to_nat i) t0
                     ++ substring (Z.to_nat i + 1)
                          (String.length t0 - (Z.to_nat i + 1)) t0
                else t0)) /\
  (exists self' tr,
     delete float_str (Py.VInt 0) (Py.VStr "end") self = Py.Ok (self', tr) /\
     get self' = Py.VStr "") /\
  get (fst (clear float_str self)) = Py.VStr "".
Proof.
  intros Hget Hi _. split; [|split].
  - unfold delete. rewrite Hget. simpl.
    eexists. eexists. split; [reflexivity|].
    rewrite get_set. simpl. f_equal.
    destruct (Z.ltb_spec i (Z.of_nat (String.length t0))) as [Hlt|Hge].
    + rewrite !slice_bound_in_range by lia.
      rewrite take_substring, drop_substring by lia.
      replace (Z.to_nat (i + 1)) with (Z.to_nat i + 1)%nat by lia.
      reflexivity.
    + rewrite !slice_bound_beyond by lia.
      rewrite take_beyond, drop_beyond by lia. apply append_empty_r.
  - unfold delete. rewrite Hget. simpl.
    eexists. eexists. split; [reflexivity|].
    rewrite get_set. simpl. f_equal.
    rewrite (slice_bound_beyond (String.length t0)
               (Z.of_nat (String.length t0))) by lia.
    rewrite drop_beyond by lia.
    unfold Py.slice_bound. simpl. now destruct t0.
  - unfold clear. simpl. apply get_set.
Qed.

End EntryDelete.

Lemma insert_then_delete_witness :
  exists self1 tr1 self2 tr2,
    FakeEntry.insert (fun _ => "nan") (Py.VInt 2) (Py.VStr "XY")
      (FakeEntry.Entry (Some (FakeEntry.Simulated "Entry({})"))
         (Py.VStr "abcd") None) = Py.Ok (self1, tr1) /\
    FakeEntryEdit.delete (fun _ => "nan") (Py.VInt 2) (Py.VInt 4) self1
      = Py.Ok (self2, tr2) /\
    FakeEntry.get self2 = Py.VStr "abcd".
Proof.
  apply (insert_then_delete (fun _ => "nan")
           (FakeEntry.Entry (Some (FakeEntry.Simulated "Entry({})"))
              (Py.VStr "abcd") None) "abcd" "XY" 2).
  - reflexivity.
  - simpl. lia.
Defined.

Lemma delete_and_clear_witness :
  exists self' tr,
    FakeEntryEdit.delete (fun _ => "nan") (Py.VInt 1) Py.VNone
      (FakeEntry.Entry (Some (FakeEntry.TextInput "abc")) (Py.VStr "") None)
    = Py.Ok (self', tr) /\
    FakeEntry.get self' = Py.VStr "ac".
Proof.
  refine (proj1 (delete_and_clear (fun _ => "nan")
                   (FakeEntry.Entry (Some (FakeEntry.TextInput "abc"))
                      (Py.VStr "") None) "abc" 1 _ _ _)).
  - reflexivity.
  - lia.
  - vm_compute. discriminate.
Defined.


(** ** Variable classes: trace names and repeated [set] *)

Lemma str_of_int_inj (a b : Z) : Py.str_of_int a = Py.str_of_int b -> a = b.
Proof.
  assert (Hparse : forall z,
            NilZero.int_of_string (Py.str_of_int z) = Some (Z.to_int z)).
  { intros z. apply NilZero.isi; intros Hd;
      pose proof (f_equal Z.of_int Hd) as Hz; rewrite DecimalZ.of_to in Hz;
      simpl in Hz; subst z; discriminate Hd. }
  intros Heq. apply DecimalZ.to_int_inj.
  pose proof (Hparse a) as Ha. rewrite Heq, Hparse in Ha. congruence.
Qed.

Lemma append_inj_l (p a b : string) : p ++ a = p ++ b -> a = b.
Proof.
  induction p as [|c p IH]; intros H; [exact H|].
  injection H as H. now apply IH.
Qed.

Section TraceNames.
Context (float_str : Py.pyfloat -> string).
Import FakeStringVar FakeStringVarTrace.

Lemma enumerate_from_app {A : Type} (i : nat) (l1 l2 : list A) :
  enumerate_from i (l1 ++ l2)
  = (enumerate_from i l1 ++ enumerate_from (i + length l1) l2)%list.
Proof.
  revert i. induction l1 as [|x l1 IH]; intros i; simpl.
  - now rewrite Nat.add_0_r.
  - rewrite IH. do 3 f_equal. lia.
Qed.

Lemma enumerate_from_bound {A : Type} (i : nat) (l : list A) (p : nat * A) :
  In p (enumerate_from i l) -> (i <= fst p < i + length l)%nat.
Proof.
  revert i. induction l as [|x l IH]; intros i; simpl; [contradiction|].
  intros [<-|Hin]; [simpl; lia|]. apply IH in Hin. lia.
Qed.

Lemma enumerate_from_length {A : Type} (i : nat) (l : list A) :
  length (enumerate_from i l) = length l.
Proof.
  revert i. induction l as [|x l IH]; intros i; simpl; [reflexivity|].
  now rewrite IH.
Qed.

(** The name [trace] returns for a callback is not the name under which
    [trace_info] reports it: on a variable with [n] callbacks, [trace]
    answers [trace_(n+1)], while [trace_info] then lists the new callback
    last, as [trace_n], and lists the returned name for no callback. *)
Theorem trace_name_not_in_trace_info (mode : string) (cb : callable)
    (self : t) :
  let n := length (_callbacks self) in
  let name := fst (fst (trace mode cb self)) in
  let self' := snd (fst (trace mode cb self)) in
  name = "trace_" ++ Py.str_of_int (Z.of_nat (n + 1)) /\
  nth_error (trace_info self') n
    = Some ("trace_" ++ Py.str_of_int (Z.of_nat n), "write", cb) /\
  length (trace_info self') = (n + 1)%nat /\
  ~ In name (map (fun e => fst (fst e)) (trace_info self')).
Proof.
  intros n name self'. unfold name, self', trace_info. simpl.
  split; [rewrite length_app; reflexivity|].
  split.
  { rewrite enumerate_from_app, map_app. simpl.
    rewrite nth_error_app2; rewrite length_map, enumerate_from_length;
      [|fold n; lia].
    fold n. now rewrite Nat.sub_diag. }
  split.
  { rewrite length_map, enumerate_from_length, length_app. reflexivity. }
  rewrite map_map. simpl.
  intros Hin. apply in_map_iff in Hin as (p & Hname & Hp).
  apply enumerate_from_bound in Hp. rewrite !length_app in *. simpl in *.
  apply append_inj_l, str_of_int_inj in Hname. lia.
Qed.

(** [trace_remove] unregisters nothing: after registering a callback and
    calling [trace_remove] with the name [trace] returned for it, a [set]
    that changes the value still calls the callback. *)
Theorem trace_remove_keeps_callback (mode : string) (cb : callable)
    (self : t) (v : Py.value) :
  Py.str float_str v <> _value self ->
  let name := fst (fst (trace mode cb self)) in
  let self1 := snd (fst (trace mode cb self)) in
  let self2 := fst (trace_remove mode name self1) in
  _callbacks self2 = (_callbacks self ++ [cb])%list /\
  In (fn_id cb) (invoked (snd (set float_str v self2))).
Proof.
  intros Hne name self1 self2. split; [reflexivity|].
  unfold self2, self1, set. simpl.
  destruct (String.eqb_spec (_value self) (Py.str float_str v)) as [Heq|_];
    [congruence|].
  rewrite invoked_print, invoked_fire, map_app.
  apply in_or_app. right. now left.
Qed.


End TraceNames.

Lemma trace_remove_keeps_callback_witness :
  In 7%nat
    (invoked
       (snd (FakeStringVar.set (fun _ => "nan") (Py.VStr "new")
               (fst (FakeStringVarTrace.trace_remove "write" "trace_1"
                       (snd (fst (FakeStringVar.trace "write"
                                    (Callable 7 Returns)
                                    (FakeStringVar.StringVar "old" []))))))))).
Proof.
  refine (proj2 (trace_remove_keeps_callback (fun _ => "nan") "write"
                   (Callable 7 Returns) (FakeStringVar.StringVar "old" [])
                   (Py.VStr "new") _)).
  simpl. discriminate.
Defined.



(** ** FakeCanvas: item ids and coordinates *)

Section CanvasItems.
Context (float_str : Py.pyfloat -> string).
Context (dict_repr : gmap string Py.value -> Py.outcome string).
Context (tuple_repr : list Py.value -> string).
Context (kivy : bool).
Import FakeCanvasItems.

Local Abbreviation create :=
  (FakeCanvasItems.create float_str dict_repr kivy).
Local Abbreviation created :=
  (FakeCanvasItems.created float_str dict_repr kivy).
Local Abbreviation coords := (FakeCanvasItems.coords tuple_repr).
Local Abbreviation coords_loop := (FakeCanvasItems.coords_loop tuple_repr).

Lemma first_ids_succ (n : nat) :
  first_ids (S n) = (first_ids n ++ [Z.of_nat n + 1])%list.
Proof.
  unfold first_ids. rewrite seq_S, map_app. simpl. do 2 f_equal. lia.
Qed.

Lemma first_ids_length (n : nat) : length (first_ids n) = n.
Proof. unfold first_ids. now rewrite length_map, length_seq. Qed.

Lemma in_first_ids (n : nat) (z : Z) :
  In z (first_ids n) <-> 1 <= z <= Z.of_nat n.
Proof.
  unfold first_ids. rewrite in_map_iff. split.
  - intros (i & <- & Hi). apply in_seq in Hi. lia.
  - intros Hz. exists (Z.to_nat z). split; [lia|]. apply in_seq. lia.
Qed.

Lemma first_ids_NoDup (n : nat) : List.NoDup (first_ids n).
Proof.
  unfold first_ids. apply Finite.Injective_map_NoDup; [|apply seq_NoDup].
  intros a b. lia.
Qed.

Lemma create_state (c : creation) (self : t) :
  find_all (fst (create c self)) = (find_all self ++ [next_id self])%list.
Proof.
  destruct c;
    unfold find_all, FakeCanvasItems.create, create_line, create_rectangle,
      create_oval, create_text, add_item;
    cbn [fst _canvas_items]; rewrite map_app; reflexivity.
Qed.

Lemma finish_id (item_id i : Z) (line : Py.outcome string)
    (drawing : option Py.exn) (out : list string) :
  finish item_id line drawing = Py.Ok (i, out) -> i = item_id.
Proof.
  unfold finish. destruct line as [l|e]; [destruct drawing as [e|]|];
    intros H; try discriminate H.
  injection H as <- _. reflexivity.
Qed.

Lemma create_id (c : creation) (self : t) (i : Z) (out : list string) :
  snd (create c self) = Py.Ok (i, out) -> i = next_id self.
Proof.
  destruct c;
    unfold FakeCanvasItems.create, create_line, create_rectangle,
      create_oval, create_text;
    cbn [snd]; apply finish_id.
Qed.

Lemma show_small (v : Py.value) :
  small_int v = true -> exists s, show float_str v = Py.Ok s.
Proof.
  destruct v as [| b | z | f | s | r]; try discriminate.
  unfold small_int, show, Py.int_to_str. intros H. rewrite H. eauto.
Qed.

Lemma point_small (x y : Py.value) :
  small_int x = true -> small_int y = true ->
  exists s, point float_str x y = Py.Ok s.
Proof.
  intros Hx Hy. destruct (show_small x Hx) as [a Ha].
  destruct (show_small y Hy) as [b Hb].
  unfold point. rewrite Ha, Hb. cbn [bind]. eauto.
Qed.

Lemma sub_small (a b : Py.value) :
  small_int a = true -> small_int b = true -> sub_raises a b = None.
Proof.
  destruct a as [| ? | z | ? | ? | ?]; try discriminate;
    destruct b as [| ? | z' | ? | ? | ?]; try discriminate.
  reflexivity.
Qed.

Lemma created_line_small (what : string) (x1 y1 x2 y2 : Py.value)
    (kw : gmap string Py.value) :
  small_int x1 && small_int y1 && small_int x2 && small_int y2
  && shown dict_repr kw = true ->
  (exists l, created_line float_str dict_repr what x1 y1 x2 y2 kw = Py.Ok l)
  /\ draw_box kivy x1 y1 x2 y2 = None.
Proof.
  intros H.
  apply andb_prop in H. destruct H as [H Hk].
  apply andb_prop in H. destruct H as [H H4].
  apply andb_prop in H. destruct H as [H H3].
  apply andb_prop in H. destruct H as [H1 H2].
  split.
  - destruct (point_small x1 y1 H1 H2) as [p Hp].
    destruct (point_small x2 y2 H3 H4) as [q Hq].
    unfold created_line. rewrite Hp, Hq. cbn [bind].
    unfold shown in Hk. destruct (dict_repr kw) as [d|e]; [|discriminate].
    cbn [bind]. eauto.
  - unfold draw_box. destruct kivy; [|reflexivity].
    rewrite (sub_small x2 x1 H3 H1). apply (sub_small y2 y1 H4 H2).
Qed.

Lemma plain_returns (c : creation) (self : t) :
  plain dict_repr c = true ->
  exists out, snd (create c self) = Py.Ok (next_id self, out).
Proof.
  destruct c as [x1 y1 x2 y2 kw | x1 y1 x2 y2 kw | x1 y1 x2 y2 kw
                 | x y text kw];
    unfold FakeCanvasItems.create, create_line, create_rectangle,
      create_oval, create_text; cbn [snd plain]; intros H.
  - destruct (created_line_small "line" _ _ _ _ _ H) as [[l Hl] _].
    rewrite Hl. cbn [finish]. eauto.
  - destruct (created_line_small "rectangle" _ _ _ _ _ H) as [[l Hl] Hd].
    rewrite Hl, Hd. cbn [finish]. eauto.
  - destruct (created_line_small "oval" _ _ _ _ _ H) as [[l Hl] Hd].
    rewrite Hl, Hd. cbn [finish]. eauto.
  - destruct text as [| ? | ? | ? | s | ?]; try discriminate H.
    apply andb_prop in H. destruct H as [H Hk].
    apply andb_prop in H. destruct H as [Hx Hy].
    destruct (point_small x y Hx Hy) as [p Hp].
    unfold show at 1. cbn [bind]. rewrite Hp. cbn [bind].
    unfold shown in Hk. destruct (dict_repr kw) as [d|e]; [|discriminate].
    cbn [bind finish]. eauto.
Qed.

Lemma find_all_length (self : t) :
  length (find_all self) = length (_canvas_items self).
Proof. unfold find_all. apply length_map. Qed.

Lemma created_ids (cs : list creation) (self : t) (n : nat) :
  find_all self = first_ids n ->
  find_all (created cs self) = first_ids (n + length cs).
Proof.
  revert self n. induction cs as [|c cs IH]; intros self n Hids.
  - cbn [length FakeCanvasItems.created fold_left]. now rewrite Nat.add_0_r.
  - cbn [length].
    replace (n + S (length cs))%nat with (S n + length cs)%nat by lia.
    unfold FakeCanvasItems.created. cbn [fold_left]. apply IH.
    rewrite (create_state c self), Hids, first_ids_succ.
    unfold next_id. rewrite <- find_all_length, Hids, first_ids_length.
    reflexivity.
Qed.

(** On a canvas from which nothing was deleted, after any sequence of
    creations, each of which returned or raised after adding its item,
    the items carry the ids [1, 2, ..., n] in the order of their
    creation, no id twice; the next creation returns [n + 1] if it
    returns, and it does return for coordinates that are ints of at
    most 4300 digits, a text that is a string and options that can be
    shown. *)
Theorem created_items_are_numbered (cs : list creation) (c : creation) :
  let canvas := created cs (Canvas []) in
  let n := Z.of_nat (length cs) in
  find_all canvas = first_ids (length cs) /\
  List.NoDup (find_all canvas) /\
  (forall i out, snd (create c canvas) = Py.Ok (i, out) -> i = n + 1) /\
  (plain dict_repr c = true ->
   exists out, snd (create c canvas) = Py.Ok (n + 1, out)).
Proof.
  intros canvas n.
  assert (Hids : find_all canvas = first_ids (length cs)).
  { apply (created_ids cs (Canvas []) 0). reflexivity. }
  assert (Hnext : next_id canvas = n + 1).
  { unfold next_id. now rewrite <- find_all_length, Hids, first_ids_length. }
  split; [exact Hids|]. split; [|split].
  - rewrite Hids. apply first_ids_NoDup.
  - intros i out H. rewrite <- Hnext. exact (create_id c canvas i out H).
  - intros H. rewrite <- Hnext. exact (plain_returns c canvas H).
Qed.

Lemma find_all_delete (k : Z) (self : t) :
  find_all (fst (delete k self))
  = List.filter (fun z => negb (z =? k)) (find_all self).
Proof.
  unfold find_all, delete. simpl.
  induction (_canvas_items self) as [|it items IH]; [reflexivity|].
  rewrite filter_cons. simpl.
  destruct (Z.eqb_spec (id it) k) as [Heq|Hne].
  - rewrite decide_False by tauto. exact IH.
  - rewrite decide_True by exact Hne. simpl. now rewrite IH.
Qed.

Lemma filter_out_length (k : Z) (l : list Z) :
  List.NoDup l -> In k l ->
  S (length (List.filter (fun z => negb (z =? k)) l)) = length l.
Proof.
  induction l as [|z l IH]; intros Hnd Hin; [contradiction|].
  inversion Hnd as [|? ? Hz Hl]; subst. simpl.
  destruct (Z.eqb_spec z k) as [->|Hne]; simpl.
  - f_equal. clear IH Hnd Hin Hl.
    induction l as [|y l IH]; [reflexivity|]. simpl.
    destruct (Z.eqb_spec y k) as [->|_].
    + exfalso. apply Hz. now left.
    + simpl. f_equal. apply IH. intros H. apply Hz. now right.
  - f_equal. apply IH; [exact Hl|]. destruct Hin; [congruence | assumption].
Qed.

(** Ids are reused after a deletion: on a canvas with the ids
    [1, ..., n], after deleting an item other than the last a creation
    gives its item the id [n], which the last of the old items still
    carries, so that two items share the id; the creation returns [n]
    if it returns, and it does return for plain arguments. *)
Theorem id_reused_after_delete (self : t) (n : nat) (k : Z) (c : creation) :
  find_all self = first_ids n ->
  1 <= k < Z.of_nat n ->
  let self1 := fst (delete k self) in
  let self2 := fst (create c self1) in
  let new_id := Z.of_nat n in
  find_all self2 = (find_all self1 ++ [new_id])%list /\
  In new_id (find_all self1) /\
  count_occ Z.eq_dec (find_all self2) new_id = 2%nat /\
  ~ List.NoDup (find_all self2) /\
  (forall i out, snd (create c self1) = Py.Ok (i, out) -> i = new_id) /\
  (plain dict_repr c = true ->
   exists out, snd (create c self1) = Py.Ok (new_id, out)).
Proof.
  intros Hids Hk self1 self2 new_id.
  assert (Hf : find_all self1
               = List.filter (fun z => negb (z =? k)) (first_ids n)).
  { unfold self1. now rewrite find_all_delete, Hids. }
  assert (Hlen : S (length (find_all self1)) = n).
  { rewrite Hf, filter_out_length;
      [apply first_ids_length | apply first_ids_NoDup | apply in_first_ids; lia]. }
  assert (Hnext : next_id self1 = new_id).
  { unfold next_id, new_id. rewrite <- find_all_length. lia. }
  assert (Hstate : find_all self2 = (find_all self1 ++ [new_id])%list).
  { unfold self2. rewrite (create_state c self1), Hnext. reflexivity. }
  assert (Hin : In new_id (find_all self1)).
  { rewrite Hf. apply filter_In. split; [apply in_first_ids; unfold new_id; lia|].
    apply negb_true_iff, Z.eqb_neq. unfold new_id. lia. }
  assert (Hcount : count_occ Z.eq_dec (find_all self2) new_id = 2%nat).
  { rewrite Hstate, count_occ_app. cbn [count_occ].
    destruct (Z.eq_dec new_id new_id); [|contradiction].
    assert (Hnd : List.NoDup (find_all self1)).
    { rewrite Hf. apply List.NoDup_filter, first_ids_NoDup. }
    pose proof (proj1 (NoDup_count_occ Z.eq_dec _) Hnd new_id) as Hle.
    apply (count_occ_In Z.eq_dec) in Hin. lia. }
  split; [exact Hstate|]. split; [exact Hin|].
  split; [exact Hcount|]. split; [|split].
  - intros Hnd.
    pose proof (proj1 (NoDup_count_occ Z.eq_dec _) Hnd new_id). lia.
  - intros i out H. rewrite <- Hnext. exact (create_id c self1 i out H).
  - intros H. rewrite <- Hnext. exact (plain_returns c self1 H).
Qed.

Lemma coords_loop_ids (item_id : Z) (cs : list Py.value) (items : list item) :
  map id (snd (fst (coords_loop item_id cs items))) = map id items.
Proof.
  induction items as [|it items IH]; [reflexivity|]. simpl.
  destruct (id it =? item_id).
  - destruct cs; reflexivity.
  - destruct (coords_loop item_id cs items) as [[r rest'] out]. simpl in *.
    now rewrite IH.
Qed.

Lemma coords_loop_set (item_id : Z) (cs : list Py.value) (items : list item) :
  In item_id (map id items) -> cs <> [] ->
  fst (fst (coords_loop item_id cs items)) = Some cs /\
  fst (fst (coords_loop item_id []
              (snd (fst (coords_loop item_id cs items))))) = Some cs.
Proof.
  intros Hin Hcs. induction items as [|it items IH]; [contradiction|].
  simpl. destruct (Z.eqb_spec (id it) item_id) as [Heq|Hne].
  - destruct cs as [|c cs]; [contradiction|]. simpl.
    rewrite Heq, Z.eqb_refl. split; reflexivity.
  - destruct Hin as [Hin|Hin]; [contradiction|].
    destruct (IH Hin) as [H1 H2].
    destruct (coords_loop item_id cs items) as [[r rest'] out]. simpl in *.
    destruct (Z.eqb_spec (id it) item_id) as [|_]; [contradiction|].
    destruct (coords_loop item_id [] rest') as [[r2 rest2] out2]. simpl in *.
    split; assumption.
Qed.

Lemma coords_loop_unknown (item_id : Z) (cs : list Py.value)
    (items : list item) :
  ~ In item_id (map id items) ->
  coords_loop item_id cs items = (None, items, []).
Proof.
  induction items as [|it items IH]; intros Hnot; [reflexivity|]. simpl.
  destruct (Z.eqb_spec (id it) item_id) as [Heq|Hne].
  - exfalso. apply Hnot. now left.
  - rewrite IH; [reflexivity|]. intros H. apply Hnot. now right.
Qed.

(** [coords] reads back what it stored: for the id of an item,
    [coords(id, x, y, ...)] returns the new coordinates, leaves the ids
    as they are, and a following [coords(id)] returns the same
    coordinates; for an id that no item has, the answer is [None] and
    nothing changes or is printed. *)
Theorem coords_set_then_get (item_id : Z) (cs : list Py.value) (self : t) :
  cs <> [] ->
  (In item_id (find_all self) ->
   let self' := snd (fst (coords item_id cs self)) in
   fst (fst (coords item_id cs self)) = Some cs /\
   fst (fst (coords item_id [] self')) = Some cs /\
   find_all self' = find_all self) /\
  (~ In item_id (find_all self) ->
   coords item_id cs self = (None, self, [])).
Proof.
  intros Hcs. unfold FakeCanvasItems.coords, find_all. split.
  - intros Hin.
    pose proof (coords_loop_set item_id cs _ Hin Hcs) as [H1 H2].
    pose proof (coords_loop_ids item_id cs (_canvas_items self)) as H3.
    destruct (coords_loop item_id cs (_canvas_items self)) as [[r items] out].
    simpl in *.
    destruct (coords_loop item_id [] items) as [[r2 items2] out2].
    simpl in *. repeat split; assumption.
  - intros Hnot. rewrite coords_loop_unknown by exact Hnot.
    now destruct self.
Qed.

End CanvasItems.

Lemma created_items_are_numbered_witness :
  let show := fun _ : Py.pyfloat => "nan" in
  let repr := fun _ : gmap string Py.value => Py.Ok "{}" in
  let calls :=
    [FakeCanvasItems.Rectangle (Py.VStr "0") (Py.VStr "0") (Py.VStr "9")
       (Py.VStr "9") ∅;
     FakeCanvasItems.Line (Py.VInt 0) (Py.VInt 0) (Py.VInt 5) (Py.VInt 5) ∅] in
  exists out,
    snd (FakeCanvasItems.create show repr true
           (FakeCanvasItems.Oval (Py.VInt 0) (Py.VInt 0) (Py.VInt 4)
              (Py.VInt 2) ∅)
           (FakeCanvasItems.created show repr true calls
              (FakeCanvasItems.Canvas [])))
    = Py.Ok (3, out).
Proof.
  intros show repr calls.
  refine (proj2 (proj2 (proj2
            (created_items_are_numbered show repr true calls
               (FakeCanvasItems.Oval (Py.VInt 0) (Py.VInt 0) (Py.VInt 4)
                  (Py.VInt 2) ∅)))) _).
  vm_compute. reflexivity.
Defined.

Lemma id_reused_after_delete_witness :
  let show := fun _ : Py.pyfloat => "nan" in
  let repr := fun _ : gmap string Py.value => Py.Ok "{}" in
  let dot := FakeCanvasItems.Text (Py.VInt 1) (Py.VInt 1) (Py.VStr "x") ∅ in
  let canvas :=
    FakeCanvasItems.created show repr true [dot; dot; dot]
      (FakeCanvasItems.Canvas []) in
  FakeCanvasItems.find_all
    (fst (FakeCanvasItems.create show repr true dot
            (fst (FakeCanvasItems.delete 1 canvas))))
  = [2; 3; 3].
Proof.
  intros show repr dot canvas.
  refine (proj1 (id_reused_after_delete show repr true canvas 3 1 dot _ _)).
  - reflexivity.
  - lia.
Defined.

Lemma coords_set_then_get_witness :
  let canvas :=
    FakeCanvasItems.Canvas
      [FakeCanvasItems.Item FakeCanvasItems.TLine
         [Py.VInt 0; Py.VInt 0; Py.VInt 5; Py.VInt 5] None ∅ 1] in
  fst (fst (FakeCanvasItems.coords (fun _ => "()") 1
              [Py.VInt 1; Py.VInt 2; Py.VInt 3; Py.VInt 4] canvas))
  = Some [Py.VInt 1; Py.VInt 2; Py.VInt 3; Py.VInt 4].
Proof.
  intros canvas.
  refine (proj1 (proj1 (coords_set_then_get (fun _ => "()") 1
                          [Py.VInt 1; Py.VInt 2; Py.VInt 3; Py.VInt 4]
                          canvas _) _)).
  - discriminate.
  - simpl. now left.
Defined.


(** ** FakeMenu: deleting and configuring items *)

Section MenuItems.
Context (float_str : Py.pyfloat -> string).
Context (dict_repr : gmap string Py.value -> string).
Import FakeMenu.

Local Abbreviation delete := (FakeMenu.delete float_str).
Local Abbreviation delete_loop := (FakeMenu.delete_loop float_str).
Local Abbreviation entryconfig := (FakeMenu.entryconfig float_str dict_repr).

Lemma down_range_empty (e i : Z) : e < i -> down_range e i = [].
Proof.
  intros H. unfold down_range.
  replace (Z.to_nat (e - i + 1)) with 0%nat by lia. reflexivity.
Qed.

Lemma down_range_cons (e i : Z) :
  i <= e -> down_range e i = e :: down_range (e - 1) i.
Proof.
  intros H. unfold down_range.
  replace (Z.to_nat (e - i + 1)) with (S (Z.to_nat (e - 1 - i + 1))) by lia.
  cbn [seq map]. rewrite <- seq_shift, map_map. f_equal.
  - lia.
  - apply map_ext. intros k. lia.
Qed.

Lemma down_range_length (e i : Z) :
  length (down_range e i) = Z.to_nat (e - i + 1).
Proof. unfold down_range. now rewrite length_map, length_seq. Qed.

Lemma pop_length (i : Z) (items : list item) :
  0 <= i < Z.of_nat (length items) ->
  S (length (pop i items)) = length items.
Proof.
  intros Hi. unfold pop.
  rewrite length_app, firstn_length_le, length_skipn by lia. lia.
Qed.

Lemma delete_loop_range (count : nat) :
  forall (i e : Z) (items : list item),
    0 <= i -> e = i + Z.of_nat count - 1 -> e < Z.of_nat (length items) ->
    fst (delete_loop (down_range e i) items)
    = (firstn (Z.to_nat i) items ++ skipn (Z.to_nat (e + 1)) items)%list /\
    length (snd (delete_loop (down_range e i) items)) = count.
Proof.
  induction count as [|count IH]; intros i e items Hi He Hlen.
  - rewrite down_range_empty by lia. simpl.
    replace (Z.to_nat (e + 1)) with (Z.to_nat i) by lia.
    now rewrite firstn_skipn.
  - rewrite down_range_cons by lia. simpl.
    destruct (Z.ltb_spec e (Z.of_nat (length items))) as [_|]; [|lia].
    simpl.
    destruct (IH i (e - 1) (pop e items) Hi ltac:(lia)) as [Hitems Hout].
    { pose proof (pop_length e items ltac:(lia)). lia. }
    rewrite Hitems, Hout. split; [|reflexivity].
    unfold pop.
    replace (Z.to_nat (e - 1 + 1)) with (Z.to_nat e) by lia.
    replace (Z.to_nat (e + 1)) with (S (Z.to_nat e)) by lia.
    f_equal.
    + rewrite firstn_app, firstn_firstn.
      rewrite firstn_length_le by lia.
      replace (Z.to_nat i - Z.to_nat e)%nat with 0%nat by lia.
      rewrite Nat.min_l by lia. simpl. apply app_nil_r.
    + rewrite skipn_app, firstn_length_le by lia.
      rewrite Nat.sub_diag. simpl.
      rewrite skipn_all2; [reflexivity|]. rewrite firstn_length_le; lia.
Qed.

(** [delete(i, j)] with [0 <= i <= j < len] removes the items at the
    indices [i] to [j] and keeps the others in their order, printing one
    line for each removed item; [delete(i)] removes the item at [i]; with
    an index outside the menu nothing is removed. *)
Theorem menu_delete_range (i j : Z) (self : t) :
  0 <= i <= j ->
  j < Z.of_nat (length (_menu_items self)) ->
  (exists out,
     delete (At i) (Some (At j)) self
     = Done ({| _menu_items :=
                  (firstn (Z.to_nat i) (_menu_items self) ++
                   skipn (Z.to_nat (j + 1)) (_menu_items self))%list |}, out) /\
     Z.of_nat (length out) = j - i + 1) /\
  (exists out,
     delete (At i) None self
     = Done ({| _menu_items :=
                  (firstn (Z.to_nat i) (_menu_items self) ++
                   skipn (Z.to_nat (i + 1)) (_menu_items self))%list |}, out) /\
     length out = 1%nat) /\
  (forall k end_,
     k < 0 \/ Z.of_nat (length (_menu_items self)) <= k ->
     delete (At k) end_ self = Done (self, [])).
Proof.
  intros Hij Hj. split; [|split].
  - unfold FakeMenu.delete. simpl.
    destruct (Z.leb_spec 0 i); [|lia].
    destruct (Z.ltb_spec i (Z.of_nat (length (_menu_items self)))); [|lia].
    destruct (Z.leb_spec 0 j); [|lia].
    destruct (Z.ltb_spec j (Z.of_nat (length (_menu_items self)))); [|lia].
    simpl.
    destruct (delete_loop_range (Z.to_nat (j - i + 1)) i j (_menu_items self))
      as [Hitems Hout]; [lia | lia | lia |].
    eexists. split; [now rewrite Hitems|]. rewrite Hout. lia.
  - unfold FakeMenu.delete. simpl.
    destruct (Z.leb_spec 0 i); [|lia].
    destruct (Z.ltb_spec i (Z.of_nat (length (_menu_items self)))); [|lia].
    simpl.
    destruct (delete_loop_range 1 i i (_menu_items self))
      as [Hitems Hout]; [lia | lia | lia |].
    eexists. split; [now rewrite Hitems | exact Hout].
  - intros k end_ Hk. unfold FakeMenu.delete.
    destruct (Z.leb_spec 0 k), (Z.ltb_spec k (Z.of_nat (length (_menu_items self))));
      try reflexivity; lia.
Qed.

(** String indices of [delete]: ['end'] and ['last'] remove the last
    item; with any other string and no second argument the call fails
    with [TypeError] on a menu that has items, because the string is then
    compared with [0], and does nothing on an empty menu. *)
Theorem menu_delete_named (s : string) (self : t) :
  s <> "end" -> s <> "last" ->
  (_menu_items self <> [] ->
   delete (Named s) None self = Failed TypeError /\
   exists out,
     delete (Named "end") None self
     = Done ({| _menu_items := removelast (_menu_items self) |}, out) /\
     delete (Named "last") None self
     = Done ({| _menu_items := removelast (_menu_items self) |}, out)) /\
  (_menu_items self = [] -> delete (Named s) None self = Done (self, [])).
Proof.
  intros Hend Hlast.
  apply String.eqb_neq in Hend, Hlast. split.
  - intros Hne.
    assert (Hpos : 0 < Z.of_nat (length (_menu_items self))).
    { destruct (_menu_items self); [contradiction | simpl; lia]. }
    split.
    + unfold FakeMenu.delete. simpl. rewrite Hend, Hlast. simpl.
      destruct (Z.ltb_spec 0 (Z.of_nat (length (_menu_items self))));
        [reflexivity | lia].
    + unfold FakeMenu.delete. simpl.
      set (n := Z.of_nat (length (_menu_items self))) in *.
      destruct (Z.leb_spec 0 (n - 1)); [|lia].
      destruct (Z.ltb_spec (n - 1) n); [|lia]. simpl.
      destruct (delete_loop_range 1 (n - 1) (n - 1) (_menu_items self))
        as [Hitems Hout]; [lia | lia | lia |].
      assert (Hlast' : fst (delete_loop (down_range (n - 1) (n - 1))
                              (_menu_items self))
                       = removelast (_menu_items self)).
      { rewrite Hitems.
        rewrite skipn_all2 by (unfold n; lia). rewrite app_nil_r.
        replace (Z.to_nat (n - 1)) with (Nat.pred (length (_menu_items self)))
          by (unfold n; lia).
        symmetry. apply removelast_firstn_len. }
      rewrite Hlast'. eexists. split; reflexivity.
  - intros Hempty. unfold FakeMenu.delete. rewrite Hempty. simpl.
    rewrite Hend, Hlast. reflexivity.
Qed.

(** Item options: for a command item, [entrycget] after [entryconfig]
    returns the configured value for every configured option and the
    earlier value for every other one; on a separator, which has no
    options, both calls fail with [KeyError]. *)
Theorem menu_entry_options (i : Z) (kwargs : gmap string Py.value)
    (key : string) (self : t) (it : item) :
  0 <= i ->
  nth_error (_menu_items self) (Z.to_nat i) = Some it ->
  (forall opts, options it = Some opts ->
     exists self' out,
       entryconfig (At i) kwargs self = Done (self', out) /\
       length (_menu_items self') = length (_menu_items self) /\
       entrycget (At i) key self'
       = Done (match kwargs !! key with
               | Some v => Some v
               | None => opts !! key
               end)) /\
  (options it = None ->
   entryconfig (At i) kwargs self = Failed KeyError /\
   entrycget (At i) key self = Failed KeyError).
Proof.
  intros Hi Hnth.
  assert (Hlt : (Z.to_nat i < length (_menu_items self))%nat).
  { apply nth_error_Some. congruence. }
  split.
  - intros opts Hopts. unfold FakeMenu.entryconfig, entrycget. simpl.
    destruct (Z.leb_spec 0 i); [|lia].
    destruct (Z.ltb_spec i (Z.of_nat (length (_menu_items self)))); [|lia].
    simpl. rewrite Hnth, Hopts.
    eexists. eexists. split; [reflexivity|]. simpl.
    assert (Hlen : length (firstn (Z.to_nat i) (_menu_items self) ++
                     Item (type it) (label it) (command it)
                       (Some (kwargs ∪ opts)) ::
                     skipn (S (Z.to_nat i)) (_menu_items self))%list
                   = length (_menu_items self)).
    { rewrite length_app, firstn_length_le by lia. simpl.
      rewrite length_skipn. lia. }
    split; [exact Hlen|]. rewrite Hlen.
    destruct (Z.ltb_spec i (Z.of_nat (length (_menu_items self)))); [|lia].
    simpl.
    rewrite nth_error_app2 by (rewrite firstn_length_le; lia).
    rewrite firstn_length_le by lia. rewrite Nat.sub_diag. simpl.
    f_equal. rewrite lookup_union.
    destruct (kwargs !! key), (opts !! key); reflexivity.
  - intros Hnone. unfold FakeMenu.entryconfig, entrycget. simpl.
    destruct (Z.leb_spec 0 i); [|lia].
    destruct (Z.ltb_spec i (Z.of_nat (length (_menu_items self)))); [|lia].
    simpl. rewrite Hnth, Hnone. split; reflexivity.
Qed.

End MenuItems.

Lemma menu_delete_range_witness :
  let show := fun _ : Py.pyfloat => "nan" in
  let cmd := fun l => FakeMenu.Item FakeMenu.Command (Some (Py.VStr l)) None (Some ∅) in
  exists out,
    FakeMenu.delete show (FakeMenu.At 1) (Some (FakeMenu.At 2))
      (FakeMenu.Menu [cmd "a"; cmd "b"; cmd "c"; cmd "d"])
    = FakeMenu.Done (FakeMenu.Menu [cmd "a"; cmd "d"], out) /\
    Z.of_nat (length out) = 2.
Proof.
  intros show cmd.
  refine (proj1 (menu_delete_range show 1 2
                   (FakeMenu.Menu [cmd "a"; cmd "b"; cmd "c"; cmd "d"]) _ _));
    simpl; lia.
Defined.

Lemma menu_delete_named_witness :
  FakeMenu.delete (fun _ => "nan") (FakeMenu.Named "first") None
    (FakeMenu.Menu [FakeMenu.Item FakeMenu.Separator None None None])
  = FakeMenu.Failed FakeMenu.TypeError.
Proof.
  refine (proj1 (proj1 (menu_delete_named (fun _ => "nan") "first"
                          (FakeMenu.Menu
                             [FakeMenu.Item FakeMenu.Separator None None None])
                          _ _) _)); discriminate.
Defined.

Lemma menu_entry_options_witness :
  FakeMenu.entrycget (FakeMenu.At 0) "label"
    (FakeMenu.Menu [FakeMenu.Item FakeMenu.Separator None None None])
  = FakeMenu.Failed FakeMenu.KeyError.
Proof.
  refine (proj2 (proj2 (menu_entry_options (fun _ => "nan") (fun _ => "{}")
                          0 ∅ "label"
                          (FakeMenu.Menu
                             [FakeMenu.Item FakeMenu.Separator None None None])
                          (FakeMenu.Item FakeMenu.Separator None None None)
                          _ _) _)).
  - lia.
  - reflexivity.
  - reflexivity.
Defined.



(** ** FakeNotebook *)

Section NotebookTabs.
Context (float_str : Py.pyfloat -> string).
Context (kivy_tab_lines : FakeNotebook.ident -> Py.value -> list string).

Local Abbreviation nb_index := (FakeNotebook.index).
Local Abbreviation nb_forget := (FakeNotebook.forget float_str).
Local Abbreviation nb_select := (FakeNotebook.select float_str).
Local Abbreviation nb_insert := (FakeNotebook.insert float_str).

Lemma ident_eqb_eq (a b : FakeNotebook.ident) :
  FakeNotebook.ident_eqb a b = true <-> a = b.
Proof.
  destruct a, b; simpl; split; intros H; try discriminate; try reflexivity.
  - apply Nat.eqb_eq in H. congruence.
  - inversion H. apply Nat.eqb_refl.
  - apply Z.eqb_eq in H. congruence.
  - inversion H. apply Z.eqb_refl.
  - apply String.eqb_eq in H. congruence.
  - inversion H. apply String.eqb_refl.
Qed.

Lemma position_none (c : FakeNotebook.ident) (i : nat)
    (tabs : list FakeNotebook.tab) :
  ~ In c (map FakeNotebook.child tabs) ->
  FakeNotebook.position c i tabs = None.
Proof.
  revert i. induction tabs as [|tb rest IH]; intros i Hn; simpl.
  - reflexivity.
  - destruct (FakeNotebook.ident_eqb (FakeNotebook.child tb) c) eqn:E.
    + apply ident_eqb_eq in E. exfalso. apply Hn. left. exact E.
    + apply IH. intros Hin. apply Hn. right. exact Hin.
Qed.

Lemma position_first (c : FakeNotebook.ident) (i : nat)
    (before after : list FakeNotebook.tab) (tb : FakeNotebook.tab) :
  ~ In c (map FakeNotebook.child before) ->
  FakeNotebook.child tb = c ->
  FakeNotebook.position c i (before ++ tb :: after)
  = Some (i + length before)%nat.
Proof.
  revert i. induction before as [|b rest IH]; intros i Hn Hc; simpl.
  - assert (E : FakeNotebook.ident_eqb (FakeNotebook.child tb) c = true)
      by (apply ident_eqb_eq; exact Hc).
    rewrite E. f_equal. lia.
  - destruct (FakeNotebook.ident_eqb (FakeNotebook.child b) c) eqn:E.
    + apply ident_eqb_eq in E. exfalso. apply Hn. left. exact E.
    + rewrite IH.
      * f_equal. lia.
      * intros Hin. apply Hn. right. exact Hin.
      * exact Hc.
Qed.

(** [index] looks a tab up by its child only: it answers the position of
    the first tab with that child, and -1 for everything that is no
    child of a tab, the names ['current'] and ['end'] included, whatever
    tab is selected. *)
Theorem notebook_index_by_child_only (self : FakeNotebook.t)
    (before after : list FakeNotebook.tab) (tb : FakeNotebook.tab)
    (name : string) :
  FakeNotebook._tabs self = (before ++ tb :: after)%list ->
  ~ In (FakeNotebook.child tb) (map FakeNotebook.child before) ->
  ~ In (FakeNotebook.Str name) (FakeNotebook.tabs self) ->
  nb_index (FakeNotebook.child tb) self = Z.of_nat (length before)
  /\ nb_index (FakeNotebook.Str name) self = -1.
Proof.
  intros Htabs Hfirst Hname. unfold FakeNotebook.index. split.
  - rewrite Htabs, (position_first _ 0 before after tb Hfirst eq_refl).
    reflexivity.
  - rewrite position_none; [reflexivity|exact Hname].
Qed.

Lemma remove_at_nth {A : Type} (k i : nat) (l : list A) :
  (k <= i)%nat ->
  nth_error (firstn k l ++ skipn (S k) l)%list i = nth_error l (S i).
Proof.
  revert i l. induction k as [|k IH]; intros i l Hk.
  - destruct l as [|a l]; simpl.
    + destruct i; reflexivity.
    + rewrite drop_0. reflexivity.
  - destruct l as [|a l]; simpl.
    + destruct i; reflexivity.
    + destruct i as [|i]; [lia|]. simpl. apply IH. lia.
Qed.

Lemma remove_at_length {A : Type} (k : nat) (l : list A) :
  (k < length l)%nat ->
  length (firstn k l ++ skipn (S k) l)%list = Nat.pred (length l).
Proof.
  intros Hk. rewrite length_app, firstn_length_le, length_skipn; lia.
Qed.

(** [forget] removes a tab and leaves [_current_tab] as it is: after the
    tab at or before the selected one is forgotten, [select()] answers
    the child of the tab that came after the selected one, and [None]
    when the selected tab was the last. *)
Theorem notebook_forget_shifts_selection (self : FakeNotebook.t)
    (k cur : Z) :
  0 <= k <= cur ->
  cur < Z.of_nat (length (FakeNotebook._tabs self)) ->
  let self1 := fst (nb_select (FakeNotebook.Num cur) self) in
  let self2 := fst (nb_forget (FakeNotebook.Num k) self1) in
  FakeNotebook.selected self1
  = FakeNotebook.child <$> nth_error (FakeNotebook._tabs self) (Z.to_nat cur)
  /\ FakeNotebook.selected self2
     = FakeNotebook.child
       <$> nth_error (FakeNotebook._tabs self) (S (Z.to_nat cur)).
Proof.
  intros Hk Hcur. cbv zeta.
  unfold FakeNotebook.select.
  assert (E1 : (0 <=? cur) && (cur <? Z.of_nat (length (FakeNotebook._tabs self)))
               = true).
  { apply andb_true_intro. split; [apply Z.leb_le|apply Z.ltb_lt]; lia. }
  rewrite E1. cbn [fst]. split.
  - unfold FakeNotebook.selected. cbn [FakeNotebook._tabs FakeNotebook._current_tab].
    rewrite E1. reflexivity.
  - unfold FakeNotebook.forget. cbn [FakeNotebook._tabs FakeNotebook._current_tab].
    assert (E2 : (0 <=? k) && (k <? Z.of_nat (length (FakeNotebook._tabs self)))
                 = true).
    { apply andb_true_intro. split; [apply Z.leb_le|apply Z.ltb_lt]; lia. }
    rewrite E2. cbn [fst]. unfold FakeNotebook.selected.
    cbn [FakeNotebook._tabs FakeNotebook._current_tab].
    unfold FakeNotebook.remove_at.
    destruct ((0 <=? cur)
              && (cur <? Z.of_nat
                    (length (firstn (Z.to_nat k) (FakeNotebook._tabs self)
                             ++ skipn (S (Z.to_nat k))
                                  (FakeNotebook._tabs self))%list))) eqn:E3.
    + rewrite remove_at_nth by lia. reflexivity.
    + apply andb_false_iff in E3. destruct E3 as [E3|E3].
      * apply Z.leb_gt in E3. lia.
      * apply Z.ltb_ge in E3. rewrite remove_at_length in E3 by lia.
        symmetry.
        assert (Hn : nth_error (FakeNotebook._tabs self) (S (Z.to_nat cur))
                     = None) by (apply nth_error_None; lia).
        rewrite Hn. reflexivity.
Qed.

(** [insert] at a position from 0 on puts the child at that position of
    [tabs()], after the last tab when the position is beyond, and the
    same for ['end']; any other string raises [TypeError]. *)
Theorem notebook_insert_position (self : FakeNotebook.t) (p : Z)
    (c : FakeNotebook.ident) (kwargs : gmap string Py.value) (s : string) :
  0 <= p ->
  s <> "end" ->
  (exists self' out,
      nb_insert (FakeNotebook.Num p) c kwargs self = Py.Ok (self', out)
      /\ FakeNotebook.tabs self'
         = (firstn (Z.to_nat p) (FakeNotebook.tabs self) ++ c
            :: skipn (Z.to_nat p) (FakeNotebook.tabs self))%list)
  /\ (exists self' out,
      nb_insert (FakeNotebook.Str "end") c kwargs self = Py.Ok (self', out)
      /\ FakeNotebook.tabs self' = (FakeNotebook.tabs self ++ [c])%list)
  /\ nb_insert (FakeNotebook.Str s) c kwargs self = Py.Raise Py.TypeError.
Proof.
  intros Hp Hs. unfold FakeNotebook.insert, FakeNotebook.tabs.
  split; [|split].
  - destruct (Z.of_nat (length (FakeNotebook._tabs self)) <=? p) eqn:E.
    + apply Z.leb_le in E. eexists _, _. split; [reflexivity|].
      cbn [FakeNotebook._tabs]. rewrite map_app. cbn [map FakeNotebook.child].
      rewrite firstn_all2, skipn_all2 by (rewrite length_map; lia).
      reflexivity.
    + apply Z.leb_gt in E. eexists _, _. split; [reflexivity|].
      cbn [FakeNotebook._tabs]. unfold FakeNotebook.list_insert.
      assert (Hb : Py.slice_bound (length (FakeNotebook._tabs self)) p
                   = Z.to_nat p).
      { unfold Py.slice_bound. destruct (p <? 0) eqn:E0.
        - apply Z.ltb_lt in E0. lia.
        - lia. }
      rewrite Hb, map_app. cbn [map FakeNotebook.child].
      rewrite <- firstn_map, <- skipn_map. reflexivity.
  - cbn [String.eqb Ascii.eqb Bool.eqb]. eexists _, _. split; [reflexivity|].
    cbn [FakeNotebook._tabs]. rewrite map_app. reflexivity.
  - destruct (String.eqb s "end") eqn:E; [|reflexivity].
    apply String.eqb_eq in E. contradiction.
Qed.

End NotebookTabs.

Lemma notebook_index_by_child_only_witness :
  let tb := fun r => FakeNotebook.Tab (FakeNotebook.Widget r) (Py.VStr "t")
                       (Some (Py.VStr "normal")) ∅ in
  let self := FakeNotebook.Notebook [tb 7%nat; tb 8%nat; tb 9%nat] 1 in
  FakeNotebook.index (FakeNotebook.Widget 8) self = 1
  /\ FakeNotebook.index (FakeNotebook.Str "current") self = -1.
Proof.
  intros tb self.
  refine (notebook_index_by_child_only self [tb 7%nat] [tb 9%nat] (tb 8%nat)
            "current" eq_refl _ _).
  - simpl. intros [H|[]]. discriminate H.
  - simpl. intros [H|[H|[H|[]]]]; discriminate H.
Defined.

Lemma notebook_forget_shifts_selection_witness :
  let show := fun _ : Py.pyfloat => "nan" in
  let tb := fun r => FakeNotebook.Tab (FakeNotebook.Widget r) (Py.VStr "t")
                       (Some (Py.VStr "normal")) ∅ in
  let self := FakeNotebook.Notebook [tb 7%nat; tb 8%nat; tb 9%nat] 0 in
  let self1 := fst (FakeNotebook.select show (FakeNotebook.Num 1) self) in
  let self2 := fst (FakeNotebook.forget show (FakeNotebook.Num 0) self1) in
  FakeNotebook.selected self1 = Some (FakeNotebook.Widget 8)
  /\ FakeNotebook.selected self2 = Some (FakeNotebook.Widget 9).
Proof.
  intros show tb self.
  refine (notebook_forget_shifts_selection show self 0 1 _ _); simpl; lia.
Defined.

Lemma notebook_insert_position_witness :
  let show := fun _ : Py.pyfloat => "nan" in
  let tb := fun r => FakeNotebook.Tab (FakeNotebook.Widget r) (Py.VStr "t")
                       (Some (Py.VStr "normal")) ∅ in
  let self := FakeNotebook.Notebook [tb 7%nat; tb 8%nat] 0 in
  FakeNotebook.insert show (FakeNotebook.Str "first") (FakeNotebook.Widget 9)
    ∅ self
  = Py.Raise Py.TypeError.
Proof.
  intros show tb self.
  refine (proj2 (proj2 (notebook_insert_position show self 1
                          (FakeNotebook.Widget 9) ∅ "first" _ _)));
    [lia|discriminate].
Defined.



(** ** FakeText *)

Section TextContent.
Context (float_str : Py.pyfloat -> string).
Context (obj_slice : string -> Py.outcome string).

Local Abbreviation text_insert := (FakeText.insert float_str obj_slice).
Local Abbreviation text_delete := (FakeText.delete float_str).

Lemma get_store (new_text : string) (self : FakeText.t) :
  FakeText.get (FakeText.store new_text self) = Py.VStr new_text.
Proof.
  unfold FakeText.get, FakeText.store. cbn [FakeText.kivy_text FakeText._content].
  destruct (FakeText.kivy_text self) as [[old|r]|]; reflexivity.
Qed.

Lemma is_str_true (v : Py.value) (s : string) :
  FakeText.is_str v s = true <-> v = Py.VStr s.
Proof.
  destruct v; simpl; split; intros H; try discriminate.
  - apply String.eqb_eq in H. congruence.
  - inversion H. apply String.eqb_refl.
Qed.

(** [insert] knows two places only: at index ['1.0'] the text goes in
    front of the content, at every other index, whatever it says, it
    goes behind it. *)
Theorem text_insert_front_or_back (self : FakeText.t) (index : Py.value)
    (current text : string) :
  FakeText.get self = Py.VStr current ->
  FakeText.get (fst (text_insert index (Py.VStr text) self))
  = Py.VStr (if FakeText.is_str index "1.0" then text ++ current
             else current ++ text).
Proof.
  intros Hget. unfold FakeText.insert. rewrite Hget. cbn [fst Py.str].
  rewrite get_store.
  destruct (FakeText.is_str index "1.0") eqn:E.
  - apply is_str_true in E. subst index. reflexivity.
  - destruct (FakeText.is_str index "end" || FakeText.is_str index "end-1c");
      reflexivity.
Qed.

(** [insert] of a number changes the content and then fails: the text
    of the number is in the widget, and the call raises [TypeError]. *)
Theorem text_insert_number_raises_after_change (self : FakeText.t)
    (current : string) (n : Z) :
  FakeText.get self = Py.VStr current ->
  let r := text_insert (Py.VStr "end") (Py.VInt n) self in
  snd r = Py.Raise Py.TypeError
  /\ FakeText.get (fst r) = Py.VStr (current ++ Py.str_of_int n).
Proof.
  intros Hget. cbv zeta. unfold FakeText.insert. rewrite Hget.
  cbn [fst snd Py.str FakeText.first_50]. split; [reflexivity|].
  rewrite get_store. reflexivity.
Qed.

Lemma plus_1c_not_end (s : string) : s ++ "+1c" <> "end".
Proof.
  destruct s as [|a s]; [discriminate|].
  intros H. apply (f_equal String.length) in H.
  change (String a s ++ "+1c") with (String a (s ++ "+1c")) in H.
  cbn [String.length] in H. rewrite append_length in H.
  cbn [String.length] in H. lia.
Qed.

(** [delete] empties the widget when it is given exactly ['1.0'] and
    ['end'], and changes nothing for any other range; with the end left
    out it never changes anything. *)
Theorem text_delete_all_or_nothing (self : FakeText.t)
    (start end_ : Py.value) :
  FakeText.get (fst (text_delete start end_ self))
  = (if FakeText.is_str start "1.0" && FakeText.is_str end_ "end"
     then Py.VStr "" else FakeText.get self)
  /\ fst (text_delete start Py.VNone self) = self.
Proof.
  unfold FakeText.delete. split.
  - destruct end_ as [| b | z | f | s | r]; cbn [FakeText.is_str];
      try (rewrite andb_false_r; reflexivity).
    + destruct (String.eqb (Py.str float_str start ++ "+1c") "end") eqn:E.
      * apply String.eqb_eq in E. exfalso. exact (plus_1c_not_end _ E).
      * rewrite !andb_false_r. reflexivity.
    + destruct (FakeText.is_str start "1.0" && String.eqb s "end").
      * cbn [fst]. apply get_store.
      * reflexivity.
  - cbn [FakeText.is_str].
    destruct (String.eqb (Py.str float_str start ++ "+1c") "end") eqn:E.
    + apply String.eqb_eq in E. exfalso. exact (plus_1c_not_end _ E).
    + rewrite andb_false_r. reflexivity.
Qed.

End TextContent.

Lemma text_insert_front_or_back_witness :
  let show := fun _ : Py.pyfloat => "nan" in
  let slice := fun _ : string => @Py.Raise string Py.TypeError in
  FakeText.get
    (fst (FakeText.insert show slice (Py.VStr "2.3") (Py.VStr "new")
            (FakeText.Text (Some (FakeText.TextInput "one two")) (Py.VStr ""))))
  = Py.VStr "one twonew".
Proof.
  intros show slice.
  refine (text_insert_front_or_back show slice _ (Py.VStr "2.3") "one two"
            "new" _).
  reflexivity.
Defined.

Lemma text_insert_number_raises_after_change_witness :
  let show := fun _ : Py.pyfloat => "nan" in
  let slice := fun _ : string => @Py.Raise string Py.TypeError in
  let r := FakeText.insert show slice (Py.VStr "end") (Py.VInt 42)
             (FakeText.Text (Some (FakeText.Simulated "Text({})"))
                (Py.VStr "n = ")) in
  snd r = Py.Raise Py.TypeError /\ FakeText.get (fst r) = Py.VStr "n = 42".
Proof.
  intros show slice.
  refine (text_insert_number_raises_after_change show slice _ "n = " 42 _).
  reflexivity.
Defined.



(** ** FakeTk: window options and the close handler *)

Section WindowOptions.
Context (float_str : Py.pyfloat -> string).
Context (fn_name : nat -> string).

Local Abbreviation tk_configure := (FakeTkWindow.configure float_str).
Local Abbreviation tk_configure_item := (FakeTkWindow.configure_item float_str).
Local Abbreviation tk_protocol := (FakeTkWindow.protocol fn_name).

Local Ltac case_name x s :=
  let E := fresh "E" in
  destruct (String.eqb x s) eqn:E;
  [apply String.eqb_eq in E; subst x|].

Local Ltac closed_names :=
  repeat match goal with
         | |- context [String.eqb ?a ?b] =>
             let v := eval vm_compute in (String.eqb a b) in
             first [constr_eq v true | constr_eq v false];
             change (String.eqb a b) with v
         end.

Local Ltac known_names :=
  repeat match goal with
         | H : String.eqb ?x ?s = false |- context [String.eqb ?s ?x] =>
             rewrite (String.eqb_sym s x), H
         | H : String.eqb ?x ?s = false |- context [String.eqb ?x ?s] =>
             rewrite H
         end.

Local Ltac eval_names :=
  repeat progress
    (closed_names; known_names;
     cbn [orb fst FakeTkWindow._bg_color FakeTkWindow._fg_color
            FakeTkWindow._width FakeTkWindow._height FakeTkWindow._config
            default]).

Lemma cget_configure_item (self : FakeTkWindow.t) (out : list event)
    (key opt : string) (value : Py.value) :
  FakeTkWindow.cget opt (fst (tk_configure_item (self, out) (key, value)))
  = if String.eqb (FakeTkWindow.option_name key)
         (FakeTkWindow.option_name opt)
    then value else FakeTkWindow.cget opt self.
Proof.
  unfold FakeTkWindow.configure_item, FakeTkWindow.cget,
    FakeTkWindow.option_name.
  case_name key "bg"; [|case_name key "background";
    [|case_name key "fg"; [|case_name key "foreground";
    [|case_name key "width"; [|case_name key "height"]]]]];
    eval_names;
  (case_name opt "bg"; [|case_name opt "background";
    [|case_name opt "fg"; [|case_name opt "foreground";
    [|case_name opt "width"; [|case_name opt "height"]]]]]);
    eval_names; try reflexivity.
  destruct (String.eqb key opt) eqn:Eko.
  - apply String.eqb_eq in Eko. subst opt.
    rewrite lookup_insert_eq. reflexivity.
  - apply String.eqb_neq in Eko. rewrite lookup_insert_ne by exact Eko.
    destruct (FakeTkWindow._config self) as [c|]; [reflexivity|].
    cbn [default]. rewrite lookup_empty. reflexivity.
Qed.

Lemma cget_fold (kwargs : list (string * Py.value)) (self : FakeTkWindow.t)
    (out : list event) (opt : string) :
  FakeTkWindow.cget opt (fst (fold_left tk_configure_item kwargs (self, out)))
  = default (FakeTkWindow.cget opt self)
      (FakeTkWindow.given_last opt kwargs).
Proof.
  revert self out. induction kwargs as [|[key value] rest IH]; intros self out.
  - reflexivity.
  - cbn [fold_left FakeTkWindow.given_last].
    destruct (tk_configure_item (self, out) (key, value)) as [self1 out1] eqn:E.
    rewrite IH.
    destruct (FakeTkWindow.given_last opt rest) as [later|];
      [reflexivity|].
    cbn [default].
    replace self1 with (fst (tk_configure_item (self, out) (key, value)))
      by (rewrite E; reflexivity).
    rewrite cget_configure_item.
    destruct (String.eqb (FakeTkWindow.option_name key)
                (FakeTkWindow.option_name opt)); reflexivity.
Qed.

(** [cget] after [configure] answers, for every option, the value given
    last for it in the call, where [bg] and [background] count as one
    option and so do [fg] and [foreground]; an option the call did not
    give keeps its answer. *)
Theorem tk_configure_then_cget (kwargs : list (string * Py.value))
    (self : FakeTkWindow.t) (opt : string) :
  FakeTkWindow.cget opt (fst (tk_configure kwargs self))
  = default (FakeTkWindow.cget opt self)
      (FakeTkWindow.given_last opt kwargs).
Proof.
  unfold FakeTkWindow.configure. apply cget_fold.
Qed.

(** For a handler that does not itself call back into the window (a
    callable is modelled as returning or raising, never as calling
    back): [destroy] calls the handler registered for
    [WM_DELETE_WINDOW] once, marks the window destroyed and ends with
    the line "Window destroyed", whether the handler returns or raises
    an [Exception]; a second [destroy] calls the handler again, as
    nothing guards it. *)
Theorem tk_destroy_calls_close_handler (self : FakeTkWindow.t)
    (f : callable) :
  let self1 := fst (tk_protocol "WM_DELETE_WINDOW" f self) in
  let r := FakeTkWindow.destroy self1 in
  invoked (snd r) = [fn_id f]
  /\ FakeTkWindow._destroyed (fst r) = Some true
  /\ last (snd r) = Some (Print "Window destroyed")
  /\ invoked (snd (FakeTkWindow.destroy (fst r))) = [fn_id f].
Proof.
  cbv zeta. unfold FakeTkWindow.destroy, FakeTkWindow.protocol.
  cbn [fst snd FakeTkWindow._protocols FakeTkWindow._destroyed].
  rewrite lookup_insert_eq.
  destruct (fn_does f) as [|msg]; repeat split; reflexivity.
Qed.

End WindowOptions.



(** ** FakeTk: job ids of [after] *)

(** Job ids are not unique: when two calls of [after] draw the same
    number they return the same id, both threads are started, and
    [_after_jobs] keeps the second thread only under that id; one
    [after_cancel] then removes the id and a second one finds nothing. *)
Theorem after_same_number_shares_job_id (w : FakeTk.world) (rand : Z)
    (delay1 delay2 : Z) (func1 func2 : callable)
    (args1 args2 : list Py.value) :
  let r1 := FakeTk.after delay1 func1 args1 rand w in
  let r2 := FakeTk.after delay2 func2 args2 rand (snd r1) in
  let th1 := FakeTk.Thread (FakeTk.fresh w) delay1 func1 args1 in
  let th2 := FakeTk.Thread (S (FakeTk.fresh w)) delay2 func2 args2 in
  let w3 := FakeTk.after_cancel (fst r2) (snd r2) in
  fst r1 = fst r2
  /\ FakeTk._after_jobs (FakeTk.self (snd r2))
     = Some (<[fst r1 := th2]>
               (default ∅ (FakeTk._after_jobs (FakeTk.self w))))
  /\ FakeTk.running (snd r2) = (FakeTk.running w ++ [th1; th2])%list
  /\ FakeTk._after_jobs (FakeTk.self w3)
     = Some (delete (fst r1)
               (default ∅ (FakeTk._after_jobs (FakeTk.self w))))
  /\ FakeTk.self (FakeTk.after_cancel (fst r1) w3) = FakeTk.self w3.
Proof.
  cbv zeta. unfold FakeTk.after.
  cbn [fst snd FakeTk.self FakeTk.running FakeTk.fresh FakeTk.print
         FakeTk._after_jobs default]. unfold id.
  split; [reflexivity|]. split.
  { rewrite insert_insert_eq. reflexivity. }
  split.
  { rewrite <- app_assoc. reflexivity. }
  unfold FakeTk.after_cancel.
  cbn [fst snd FakeTk.self FakeTk.running FakeTk.fresh FakeTk.print
         FakeTk.update FakeTk._after_jobs default]. unfold id.
  rewrite lookup_insert_eq.
  cbn [fst snd FakeTk.self FakeTk.running FakeTk.fresh FakeTk.print
         FakeTk.update FakeTk._after_jobs default]. unfold id.
  split.
  { rewrite !delete_insert_eq. reflexivity. }
  rewrite lookup_delete_eq. reflexivity.
Qed.



(** ** The translator on sample inputs *)

Lemma translate_imports_two_tests_witness :
  Translator.translate_imports "from tkinter import Button"
  = Translator.join Translate.newline Translator.kivy_import_lines.
Proof.
  refine (proj1 (translate_imports_two_tests "from tkinter import Button") _).
  left. apply search_spec. vm_compute. eauto.
Defined.

Lemma translate_window_template_witness :
  Translate.translate_window "root = tk.Tk()" = Translate.app_template.
Proof.
  refine (proj1 (translate_window_template "root = tk.Tk()") _).
  exists (list_ascii_of_string "root = tk."), []. reflexivity.
Defined.

Lemma translate_button_comment_iff_witness :
  Translate.starts_with_str "Button("
    (Translator.translate_button "Button(root, text='Go')") = true.
Proof.
  refine (proj2 (translate_button_comment_iff "Button(root, text='Go')") _).
  apply search_spec. vm_compute. eauto.
Defined.
